(** * WoRMS taxonomic matching (edna2obis, [WoRMS_v3_matching.py])

    A shallow embedding of [src-v3/taxonomic_assignment/WoRMS_v3_matching.py]
    and the properties of its resolution engine.

    Modelling conventions.
    - A Python [str] is a [string] whose characters are the code points
      0..255; [None]/[NaN] cells are [None] of [option string].
    - A Python [dict] with string keys is a [gmap string _]; the results
      cache, keyed by tuples and by the string ['IS_TRULY_EMPTY'], is a
      [gmap map_key _].
    - The remote service ([pyworms]), the outcome of the Stage 2 process
      pool and the iteration order of a Python [set] are fields of an
      environment record [Env]; a call that raises returns [Raises].
    - Logging and timing have no effect on the returned table and are left
      out.  The argument [n_proc] and the two process pools come with
      [get_worms_match_for_dataframe_call]; the definitions before it are
      the run once the pool of Stage 1 has delivered. *)

From Stdlib Require Import ZArith Ascii String.
From stdpp Require Import base option list strings gmap fin_maps sorting pretty.

Open Scope string_scope.
Open Scope Z_scope.
Open Scope list_scope.
Open Scope stdpp_scope.

#[local] Set Warnings "-clear-no-such-hyp".

(** ** Python string primitives *)

Module PyStr.

Definition ord (c : ascii) : N := N_of_ascii c.

(** [c.isspace()] on the code points below 256. *)
Definition isspace (c : ascii) : bool :=
  let n := ord c in
  (((9 <=? n) && (n <=? 13)) || ((28 <=? n) && (n <=? 32))
   || (n =? 133) || (n =? 160))%N.

(** [c.isdigit()]: the decimal digits and the superscripts 1, 2, 3. *)
Definition isdigit (c : ascii) : bool :=
  let n := ord c in
  (((48 <=? n) && (n <=? 57)) || (n =? 178) || (n =? 179) || (n =? 185))%N.

(** The class [\d] of [re]: decimal digits only. *)
Definition re_digit (c : ascii) : bool :=
  let n := ord c in ((48 <=? n) && (n <=? 57))%N.

Definition lower_char (c : ascii) : ascii :=
  let n := ord c in
  if (((65 <=? n) && (n <=? 90))
      || ((192 <=? n) && (n <=? 222) && negb (n =? 215)))%N
  then ascii_of_N (n + 32) else c.

Fixpoint lower (s : string) : string :=
  match s with
  | EmptyString => EmptyString
  | String c r => String (lower_char c) (lower r)
  end.

(** Python truthiness of a string. *)
Definition nonempty (s : string) : bool :=
  match s with EmptyString => false | String _ _ => true end.

Fixpoint lstrip_by (p : ascii → bool) (s : string) : string :=
  match s with
  | EmptyString => EmptyString
  | String c r => if p c then lstrip_by p r else s
  end.

Fixpoint rstrip_by (p : ascii → bool) (s : string) : string :=
  match s with
  | EmptyString => EmptyString
  | String c r =>
      let r' := rstrip_by p r in
      if negb (nonempty r') && p c then EmptyString else String c r'
  end.

(** [s.strip()] *)
Definition strip (s : string) : string :=
  rstrip_by isspace (lstrip_by isspace s).

(** [s.rstrip(chars)] for a one-character [chars]. *)
Definition rstrip_char (ch : ascii) (s : string) : string :=
  rstrip_by (Ascii.eqb ch) s.

(** [s.replace(old, new)] for a non-empty [old]: the occurrences are
    taken from left to right and do not overlap.  [skip] counts the
    characters of a replaced occurrence still to be passed over. *)
Fixpoint replace_go (old new : string) (skip : nat) (s : string) : string :=
  match s with
  | EmptyString => EmptyString
  | String c r =>
      match skip with
      | S k => replace_go old new k r
      | O =>
          if String.prefix old s
          then new +:+ replace_go old new (Nat.pred (String.length old)) r
          else String c (replace_go old new O r)
      end
  end.

Definition replace (old new s : string) : string := replace_go old new O s.

(** [s.split(sep)] for a one-character separator. *)
Fixpoint split (sep : ascii) (s : string) : list string :=
  match s with
  | EmptyString => [EmptyString]
  | String c r =>
      if Ascii.eqb c sep then EmptyString :: split sep r
      else match split sep r with
           | p :: ps => String c p :: ps
           | [] => [String c EmptyString]
           end
  end.

(** [sub in s] *)
Fixpoint contains (sub s : string) : bool :=
  String.prefix sub s ||
  match s with
  | EmptyString => false
  | String _ r => contains sub r
  end.

Fixpoint any (p : ascii → bool) (s : string) : bool :=
  match s with
  | EmptyString => false
  | String c r => p c || any p r
  end.

Fixpoint remove_chars (p : ascii → bool) (s : string) : string :=
  match s with
  | EmptyString => EmptyString
  | String c r => if p c then remove_chars p r else String c (remove_chars p r)
  end.

(** [re.sub(r'\d+', '', s)] *)
Definition re_sub_digits (s : string) : string := remove_chars re_digit s.

(** [re.sub(r'\s+', ' ', s)]; [in_run] tells that the previous character
    was whitespace, already replaced by the single space. *)
Fixpoint collapse_go (in_run : bool) (s : string) : string :=
  match s with
  | EmptyString => EmptyString
  | String c r =>
      if isspace c
      then if in_run then collapse_go true r else String " " (collapse_go true r)
      else String c (collapse_go false r)
  end.

Definition re_sub_spaces (s : string) : string := collapse_go false s.

(** [sep.join(l)] *)
Definition join (sep : string) (l : list string) : string := String.concat sep l.

End PyStr.

(** ** The lineage normalizer *)

(** A cell or a dictionary value: a string, or [None] for Python's
    [None]/[NaN]. *)
Abbreviation pyval := (option string).

(** One turn of the loop of [parse_semicolon_taxonomy] over the pieces of
    the split: [None] when the piece is passed over, [Some name] when
    [name] is appended to [cleaned_names]. *)
Definition clean_name (name : string) : option string :=
  let name := PyStr.strip name in
  if negb (PyStr.nonempty name) || String.eqb (PyStr.lower name) "unassigned"
  then None
  else
    let name := PyStr.replace " spp." "" (PyStr.replace " sp." "" name) in
    let name := if PyStr.any PyStr.isdigit name
                then PyStr.re_sub_digits name else name in
    let name := if PyStr.contains "  " name
                then PyStr.re_sub_spaces name else name in
    let name := PyStr.strip name in
    if PyStr.nonempty name && (1 <? String.length name)%nat
    then Some name else None.

Definition parse_semicolon_taxonomy (tax_string : pyval) : list string :=
  match tax_string with
  | None => []
  | Some s =>
      if negb (PyStr.nonempty (PyStr.strip s)) then []
      else
        let cleaned_string :=
          PyStr.replace "/" " " (PyStr.replace "-" " " (PyStr.replace "_" " " s)) in
        foldl (λ cleaned_names name,
                 match clean_name name with
                 | Some name' => cleaned_names ++ [name']
                 | None => cleaned_names
                 end)
              [] (PyStr.split ";" cleaned_string)
  end.

Global Arguments parse_semicolon_taxonomy : simpl never.

(** ** Dictionaries, results and the environment *)

(** A Python [dict] from strings to strings or [None]: a record of the
    remote service, a classification record of the cache. *)
Abbreviation pydict := (gmap string pyval).

(** [d.get(k)]: [None] for a missing key. *)
Definition get (d : pydict) (k : string) : pyval := default None (d !! k).

(** The outcome of a call that may raise. *)
Inductive py_result (A : Type) : Type :=
| Returns (a : A)
| Raises.
Arguments Returns {A} a.
Arguments Raises {A}.

(** What the code takes from outside: the two calls of [pyworms], whether
    the parallel submission of Stage 2 ([mp.Pool] and [pool.map]) raises,
    and the position of a term in the iteration order of a Python [set]. *)
Record Env : Type := {
  aphiaRecordByAphiaID : Z → py_result (option pydict);
  aphiaRecordsByMatchNames : list string → py_result (list (list (option pydict)));
  pool_map_raises : bool;
  set_rank : string → nat
}.

(** [params_dict]; a field is [None] when the key is missing (or, for the
    assays to skip, when its value is [None]). *)
Record Params : Type := {
  taxonomic_api_source : option string;
  assays_to_skip_species_match : option (list string);
  pr2_worms_dict : option (gmap string Z);
  assay_rank_info : option (gmap string (gmap string Z))
}.

(** A row of the occurrence table: the two columns the code reads and
    every other column by name. *)
Record row : Type := {
  verbatimIdentification : pyval;
  assay_name : string;
  columns : pydict
}.

(** The values of the temporary column [_map_key], which are the keys of
    [results_cache]: the string ['IS_TRULY_EMPTY'] or a tuple. *)
Inductive map_key : Type :=
| IS_TRULY_EMPTY
| Combo (t : string * string).

Global Instance map_key_eq_dec : EqDecision map_key.
Proof. solve_decision. Defined.

Global Instance map_key_countable : Countable map_key :=
  inj_countable'
    (λ k, match k with IS_TRULY_EMPTY => None | Combo t => Some t end)
    (λ o, match o with None => IS_TRULY_EMPTY | Some t => Combo t end)
    (λ k, match k with IS_TRULY_EMPTY => eq_refl | Combo _ => eq_refl end).

Definition DWC_RANKS_STD : list string :=
  ["kingdom"; "phylum"; "class"; "order"; "family"; "genus"; "species"].

Definition accepted (record : pydict) : bool :=
  bool_decide (get record "status" = Some "accepted").

(** ** The two workers *)

Definition get_worms_classification_by_id_worker
    (env : Env) (api_source_for_record : string) (aphia_id_to_check : Z) : Z * pydict :=
  let failure : pydict :=
    {[ "match_type_debug" := Some ("Failure_AphiaID_" +:+ pretty aphia_id_to_check) ]} in
  match aphiaRecordByAphiaID env aphia_id_to_check with
  | Returns (Some record) =>
      if accepted record then
        let result : pydict :=
          <[ "match_type_debug" := Some ("Success_AphiaID_" +:+ pretty aphia_id_to_check) ]>
          (<[ "nameAccordingTo" := Some api_source_for_record ]>
          (<[ "taxonRank" := get record "rank" ]>
          (<[ "scientificNameID" := get record "lsid" ]>
          (<[ "scientificName" := get record "scientificname" ]> ∅)))) in
        (aphia_id_to_check,
         foldl (λ result rank_std, <[ rank_std := get record (PyStr.lower rank_std) ]> result)
               result DWC_RANKS_STD)
      else (aphia_id_to_check, failure)
  | Returns None => (aphia_id_to_check, failure)
  | Raises => (aphia_id_to_check, failure)
  end.

(** The inner loop over the candidates of one name: the first candidate
    that is a record with status "accepted". *)
Fixpoint first_accepted (name_list : list (option pydict)) : option pydict :=
  match name_list with
  | [] => None
  | Some m :: rest => if accepted m then Some m else first_accepted rest
  | None :: rest => first_accepted rest
  end.

(** The lookup record built from an accepted candidate. *)
Definition batch_record (m : pydict) : pydict :=
  foldl (λ res rank, <[ rank := get m (PyStr.lower rank) ]> res)
        (<[ "taxonRank" := get m "rank" ]>
        (<[ "scientificNameID" := get m "lsid" ]>
        (<[ "scientificName" := get m "scientificname" ]> ∅)))
        DWC_RANKS_STD.

(** The loop [for j, name_list in enumerate(batch_results_raw)], writing
    into [table]; [chunk[j]] raises when the service answered with more
    lists than names, and the entries written before stay in [table]. *)
Fixpoint record_matches (chunk : list string) (j : nat)
    (batch_results_raw : list (list (option pydict)))
    (table : gmap string pydict) : gmap string pydict * py_result () :=
  match batch_results_raw with
  | [] => (table, Returns ())
  | name_list :: rest =>
      match first_accepted name_list with
      | Some m =>
          match chunk !! j with
          | Some name => record_matches chunk (S j) rest (<[ name := batch_record m ]> table)
          | None => (table, Raises)
          end
      | None => record_matches chunk (S j) rest table
      end
  end.

Definition get_worms_batch_worker (env : Env) (batch_info : nat * list string)
    : nat * gmap string pydict :=
  let '(batch_num, chunk) := batch_info in
  match aphiaRecordsByMatchNames env chunk with
  | Returns batch_results_raw =>
      match record_matches chunk 0 batch_results_raw ∅ with
      | (batch_results, Returns _) => (batch_num, batch_results)
      | (_, Raises) => (batch_num, ∅)
      end
  | Raises => (batch_num, ∅)
  end.

(** [Series.drop_duplicates()]: the first occurrence of each value is
    kept, in order. *)
Fixpoint drop_duplicates_from {A} `{EqDecision A} (seen l : list A) : list A :=
  match l with
  | [] => []
  | x :: l' =>
      if decide (x ∈ seen) then drop_duplicates_from seen l'
      else x :: drop_duplicates_from (x :: seen) l'
  end.

Definition drop_duplicates {A} `{EqDecision A} (l : list A) : list A :=
  drop_duplicates_from [] l.

(** The order in which a Python [set] yields its elements. *)
Definition rank_le (env : Env) : relation string :=
  λ x y, (set_rank env x ≤ set_rank env y)%nat.

Global Instance rank_le_dec (env : Env) (x y : string) : Decision (rank_le env x y).
Proof. unfold rank_le. apply _. Defined.

(** ** [get_worms_match_for_dataframe], stage by stage *)

Section Matching.

Variable env : Env.
Variable params_dict : Params.

Definition api_source : string := default "WoRMS" (taxonomic_api_source params_dict).
Definition assays_to_skip_species : list string :=
  default [] (assays_to_skip_species_match params_dict).
Definition pr2_dict : gmap string Z := default ∅ (pr2_worms_dict params_dict).
Definition rank_info : gmap string (gmap string Z) :=
  default ∅ (assay_rank_info params_dict).

(** [assay_rank_info.get(assay_name, {}).get('max_depth', 99)] *)
Definition max_depth_for_assay (assay : string) : Z :=
  default 99 (default ∅ (rank_info !! assay) !! "max_depth").

(** *** Keys *)

Definition empty_verbatim_mask (r : row) : bool :=
  match verbatimIdentification r with
  | None => true
  | Some v =>
      String.eqb (PyStr.strip v) ""
      || String.eqb (PyStr.lower (PyStr.strip v)) "unassigned"
  end.

(** The value of the column [_map_key] in a row. *)
Definition map_key_of (r : row) : map_key :=
  if empty_verbatim_mask r then IS_TRULY_EMPTY
  else Combo (default "" (verbatimIdentification r), assay_name r).

Definition non_empty_keys (df : list row) : list (string * string) :=
  omap (λ r, match map_key_of r with Combo t => Some t | IS_TRULY_EMPTY => None end) df.

Definition unique_tuples (df : list row) : list (string * string) :=
  drop_duplicates (non_empty_keys df).

(** *** The incertae sedis record *)

Definition incertae_sedis (debug : string) (cleaned : string) : pydict :=
  foldl (λ record col, <[ col := None ]> record)
        (<[ "cleanedTaxonomy" := Some cleaned ]>
        (<[ "match_type_debug" := Some debug ]>
        (<[ "nameAccordingTo" := Some api_source ]>
        (<[ "taxonRank" := None ]>
        (<[ "scientificNameID" := Some "urn:lsid:marinespecies.org:taxname:12" ]>
        (<[ "scientificName" := Some "incertae sedis" ]> ∅))))))
        DWC_RANKS_STD.

(** *** Cases that get incertae sedis at once *)

Definition cleaned_verbatim (verbatim_str : string) : string :=
  PyStr.strip (PyStr.rstrip_char ";" (PyStr.strip verbatim_str)).

Definition is_unassigned_case (verbatim_str : string) : bool :=
  let cleaned := cleaned_verbatim verbatim_str in
  negb (PyStr.nonempty cleaned)
  || bool_decide (PyStr.lower cleaned ∈ ["unassigned"; "nan"; "none"; ""]).

Definition is_simple_case (verbatim_str : string) : bool :=
  bool_decide (PyStr.lower (cleaned_verbatim verbatim_str) ∈ ["eukaryota"]).

Definition fast_path_step
    (st : gmap map_key pydict * list (string * string)) (t : string * string)
    : gmap map_key pydict * list (string * string) :=
  let '(results_cache, cases_to_handle) := st in
  let '(verbatim_str, _) := t in
  if is_unassigned_case verbatim_str then
    (<[ Combo t := incertae_sedis "incertae_sedis_unassigned"
                                  (cleaned_verbatim verbatim_str) ]> results_cache,
     cases_to_handle ++ [t])
  else if is_simple_case verbatim_str then
    (<[ Combo t := incertae_sedis ("incertae_sedis_simple_case_"
                                     +:+ cleaned_verbatim verbatim_str)
                                  (cleaned_verbatim verbatim_str) ]> results_cache,
     cases_to_handle ++ [t])
  else st.

Definition fast_path (tuples : list (string * string))
    : gmap map_key pydict * list (string * string) :=
  foldl fast_path_step (∅, []) tuples.

(** [[t for t in unique_tuples_to_process if t not in cases_to_handle]] *)
Definition remove_handled (tuples cases_to_handle : list (string * string))
    : list (string * string) :=
  filter (λ t, t ∉ cases_to_handle) tuples.

(** *** Stage 1: pre-matching through the local dictionary *)

(** [aphia_id_map]: a dictionary in insertion order, from an identifier
    to the keys that led to it. *)
Fixpoint group_append (aphia_id : Z) (t : string * string)
    (m : list (Z * list (string * string))) : list (Z * list (string * string)) :=
  match m with
  | [] => [(aphia_id, [t])]
  | (k, g) :: rest =>
      if decide (k = aphia_id) then (k, g ++ [t]) :: rest
      else (k, g) :: group_append aphia_id t rest
  end.

(** [aphia_id_map.get(aphia_id, [])] *)
Fixpoint group_get (aphia_id : Z) (m : list (Z * list (string * string)))
    : list (string * string) :=
  match m with
  | [] => []
  | (k, g) :: rest => if decide (k = aphia_id) then g else group_get aphia_id rest
  end.

(** The state of the first loop of Stage 1.  [pr2_lookups] is not in the
    code: it lists, in order, the keys for which the test
    [species_name in pr2_dict] was evaluated. *)
Record prematch_state : Type := {
  aphia_id_map : list (Z * list (string * string));
  unmatched_tuples : list (string * string);
  pr2_lookups : list (string * string)
}.

Definition prematch_step (st : prematch_state) (t : string * string) : prematch_state :=
  let '(verbatim_str, assay) := t in
  if bool_decide (assay ∈ assays_to_skip_species) then
    {| aphia_id_map := aphia_id_map st;
       unmatched_tuples := unmatched_tuples st ++ [t];
       pr2_lookups := pr2_lookups st |}
  else
    match last (parse_semicolon_taxonomy (Some verbatim_str)) with
    | Some species_name =>
        match pr2_dict !! species_name with
        | Some aphia_id =>
            {| aphia_id_map := group_append aphia_id t (aphia_id_map st);
               unmatched_tuples := unmatched_tuples st;
               pr2_lookups := pr2_lookups st ++ [t] |}
        | None =>
            {| aphia_id_map := aphia_id_map st;
               unmatched_tuples := unmatched_tuples st ++ [t];
               pr2_lookups := pr2_lookups st ++ [t] |}
        end
    | None =>
        {| aphia_id_map := aphia_id_map st;
           unmatched_tuples := unmatched_tuples st ++ [t];
           pr2_lookups := pr2_lookups st |}
    end.

Definition prematch (tuples : list (string * string)) : prematch_state :=
  foldl prematch_step
        {| aphia_id_map := []; unmatched_tuples := []; pr2_lookups := [] |} tuples.

(** [';'.join(parsed_names) if parsed_names else verbatim_str] *)
Definition joined_or (parsed_names : list string) (verbatim_str : string) : string :=
  match parsed_names with
  | [] => verbatim_str
  | _ :: _ => PyStr.join ";" parsed_names
  end.

(** The loop over [parallel_results] of Stage 1. *)
Definition apply_id_result (groups : list (Z * list (string * string)))
    (st : gmap map_key pydict * list (string * string)) (res : Z * pydict)
    : gmap map_key pydict * list (string * string) :=
  let '(results_cache, unmatched) := st in
  let '(aphia_id, result) := res in
  if bool_decide (is_Some (result !! "scientificName")) then
    (foldl (λ cache combo,
              <[ Combo combo :=
                   <[ "cleanedTaxonomy" :=
                        Some (joined_or (parse_semicolon_taxonomy (Some combo.1)) combo.1) ]>
                   result ]> cache)
           results_cache (group_get aphia_id groups),
     unmatched)
  else (results_cache, unmatched ++ group_get aphia_id groups).

(** Stage 1 as a whole, once its pool has delivered the results of the
    workers: the cache, the keys left for Stage 2, and the state of the
    first loop.  [stage1_with_pool] below is Stage 1 with a pool that may
    raise. *)
Definition stage1 (results_cache : gmap map_key pydict) (tuples : list (string * string))
    : gmap map_key pydict * list (string * string) * prematch_state :=
  if bool_decide (pr2_dict ≠ ∅) then
    let st := prematch tuples in
    let unique_aphia_ids_to_fetch := (aphia_id_map st).*1 in
    let parallel_results :=
      map (get_worms_classification_by_id_worker env api_source) unique_aphia_ids_to_fetch in
    (foldl (apply_id_result (aphia_id_map st))
           (results_cache, unmatched_tuples st) parallel_results, st)
  else
    ((results_cache, tuples),
     {| aphia_id_map := []; unmatched_tuples := tuples; pr2_lookups := [] |}).

(** *** Stage 2: batch matching of the terms *)

(** [list(set(...))]: the distinct terms, in the order of the set. *)
Definition py_set_list (l : list string) : list string :=
  merge_sort (rank_le env) (remove_dups l).

Definition all_terms_to_match (unmatched : list (string * string)) : list string :=
  py_set_list (unmatched ≫= (λ t, parse_semicolon_taxonomy (Some t.1))).

Definition chunk_size : nat := 50.

(** [range(0, stop, step)] *)
Definition range_step (stop step : nat) : list nat :=
  map (λ k, k * step)%nat (seq 0 ((stop + step - 1) / step)%nat).

Definition batch_data (terms : list string) : list (nat * list string) :=
  map (λ i, (i / chunk_size + 1, take chunk_size (drop i terms))%nat)
      (range_step (length terms) chunk_size).

(** The parallel path: the results of the workers are merged with
    [batch_lookup.update]. *)
Definition parallel_lookup (terms : list string) : gmap string pydict :=
  foldl (λ batch_lookup res, res.2 ∪ batch_lookup) ∅
        (map (get_worms_batch_worker env) (batch_data terms)).

(** One batch of the sequential fallback; the entries go straight into
    [batch_lookup], and an exception ends the batch only. *)
Definition sequential_batch (batch_lookup : gmap string pydict)
    (batch_info : nat * list string) : gmap string pydict :=
  match aphiaRecordsByMatchNames env batch_info.2 with
  | Returns batch_results_raw =>
      (record_matches batch_info.2 0 batch_results_raw batch_lookup).1
  | Raises => batch_lookup
  end.

Definition sequential_lookup (terms : list string) : gmap string pydict :=
  foldl sequential_batch ∅ (batch_data terms).

Definition build_batch_lookup (terms : list string) : gmap string pydict :=
  if pool_map_raises env then sequential_lookup terms else parallel_lookup terms.

(** [parsed_names[:-1]] *)
Definition drop_last (parsed_names : list string) : list string :=
  take (length parsed_names - 1) parsed_names.

Definition is_full_length_taxonomy (parsed_names : list string) (assay : string) : bool :=
  bool_decide (max_depth_for_assay assay ≤ Z.of_nat (length parsed_names)).

(** The scan [for term in reversed(parsed_names)], given the reversed
    list: the first term that is a key of [batch_lookup]. *)
Fixpoint first_in_lookup (batch_lookup : gmap string pydict) (terms : list string)
    : option (string * pydict) :=
  match terms with
  | [] => None
  | term :: rest =>
      match batch_lookup !! term with
      | Some found => Some (term, found)
      | None => first_in_lookup batch_lookup rest
      end
  end.

(** [{**batch_lookup[term], 'nameAccordingTo': ..., ...}] *)
Definition batch_success (found : pydict) (term cleaned_taxonomy : string) : pydict :=
  <[ "cleanedTaxonomy" := Some cleaned_taxonomy ]>
  (<[ "match_type_debug" := Some ("Success_Batch_" +:+ term) ]>
  (<[ "nameAccordingTo" := Some api_source ]> found)).

(** The part of the loop body after the pre-processing. *)
Definition scan_terms (batch_lookup : gmap string pydict)
    (st : gmap map_key pydict * list (string * string))
    (t : string * string) (parsed_names : list string)
    : gmap map_key pydict * list (string * string) :=
  let '(results_cache, still_unmatched_batch) := st in
  let cleaned_taxonomy := joined_or parsed_names t.1 in
  match first_in_lookup batch_lookup (reverse parsed_names) with
  | Some (term, found) =>
      (<[ Combo t := batch_success found term cleaned_taxonomy ]> results_cache,
       still_unmatched_batch)
  | None => (results_cache, still_unmatched_batch ++ [t])
  end.

Definition batch_match_step (batch_lookup : gmap string pydict)
    (st : gmap map_key pydict * list (string * string)) (t : string * string)
    : gmap map_key pydict * list (string * string) :=
  let '(verbatim_str, assay) := t in
  let parsed_names := parse_semicolon_taxonomy (Some verbatim_str) in
  match parsed_names with
  | [] => (st.1, st.2 ++ [t])
  | _ :: _ =>
      if bool_decide (assay ∈ assays_to_skip_species)
         && is_full_length_taxonomy parsed_names assay
      then
        match drop_last parsed_names with
        | [] => (st.1, st.2 ++ [t])
        | _ :: _ => scan_terms batch_lookup st t (drop_last parsed_names)
        end
      else scan_terms batch_lookup st t parsed_names
  end.

(** Stage 2 as a whole: the cache and the keys still unmatched. *)
Definition stage2 (results_cache : gmap map_key pydict)
    (unmatched : list (string * string))
    : gmap map_key pydict * list (string * string) :=
  match unmatched with
  | [] => (results_cache, unmatched)
  | _ :: _ =>
      match all_terms_to_match unmatched with
      | [] => (results_cache, unmatched)
      | _ :: _ =>
          foldl (batch_match_step (build_batch_lookup (all_terms_to_match unmatched)))
                (results_cache, []) unmatched
      end
  end.

(** *** The keys no stage matched *)

Definition no_match_step (results_cache : gmap map_key pydict) (combo : string * string)
    : gmap map_key pydict :=
  let '(verbatim_str, assay) := combo in
  let parsed_names := parse_semicolon_taxonomy (Some verbatim_str) in
  let parsed_names :=
    if bool_decide (assay ∈ assays_to_skip_species)
       && is_full_length_taxonomy parsed_names assay
       && bool_decide (parsed_names ≠ [])
    then drop_last parsed_names else parsed_names in
  <[ Combo combo := incertae_sedis "Failed_All_Stages_NoMatch"
                                   (joined_or parsed_names verbatim_str) ]> results_cache.

Definition final_unmatched (results_cache : gmap map_key pydict)
    (unmatched : list (string * string)) : gmap map_key pydict :=
  foldl no_match_step results_cache unmatched.

(** *** The whole run *)

Definition cache_after_fast_path (df : list row) : gmap map_key pydict :=
  (fast_path (unique_tuples df)).1.

(** [unique_tuples_to_process] once the handled cases are removed. *)
Definition keys_after_fast_path (df : list row) : list (string * string) :=
  remove_handled (unique_tuples df) (fast_path (unique_tuples df)).2.

Definition stage1_of (df : list row)
    : gmap map_key pydict * list (string * string) * prematch_state :=
  stage1 (cache_after_fast_path df) (keys_after_fast_path df).

(** [results_cache] after Stage 1. *)
Definition cache_after_stage1 (df : list row) : gmap map_key pydict :=
  (stage1_of df).1.1.

(** [unmatched_tuples] after Stage 1: the keys handed to Stage 2. *)
Definition keys_for_batch (df : list row) : list (string * string) :=
  (stage1_of df).1.2.

(** [aphia_id_map] at the end of the first loop of Stage 1. *)
Definition identifier_groups (df : list row) : list (Z * list (string * string)) :=
  aphia_id_map (stage1_of df).2.

(** The keys for which Stage 1 tested the local dictionary. *)
Definition dictionary_lookups (df : list row) : list (string * string) :=
  pr2_lookups (stage1_of df).2.

Definition stage2_of (df : list row) : gmap map_key pydict * list (string * string) :=
  stage2 (cache_after_stage1 df) (keys_for_batch df).

(** [results_cache] when the results are applied to the table. *)
Definition final_cache (df : list row) : gmap map_key pydict :=
  <[ IS_TRULY_EMPTY := incertae_sedis "incertae_sedis_truly_empty_fallback" "" ]>
  (final_unmatched (stage2_of df).1 (stage2_of df).2).

(** *** Applying the results to the table *)

(** The row of [results_df] for a record: a column the record lacks
    holds a missing value. *)
Definition results_row (cols : gset string) (record : pydict) : pydict :=
  record ∪ gset_to_gmap None cols.

(** A key that the cache lacks maps to [NaN], from which no table of
    results can be built: the call raises. *)
Definition apply_results (results_cache : gmap map_key pydict) (df : list row)
    : py_result (list row) :=
  if decide (results_cache = ∅) then
    Returns (map (λ r, {| verbatimIdentification := verbatimIdentification r;
                          assay_name := assay_name r;
                          columns := delete "_map_key" (columns r) |}) df)
  else
    match mapM (λ r, results_cache !! map_key_of r) df with
    | None => Raises
    | Some mapped_results =>
        let cols : gset string := ⋃ (dom <$> mapped_results) in
        Returns (zip_with
                   (λ r record,
                      {| verbatimIdentification := verbatimIdentification r;
                         assay_name := assay_name r;
                         columns := delete "_map_key" (results_row cols record ∪ columns r) |})
                   df mapped_results)
    end.

Definition get_worms_match_for_dataframe (occurrence_df : list row) : py_result (list row) :=
  apply_results (final_cache occurrence_df) occurrence_df.

End Matching.


(** ** The run seen from one key

    The loops of the run thread the cache and the lists of keys; the
    functions below say what each stage does for a single key.  They are
    proved against the loops further down. *)

Section PerKey.

Variable env : Env.
Variable params_dict : Params.

(** The record of the fast path for a key, if it takes it. *)
Definition fast_record (t : string * string) : option pydict :=
  if is_unassigned_case t.1 then
    Some (incertae_sedis params_dict "incertae_sedis_unassigned" (cleaned_verbatim t.1))
  else if is_simple_case t.1 then
    Some (incertae_sedis params_dict
            ("incertae_sedis_simple_case_" +:+ cleaned_verbatim t.1)
            (cleaned_verbatim t.1))
  else None.

(** Whether Stage 1 tests the local dictionary for a key. *)
Definition looks_up (t : string * string) : bool :=
  negb (bool_decide (t.2 ∈ assays_to_skip_species params_dict))
  && bool_decide (parse_semicolon_taxonomy (Some t.1) ≠ []).

(** The identifier the local dictionary gives for a key. *)
Definition prematch_id (t : string * string) : option Z :=
  if bool_decide (t.2 ∈ assays_to_skip_species params_dict) then None
  else last (parse_semicolon_taxonomy (Some t.1)) ≫= (pr2_dict params_dict !!.).

(** The record Stage 1 caches for a key, if any. *)
Definition stage1_record (t : string * string) : option pydict :=
  if bool_decide (pr2_dict params_dict ≠ ∅) then
    aphia_id ← prematch_id t;
    let result :=
      (get_worms_classification_by_id_worker env (api_source params_dict) aphia_id).2 in
    if bool_decide (is_Some (result !! "scientificName")) then
      Some (<[ "cleanedTaxonomy" :=
                 Some (joined_or (parse_semicolon_taxonomy (Some t.1)) t.1) ]> result)
    else None
  else None.

(** The terms of a key once the last one is dropped where the assay
    skips species and the lineage is full length. *)
Definition terms_for_matching (t : string * string) : list string :=
  let parsed_names := parse_semicolon_taxonomy (Some t.1) in
  if bool_decide (t.2 ∈ assays_to_skip_species params_dict)
     && is_full_length_taxonomy params_dict parsed_names t.2
  then drop_last parsed_names else parsed_names.

(** The record Stage 2 caches for a key, if any. *)
Definition stage2_record (batch_lookup : gmap string pydict) (t : string * string)
    : option pydict :=
  match terms_for_matching t with
  | [] => None
  | _ :: _ =>
      '(term, found) ← first_in_lookup batch_lookup (reverse (terms_for_matching t));
      Some (batch_success params_dict found term (PyStr.join ";" (terms_for_matching t)))
  end.

Definition no_match_record (t : string * string) : pydict :=
  incertae_sedis params_dict "Failed_All_Stages_NoMatch"
                 (joined_or (terms_for_matching t) t.1).

(** The record a key ends with. *)
Definition resolve (batch_lookup : gmap string pydict) (t : string * string) : pydict :=
  match fast_record t with
  | Some r => r
  | None =>
      match stage1_record t with
      | Some r => r
      | None => default (no_match_record t) (stage2_record batch_lookup t)
      end
  end.

(** The lookup table Stage 2 builds in a run over [df]. *)
Definition batch_lookup_of (df : list row) : gmap string pydict :=
  build_batch_lookup env
    (all_terms_to_match env (keys_for_batch env params_dict df)).

End PerKey.

(** Storing in the cache the record a key has, if it has one. *)
Definition store_some {V} (f : string * string → option V)
    (c : gmap map_key V) (t : string * string) : gmap map_key V :=
  match f t with
  | Some r => <[ Combo t := r ]> c
  | None => c
  end.

(** A record has the seven standard rank fields. *)
Definition has_rank_fields (record : pydict) : Prop :=
  Forall (λ rank, is_Some (record !! rank)) DWC_RANKS_STD.


(** What one batch contributes to [batch_lookup]: the result of its
    worker on the parallel path, the entries it writes on the sequential
    path. *)
Definition batch_entries (env : Env) (batch_info : nat * list string)
    : gmap string pydict :=
  if pool_map_raises env then sequential_batch env ∅ batch_info
  else (get_worms_batch_worker env batch_info).2.

(** Every accepted record the service returns carries a scientific name. *)
Definition service_names_accepted (env : Env) : Prop :=
  (∀ id record,
     aphiaRecordByAphiaID env id = Returns (Some record) →
     accepted record = true → is_Some (get record "scientificname"))
  ∧ (∀ names raw name_list m,
       aphiaRecordsByMatchNames env names = Returns raw →
       name_list ∈ raw → Some m ∈ name_list →
       accepted m = true → is_Some (get m "scientificname")).

(** ** The normalizer, from the words of the specification *)

Fixpoint map_chars (f : ascii → ascii) (s : string) : string :=
  match s with
  | EmptyString => EmptyString
  | String c r => String (f c) (map_chars f r)
  end.

(** Underscore, hyphen and slash become a space. *)
Definition separator_to_space (c : ascii) : ascii :=
  if bool_decide (c ∈ ["_"; "-"; "/"]%char) then " "%char else c.

(** The cleaning of one token, with the way whitespace is collapsed left
    open. *)
Definition normalize_token (collapse : string → string) (token : string)
    : option string :=
  let token := PyStr.strip token in
  if bool_decide (token = "") || bool_decide (PyStr.lower token = "unassigned")
  then None
  else
    let token := PyStr.replace " spp." "" (PyStr.replace " sp." "" token) in
    let token := PyStr.remove_chars PyStr.re_digit token in
    let token := PyStr.strip (collapse token) in
    if bool_decide (String.length token ≤ 1)%nat then None else Some token.

Definition normalize_with (collapse : string → string) (raw : pyval) : list string :=
  match raw with
  | None => []
  | Some s =>
      if bool_decide (PyStr.strip s = "") then []
      else omap (normalize_token collapse)
                (PyStr.split ";" (map_chars separator_to_space s))
  end.

(** Whitespace runs are collapsed only in a token that holds two
    consecutive spaces. *)
Definition collapse_if_double_space (token : string) : string :=
  if PyStr.contains "  " token then PyStr.re_sub_spaces token else token.

(** The normalizer with the whitespace runs of every token collapsed. *)
Definition normalize_claimed : pyval → list string :=
  normalize_with PyStr.re_sub_spaces.

(** The normalizer with the collapse under its condition. *)
Definition normalize : pyval → list string :=
  normalize_with collapse_if_double_space.

Definition tab : ascii := "009"%char.

(** A token holding two tabs. *)
Definition two_tabs : string := "Aa" +:+ String tab (String tab "Bb").

(** Every character of a string satisfies a test. *)
Fixpoint all_chars (p : ascii → bool) (s : string) : bool :=
  match s with
  | EmptyString => true
  | String c r => p c && all_chars p r
  end.

(** A character that the normalizer and the fast path leave alone: not
    whitespace, not a semicolon, not a separator, not a digit. *)
Definition plain_char (c : ascii) : bool :=
  negb (PyStr.isspace c) && negb (Ascii.eqb c ";")
  && Ascii.eqb (separator_to_space c) c && negb (PyStr.isdigit c).

Definition lower_letter (c : ascii) : bool :=
  let n := PyStr.ord c in ((97 <=? n) && (n <=? 122))%N.

(** A character that is not whitespace, or is the ordinary space. *)
Definition space_or_visible (c : ascii) : bool :=
  negb (PyStr.isspace c) || Ascii.eqb c " ".

(** ** Sample runs *)

Definition sample_row (v : pyval) (a : string) : row :=
  {| verbatimIdentification := v; assay_name := a; columns := ∅ |}.

(** An accepted record of the service. *)
Definition metazoa_record : pydict :=
  <[ "status" := Some "accepted" ]>
  (<[ "scientificname" := Some "Metazoa" ]>
  (<[ "lsid" := Some "urn:lsid:marinespecies.org:taxname:2" ]>
  (<[ "rank" := Some "Kingdom" ]>
  (<[ "kingdom" := Some "Animalia" ]> ∅)))).

(** A service that knows the identifier 2 and the name "Metazoa". *)
Definition sample_service : Env :=
  {| aphiaRecordByAphiaID :=
       λ id, if (id =? 2)%Z then Returns (Some metazoa_record) else Raises;
     aphiaRecordsByMatchNames :=
       λ names,
         Returns (map (λ name, if String.eqb name "Metazoa"
                               then [None; Some metazoa_record] else []) names);
     pool_map_raises := false;
     set_rank := λ _, 0%nat |}.

Definition sample_params : Params :=
  {| taxonomic_api_source := None;
     assays_to_skip_species_match := Some ["16S"];
     pr2_worms_dict := Some (<[ "Metazoa" := 2 ]> (<[ "Bacteria" := 6 ]> ∅));
     assay_rank_info := Some {[ "16S" := {[ "max_depth" := 3 ]} ]} |}.

(** The same, with a full lineage of one term for the assay 16S. *)
Definition sample_params_depth1 : Params :=
  {| taxonomic_api_source := None;
     assays_to_skip_species_match := Some ["16S"];
     pr2_worms_dict := Some (<[ "Metazoa" := 2 ]> (<[ "Bacteria" := 6 ]> ∅));
     assay_rank_info := Some {[ "16S" := {[ "max_depth" := 1 ]} ]} |}.

Definition sample_table : list row :=
  [ sample_row (Some "Eukaryota;Metazoa_sp.2;") "18S";
    sample_row None "18S";
    sample_row (Some "unassigned;") "16S";
    sample_row (Some "Eukaryota;Metazoa;Xx") "16S";
    sample_row (Some "Eukaryota") "16S";
    sample_row (Some "Bacteria") "16S";
    sample_row (Some "Eukaryota;Metazoa;Xx") "16S";
    sample_row (Some "a;b;1") "18S";
    sample_row (Some "Bacteria") "18S" ].


(** Sixty distinct terms: more than one batch. *)
Definition sample_terms : list string :=
  map (λ i, "T" +:+ String (ascii_of_nat (97 + i / 26))
                      (String (ascii_of_nat (97 + i mod 26)) ""))
      (seq 0 60).

Definition long_table : list row :=
  [ sample_row (Some (PyStr.join ";" sample_terms)) "18S" ].

(** A service whose batch call raises for the batch holding "Taa". *)
Definition flaky_service (pool_fails : bool) : Env :=
  {| aphiaRecordByAphiaID := λ _, Raises;
     aphiaRecordsByMatchNames :=
       λ names,
         if bool_decide ("Taa" ∈ names) then Raises
         else Returns (map (λ _, [Some metazoa_record]) names);
     pool_map_raises := pool_fails;
     set_rank := λ _, 0%nat |}.

Definition plain_params : Params :=
  {| taxonomic_api_source := None;
     assays_to_skip_species_match := None;
     pr2_worms_dict := None;
     assay_rank_info := None |}.

(** The terms of the long table and their two batches. *)
Definition long_terms : list string :=
  all_terms_to_match (flaky_service false)
    (keys_for_batch (flaky_service false) plain_params long_table).

Definition first_batch : nat * list string := (1%nat, take 50 long_terms).

Definition second_batch : nat * list string := (2%nat, take 50 (drop 50 long_terms)).

(** An accepted record that carries no scientific name. *)
Definition nameless_record : pydict :=
  <[ "status" := Some "accepted" ]> (<[ "rank" := Some "Kingdom" ]> ∅).

(** A service that answers every name with that record. *)
Definition nameless_service : Env :=
  {| aphiaRecordByAphiaID := λ _, Raises;
     aphiaRecordsByMatchNames :=
       λ names, Returns (map (λ _, [Some nameless_record]) names);
     pool_map_raises := false;
     set_rank := λ _, 0%nat |}.

Definition bacteria_table : list row := [ sample_row (Some "Bacteria") "18S" ].

(** ** Further definitions for the properties of the run *)

(** The keys of every record of [results_cache]: the columns that the
    call writes. *)
Definition result_fields : list string :=
  ["scientificName"; "scientificNameID"; "taxonRank"; "nameAccordingTo";
   "match_type_debug"; "cleanedTaxonomy"] ++ DWC_RANKS_STD.


(** The columns of a row that got no match: the name and the identifier
    of incertae sedis, no rank. *)
Definition incertae_sedis_columns (cols : pydict) : Prop :=
  cols !! "scientificName" = Some (Some "incertae sedis")
  ∧ cols !! "scientificNameID" = Some (Some "urn:lsid:marinespecies.org:taxname:12")
  ∧ cols !! "taxonRank" = Some None
  ∧ Forall (λ rank, cols !! rank = Some None) DWC_RANKS_STD.

(** An environment with another remote service. *)
Definition with_service (env : Env)
    (by_id : Z → py_result (option pydict))
    (by_names : list string → py_result (list (list (option pydict)))) : Env :=
  {| aphiaRecordByAphiaID := by_id;
     aphiaRecordsByMatchNames := by_names;
     pool_map_raises := pool_map_raises env;
     set_rank := set_rank env |}.

(** A service that answers like [sample_service] for the identifiers 2
    and 6 and for lists of one to fifty names, and raises otherwise. *)
Definition narrow_by_id (id : Z) : py_result (option pydict) :=
  if bool_decide (id = 2 ∨ id = 6) then aphiaRecordByAphiaID sample_service id
  else Raises.

Definition narrow_by_names (names : list string)
    : py_result (list (list (option pydict))) :=
  if bool_decide (0 < length names ≤ 50)%nat
  then aphiaRecordsByMatchNames sample_service names else Raises.

(** A table whose rows are all resolved by the fast path. *)
Definition offline_sample : list row :=
  [ sample_row None "18S";
    sample_row (Some "Eukaryota") "16S";
    sample_row (Some "NaN;") "18S";
    sample_row (Some "  ") "16S" ].

(** A character a normalized term can hold: not a semicolon, not one of
    the separators that become spaces, not a decimal digit. *)
Definition term_char (c : ascii) : bool :=
  negb (bool_decide (c ∈ [";"; "_"; "-"; "/"]%char)) && negb (PyStr.re_digit c).

(** A character that leaves nothing in a term: whitespace, a decimal
    digit, a semicolon or a separator. *)
Definition filler_char (c : ascii) : bool :=
  PyStr.isspace c || PyStr.re_digit c
  || bool_decide (c ∈ [";"; "_"; "-"; "/"]%char).

(** The number of occurrences of a character in a string. *)
Fixpoint count_char (ch : ascii) (s : string) : nat :=
  match s with
  | EmptyString => 0
  | String c r => (if Ascii.eqb c ch then 1 else 0) + count_char ch r
  end.

(** A service that answers with one list more than it was sent names. *)
Definition overlong_service : Env :=
  {| aphiaRecordByAphiaID := λ _, Raises;
     aphiaRecordsByMatchNames :=
       λ names, Returns (map (λ _, [Some metazoa_record]) names
                         ++ [[Some metazoa_record]]);
     pool_map_raises := false;
     set_rank := λ _, 0%nat |}.

(** ** The call with its process pools

    [stage1] and [get_worms_match_for_dataframe] above are the run once the
    number of processes is known and the pool of Stage 1 has delivered the
    results of its workers.  The code calls [mp.cpu_count()] (line 115) and
    opens the pool of Stage 1 (lines 213-216) outside any [try]: when one
    of them raises, the call raises, while in Stage 2 (lines 255-270) a
    failure of the pool is caught and leads to the sequential fallback.
    The definitions below add the argument [n_proc] and the two pools to
    the run. *)

(** What the pools take from the machine: [mp.cpu_count()], which may
    raise [NotImplementedError], and whether the pool of Stage 1, though
    it could be created, raises.  For the pool of Stage 2 that is
    [pool_map_raises]. *)
Record Machine : Type := {
  cpu_count : py_result Z;
  stage1_pool_raises : bool
}.

(** Lines 114-117: the number of processes both pools are created with. *)
Definition processes (machine : Machine) (n_proc : Z) : py_result Z :=
  if (n_proc =? 0)%Z then
    match cpu_count machine with
    | Returns count => Returns (Z.min 3 count)
    | Raises => Raises
    end
  else Returns (Z.min n_proc 3).

(** [mp.Pool(processes=n)] raises [ValueError] when [n] is below 1. *)
Definition pool_refused (n : Z) : bool := (n <? 1)%Z.

(** An environment with another outcome of the pool of Stage 2. *)
Definition with_pool (env : Env) (raises : bool) : Env :=
  {| aphiaRecordByAphiaID := aphiaRecordByAphiaID env;
     aphiaRecordsByMatchNames := aphiaRecordsByMatchNames env;
     pool_map_raises := raises;
     set_rank := set_rank env |}.

(** Lines 214-216: the pool of Stage 1, created with [n] processes, and
    its [pool.map]. *)
Definition stage1_pool_map (env : Env) (machine : Machine) (n : Z)
    (api_source_for_record : string) (unique_aphia_ids_to_fetch : list Z)
    : py_result (list (Z * pydict)) :=
  if pool_refused n || stage1_pool_raises machine
  then Raises
  else Returns (map (get_worms_classification_by_id_worker env api_source_for_record)
                    unique_aphia_ids_to_fetch).

(** Stage 1 with its pool (lines 190-233): the pool is opened only when
    there is an identifier to fetch. *)
Definition stage1_with_pool (env : Env) (machine : Machine) (params_dict : Params)
    (n : Z) (results_cache : gmap map_key pydict)
    (tuples : list (string * string))
    : py_result (gmap map_key pydict * list (string * string) * prematch_state) :=
  if bool_decide (pr2_dict params_dict ≠ ∅) then
    let st := prematch params_dict tuples in
    match (aphia_id_map st).*1 with
    | [] => Returns (results_cache, unmatched_tuples st, st)
    | _ :: _ =>
        match stage1_pool_map env machine n (api_source params_dict)
                (aphia_id_map st).*1 with
        | Raises => Raises
        | Returns parallel_results =>
            Returns (foldl (apply_id_result (aphia_id_map st))
                           (results_cache, unmatched_tuples st) parallel_results, st)
        end
    end
  else
    Returns ((results_cache, tuples),
             {| aphia_id_map := []; unmatched_tuples := tuples; pr2_lookups := [] |}).

(** Whether the parallel submission of Stage 2, with [n] processes,
    raises: the pool is refused, or it fails by itself. *)
Definition stage2_pool_raises (env : Env) (n : Z) : bool :=
  pool_refused n || pool_map_raises env.

(** The run from Stage 1 on, with [n] processes: Stage 1 may raise;
    Stage 2 and the rest of the run take up its results. *)
Definition run_with_pools (env : Env) (machine : Machine)
    (occurrence_df : list row) (params_dict : Params) (n : Z)
    : py_result (list row) :=
  match stage1_with_pool env machine params_dict n
          (cache_after_fast_path params_dict occurrence_df)
          (keys_after_fast_path params_dict occurrence_df) with
  | Raises => Raises
  | Returns (results_cache, unmatched, _) =>
      let env2 := with_pool env (stage2_pool_raises env n) in
      let '(results_cache, unmatched) :=
        stage2 env2 params_dict results_cache unmatched in
      let results_cache :=
        <[ IS_TRULY_EMPTY :=
             incertae_sedis params_dict "incertae_sedis_truly_empty_fallback" "" ]>
        (final_unmatched params_dict results_cache unmatched) in
      apply_results results_cache occurrence_df
  end.

(** The call, with [n_proc]. *)
Definition get_worms_match_for_dataframe_call (env : Env) (machine : Machine)
    (occurrence_df : list row) (params_dict : Params) (n_proc : Z)
    : py_result (list row) :=
  match processes machine n_proc with
  | Raises => Raises
  | Returns n => run_with_pools env machine occurrence_df params_dict n
  end.

(** A machine with four processors whose pools work. *)
Definition sample_machine : Machine :=
  {| cpu_count := Returns 4; stage1_pool_raises := false |}.

(** A machine that cannot tell the number of its processors. *)
Definition blind_machine : Machine :=
  {| cpu_count := Raises; stage1_pool_raises := false |}.

(** * Properties *)

(** ** Lists and folds *)

Section Lists.

Context {A : Type} `{EqDecision A}.

Lemma elem_of_drop_duplicates_from (seen l : list A) (x : A) :
  x ∈ drop_duplicates_from seen l ↔ x ∈ l ∧ x ∉ seen.
Proof.
  revert seen. induction l as [|y l IH]; intros seen; simpl.
  - set_solver.
  - destruct (decide (y ∈ seen)) as [Hy|Hy].
    + rewrite IH. set_solver.
    + rewrite elem_of_cons, IH. rewrite !elem_of_cons.
      split.
      * intros [->|[? ?]]; [tauto|]. split; [tauto|]. set_solver.
      * intros [[->|Hin] Hs]; [tauto|].
        destruct (decide (x = y)) as [->|Hne]; [tauto|].
        right. split; [done|]. set_solver.
Qed.

Lemma NoDup_drop_duplicates_from (seen l : list A) :
  NoDup (drop_duplicates_from seen l).
Proof.
  revert seen. induction l as [|y l IH]; intros seen; simpl.
  - constructor.
  - destruct (decide (y ∈ seen)); [apply IH|].
    constructor; [|apply IH].
    rewrite elem_of_drop_duplicates_from. set_solver.
Qed.

Lemma elem_of_drop_duplicates (l : list A) (x : A) :
  x ∈ drop_duplicates l ↔ x ∈ l.
Proof. unfold drop_duplicates. rewrite elem_of_drop_duplicates_from. set_solver. Qed.

Lemma NoDup_drop_duplicates (l : list A) : NoDup (drop_duplicates l).
Proof. apply NoDup_drop_duplicates_from. Qed.

End Lists.

Lemma foldl_ext {A B} (f g : A → B → A) (l : list B) (a : A) :
  (∀ a b, f a b = g a b) → foldl f a l = foldl g a l.
Proof.
  intros Hfg. revert a. induction l as [|b l IH]; intros a; [done|].
  simpl. by rewrite Hfg, IH.
Qed.

Section StoreSome.

Context {V : Type}.
Implicit Types (c : gmap map_key V) (l : list (string * string)).

Lemma foldl_store_some_lookup (f : string * string → option V) l c t :
  foldl (store_some f) c l !! Combo t =
    if decide (t ∈ l) then
      match f t with Some r => Some r | None => c !! Combo t end
    else c !! Combo t.
Proof.
  revert c. induction l as [|a l IH]; intros c; simpl.
  - destruct (decide (t ∈ [])) as [Hin|Hin]; [by apply elem_of_nil in Hin|done].
  - rewrite IH. clear IH.
    destruct (decide (t = a)) as [->|Hne].
    + unfold store_some. destruct (f a) as [r|] eqn:Hf.
      * rewrite lookup_insert_eq. repeat case_decide; set_solver.
      * repeat case_decide; set_solver.
    + assert (store_some f c a !! Combo t = c !! Combo t) as ->.
      { unfold store_some. destruct (f a); [|done].
        rewrite lookup_insert_ne; [done|congruence]. }
      repeat case_decide; set_solver.
Qed.

Lemma foldl_store_some_sentinel (f : string * string → option V) l c :
  foldl (store_some f) c l !! IS_TRULY_EMPTY = c !! IS_TRULY_EMPTY.
Proof.
  revert c. induction l as [|a l IH]; intros c; simpl; [done|].
  rewrite IH. unfold store_some. destruct (f a); [|done].
  by rewrite lookup_insert_ne.
Qed.

(** A loop that stores the record of a key or not, and lists the key or
    not, is the two loops run apart. *)
Lemma foldl_store_and_list
    (step : gmap map_key V * list (string * string) → string * string →
            gmap map_key V * list (string * string))
    (f : string * string → option V) (g : string * string → bool) :
  (∀ c u t, step (c, u) t = (store_some f c t, if g t then u ++ [t] else u)) →
  ∀ l c u, foldl step (c, u) l
           = (foldl (store_some f) c l, u ++ filter (λ t, g t = true) l).
Proof.
  intros Hstep. induction l as [|a l IH]; intros c u; simpl.
  - by rewrite app_nil_r.
  - rewrite Hstep, IH. f_equal.
    rewrite filter_cons. destruct (g a) eqn:Hg.
    + rewrite decide_True by done. by rewrite <- app_assoc.
    + rewrite decide_False by congruence. done.
Qed.

End StoreSome.

(** ** The fast path *)

Section FastPath.

Variable params_dict : Params.

Lemma fast_path_step_eq c u t :
  fast_path_step params_dict (c, u) t
  = (store_some (fast_record params_dict) c t,
     if bool_decide (is_Some (fast_record params_dict t)) then u ++ [t] else u).
Proof.
  unfold fast_path_step, store_some, fast_record. destruct t as [v a]; simpl.
  destruct (is_unassigned_case v); [done|].
  destruct (is_simple_case v); [done|].
  rewrite bool_decide_eq_false_2; [done|]. by intros [? ?].
Qed.

Lemma fast_path_eq l :
  fast_path params_dict l
  = (foldl (store_some (fast_record params_dict)) ∅ l,
     filter (λ t, bool_decide (is_Some (fast_record params_dict t)) = true) l).
Proof.
  unfold fast_path.
  rewrite (foldl_store_and_list _ _ _ fast_path_step_eq). done.
Qed.

Lemma fast_path_cache_lookup l t :
  (fast_path params_dict l).1 !! Combo t
  = if decide (t ∈ l) then fast_record params_dict t else None.
Proof.
  rewrite fast_path_eq. simpl. rewrite foldl_store_some_lookup.
  case_decide; [|done]. by destruct (fast_record params_dict t).
Qed.

Lemma elem_of_remove_handled l t :
  t ∈ remove_handled l (fast_path params_dict l).2
  ↔ t ∈ l ∧ fast_record params_dict t = None.
Proof.
  unfold remove_handled. rewrite fast_path_eq. simpl.
  rewrite list_elem_of_filter, list_elem_of_filter.
  rewrite bool_decide_eq_true.
  split.
  - intros [Hn Hin]. split; [done|].
    destruct (fast_record params_dict t) eqn:E; [|done].
    exfalso. apply Hn. split; [eauto|done].
  - intros [Hin Hn]. split; [|done]. rewrite Hn. intros [[? ?] _]. done.
Qed.

Lemma NoDup_remove_handled l cases :
  NoDup l → NoDup (remove_handled l cases).
Proof. intros. by apply NoDup_filter. Qed.

Lemma elem_of_keys_after_fast_path df t :
  t ∈ keys_after_fast_path params_dict df
  ↔ t ∈ unique_tuples df ∧ fast_record params_dict t = None.
Proof. apply elem_of_remove_handled. Qed.

Lemma NoDup_keys_after_fast_path df :
  NoDup (keys_after_fast_path params_dict df).
Proof. apply NoDup_remove_handled, NoDup_drop_duplicates. Qed.

Lemma cache_after_fast_path_lookup df t :
  cache_after_fast_path params_dict df !! Combo t
  = if decide (t ∈ unique_tuples df) then fast_record params_dict t else None.
Proof. apply fast_path_cache_lookup. Qed.

End FastPath.

(** ** Stage 1 *)

Section Groups.

Implicit Types (m : list (Z * list (string * string))).

Lemma group_get_append id id' t m :
  group_get id (group_append id' t m)
  = group_get id m ++ (if decide (id' = id) then [t] else []).
Proof.
  induction m as [|[k g] m IH]; simpl.
  - destruct (decide (id' = id)); done.
  - destruct (decide (k = id')) as [->|Hk]; simpl.
    + destruct (decide (id' = id)); [done|]. by rewrite app_nil_r.
    + destruct (decide (k = id)) as [->|Hk'].
      * rewrite decide_False by done. by rewrite app_nil_r.
      * apply IH.
Qed.

Lemma group_append_keys id t m :
  (group_append id t m).*1 = if decide (id ∈ m.*1) then m.*1 else m.*1 ++ [id].
Proof.
  induction m as [|[k g] m IH].
  - destruct (decide (id ∈ ([] : list (Z * list (string * string))).*1)) as [H|H];
      [by apply elem_of_nil in H|done].
  - cbn [group_append]. rewrite (fmap_cons fst (k, g) m). cbn [fst].
    destruct (decide (k = id)) as [->|Hk].
    + rewrite fmap_cons. cbn [fst].
      destruct (decide (id ∈ id :: m.*1)) as [H|H]; [done|set_solver].
    + rewrite fmap_cons, IH. cbn [fst].
      destruct (decide (id ∈ m.*1)), (decide (id ∈ k :: m.*1)); set_solver.
Qed.

End Groups.

Section Stage1.

Variable env : Env.
Variable params_dict : Params.

Local Abbreviation step := (prematch_step params_dict).
Local Abbreviation hit := (prematch_id params_dict).
Local Abbreviation tested := (looks_up params_dict).

Lemma prematch_step_eq st t :
  step st t
  = {| aphia_id_map := match hit t with
                       | Some id => group_append id t (aphia_id_map st)
                       | None => aphia_id_map st
                       end;
       unmatched_tuples := unmatched_tuples st
                           ++ (if decide (hit t = None) then [t] else []);
       pr2_lookups := pr2_lookups st ++ (if tested t then [t] else []) |}.
Proof.
  unfold prematch_step, prematch_id, looks_up.
  destruct t as [v a]; simpl.
  destruct (bool_decide (a ∈ assays_to_skip_species params_dict)); simpl.
  { by rewrite app_nil_r. }
  destruct (last (parse_semicolon_taxonomy (Some v))) as [sp|] eqn:El; simpl.
  - rewrite bool_decide_eq_true_2
      by (intros E; rewrite E in El; discriminate).
    destruct (pr2_dict params_dict !! sp); simpl; [|done].
    by rewrite app_nil_r.
  - apply last_None in El. rewrite El. simpl. by rewrite app_nil_r.
Qed.

Lemma prematch_fold l st :
  let st' := foldl step st l in
  unmatched_tuples st'
    = unmatched_tuples st ++ filter (λ t, hit t = None) l
  ∧ pr2_lookups st' = pr2_lookups st ++ filter (λ t, tested t = true) l
  ∧ (∀ id, group_get id (aphia_id_map st')
           = group_get id (aphia_id_map st) ++ filter (λ t, hit t = Some id) l)
  ∧ (NoDup (aphia_id_map st).*1 → NoDup (aphia_id_map st').*1)
  ∧ (∀ id, id ∈ (aphia_id_map st').*1
           ↔ id ∈ (aphia_id_map st).*1 ∨ ∃ t, t ∈ l ∧ hit t = Some id).
Proof.
  revert st. induction l as [|t l IH]; intros st; simpl.
  - rewrite !app_nil_r. split_and!; try done.
    + intros id. by rewrite app_nil_r.
    + intros id. split; [by left|]. intros [?|(t & Ht & _)]; [done|].
      by apply elem_of_nil in Ht.
  - destruct (IH (step st t)) as (Hu & Hl & Hg & Hn & Hk). clear IH.
    pose proof (prematch_step_eq st t) as E.
    assert (E1 := f_equal aphia_id_map E).
    assert (E2 := f_equal unmatched_tuples E).
    assert (E3 := f_equal pr2_lookups E).
    cbn [aphia_id_map unmatched_tuples pr2_lookups] in E1, E2, E3. clear E.
    rewrite E2 in Hu. rewrite E3 in Hl. rewrite E1 in Hn, Hk.
    split_and!.
    + rewrite Hu, <- app_assoc. f_equal. rewrite filter_cons.
      destruct (decide (hit t = None)); done.
    + rewrite Hl, <- app_assoc. f_equal. rewrite filter_cons.
      destruct (decide (tested t = true)) as [H|H].
      * by rewrite H.
      * apply not_true_is_false in H. by rewrite H.
    + intros id. rewrite Hg, E1. rewrite filter_cons.
      destruct (hit t) as [id'|] eqn:E.
      * rewrite group_get_append, <- app_assoc. f_equal.
        destruct (decide (id' = id)) as [->|Hne].
        -- rewrite decide_True by done. done.
        -- rewrite decide_False by congruence. done.
      * rewrite decide_False by done. done.
    + intros Hnd. apply Hn. destruct (hit t) as [id'|]; [|done].
      rewrite group_append_keys.
      destruct (decide (id' ∈ (aphia_id_map st).*1)); [done|].
      apply NoDup_app. split_and!; [done| |apply NoDup_singleton].
      intros x Hx Hx'. apply list_elem_of_singleton in Hx'. by subst.
    + intros id. rewrite Hk. clear Hk Hu Hl Hg Hn E2 E3.
      destruct (hit t) as [id'|] eqn:E.
      * rewrite group_append_keys.
        destruct (decide (id' ∈ (aphia_id_map st).*1)) as [Hd|Hd].
        -- split.
           ++ intros [Hin|(t' & Ht' & Hid)]; [by left|].
              right. exists t'. split; [set_solver|done].
           ++ intros [Hin|(t' & Ht' & Hid)]; [by left|].
              apply elem_of_cons in Ht' as [->|Ht'].
              ** left. rewrite E in Hid. by injection Hid as ->.
              ** right. eauto.
        -- split.
           ++ intros [Hin|(t' & Ht' & Hid)].
              ** apply elem_of_app in Hin as [?|Hin]; [by left|].
                 apply list_elem_of_singleton in Hin as ->.
                 right. exists t. split; [set_solver|done].
              ** right. exists t'. split; [set_solver|done].
           ++ intros [Hin|(t' & Ht' & Hid)]; [left; set_solver|].
              apply elem_of_cons in Ht' as [->|Ht'].
              ** left. rewrite E in Hid. injection Hid as ->. set_solver.
              ** right. eauto.
      * split.
        -- intros [?|(t' & Ht' & Hid)]; [by left|]. right. exists t'.
           split; [set_solver|done].
        -- intros [?|(t' & Ht' & Hid)]; [by left|].
           apply elem_of_cons in Ht' as [->|Ht']; [congruence|]. right. eauto.
Qed.

End Stage1.

Section Stage1Results.

Variable env : Env.
Variable params_dict : Params.

Local Abbreviation worker :=
  (get_worms_classification_by_id_worker env (api_source params_dict)).
Local Abbreviation named id :=
  (bool_decide (is_Some ((worker id).2 !! "scientificName"))).
Local Abbreviation rec_of id t :=
  (<[ "cleanedTaxonomy" := Some (joined_or (parse_semicolon_taxonomy (Some t.1)) t.1) ]>
     (worker id).2).

Lemma worker_fst id : (worker id).1 = id.
Proof.
  unfold get_worms_classification_by_id_worker.
  destruct (aphiaRecordByAphiaID env id) as [[record|]|]; [|done..].
  by destruct (accepted record).
Qed.

Lemma apply_id_result_eq groups c u id :
  apply_id_result groups (c, u) (worker id)
  = if named id
    then (foldl (store_some (λ t, Some (rec_of id t))) c (group_get id groups), u)
    else (c, u ++ group_get id groups).
Proof.
  unfold apply_id_result.
  pose proof (worker_fst id) as Hf.
  destruct (worker id) as [i result]. simpl in Hf. subst i. simpl.
  destruct (bool_decide (is_Some (result !! "scientificName"))); done.
Qed.

Section Fold.

Variable groups : list (Z * list (string * string)).
Variable gid : string * string → option Z.
Variable l : list (string * string).
Hypothesis groups_gid :
  ∀ id t, t ∈ group_get id groups ↔ t ∈ l ∧ gid t = Some id.

Lemma apply_id_results_cache ids c u t :
  (foldl (apply_id_result groups) (c, u) (map worker ids)).1 !! Combo t
  = match gid t with
    | Some id =>
        if decide (t ∈ l ∧ id ∈ ids) then
          if named id then Some (rec_of id t) else c !! Combo t
        else c !! Combo t
    | None => c !! Combo t
    end.
Proof.
  revert c u. induction ids as [|id0 ids IH]; intros c u.
  - simpl. destruct (gid t) as [id|]; [|done].
    destruct (decide (t ∈ l ∧ id ∈ [])) as [[_ H]|_]; [|done].
    by apply elem_of_nil in H.
  - rewrite map_cons. cbn [foldl]. rewrite apply_id_result_eq.
    destruct (named id0) eqn:Hn0.
    + rewrite IH. rewrite foldl_store_some_lookup.
      destruct (gid t) as [id|] eqn:Hg.
      * destruct (decide (t ∈ l ∧ id ∈ ids)) as [[Hl Hi]|Hni].
        -- rewrite (decide_True (P := t ∈ l ∧ _ ∈ id0 :: ids)) by (split; [done|set_solver]).
           destruct (named id) eqn:Hn; [done|].
           destruct (decide (t ∈ group_get id0 groups)) as [Hin|Hin]; [|done].
           apply groups_gid in Hin as [_ Hin]. rewrite Hg in Hin.
           injection Hin as ->. congruence.
        -- destruct (decide (t ∈ group_get id0 groups)) as [Hin|Hin].
           ++ apply groups_gid in Hin as [Hl Hin]. rewrite Hg in Hin.
              injection Hin as ->.
              rewrite (decide_True (P := t ∈ l ∧ _ ∈ id0 :: ids)) by (split; [done|set_solver]).
              by rewrite Hn0.
           ++ destruct (decide (t ∈ l ∧ id ∈ id0 :: ids)) as [[Hl Hi]|_]; [|done].
              apply elem_of_cons in Hi as [->|Hi]; [|tauto].
              exfalso. apply Hin, groups_gid. done.
      * destruct (decide (t ∈ group_get id0 groups)) as [Hin|Hin]; [|done].
        apply groups_gid in Hin as [_ Hin]. congruence.
    + rewrite IH. destruct (gid t) as [id|] eqn:Hg; [|done].
      destruct (decide (t ∈ l ∧ id ∈ ids)) as [[Hl Hi]|Hni].
      * rewrite (decide_True (P := t ∈ l ∧ _ ∈ id0 :: ids)) by (split; [done|set_solver]). done.
      * destruct (decide (t ∈ l ∧ id ∈ id0 :: ids)) as [[Hl Hi]|_]; [|done].
        apply elem_of_cons in Hi as [->|Hi]; [|tauto].
        by rewrite Hn0.
Qed.

Lemma apply_id_results_sentinel ids c u :
  (foldl (apply_id_result groups) (c, u) (map worker ids)).1 !! IS_TRULY_EMPTY
  = c !! IS_TRULY_EMPTY.
Proof.
  revert c u. induction ids as [|id0 ids IH]; intros c u; [done|].
  rewrite map_cons. cbn [foldl]. rewrite apply_id_result_eq.
  destruct (named id0); rewrite IH; [|done].
  apply foldl_store_some_sentinel.
Qed.

Lemma apply_id_results_unmatched ids c u t :
  t ∈ (foldl (apply_id_result groups) (c, u) (map worker ids)).2
  ↔ t ∈ u ∨ (t ∈ l ∧ ∃ id, gid t = Some id ∧ id ∈ ids ∧ named id = false).
Proof.
  revert c u. induction ids as [|id0 ids IH]; intros c u.
  - simpl. split; [by left|]. intros [?|(_ & id & _ & H & _)]; [done|].
    by apply elem_of_nil in H.
  - rewrite map_cons. cbn [foldl]. rewrite apply_id_result_eq.
    destruct (named id0) eqn:Hn0; rewrite IH; clear IH.
    + split.
      * intros [?|(Hl & id & Hg & Hi & Hn)]; [by left|].
        right. split; [done|]. exists id. split_and!; [done|set_solver|done].
      * intros [?|(Hl & id & Hg & Hi & Hn)]; [by left|].
        right. split; [done|]. exists id. split_and!; [done| |done].
        apply elem_of_cons in Hi as [->|Hi]; [congruence|done].
    + rewrite elem_of_app, groups_gid. split.
      * intros [[?|[Hl Hg]]|(Hl & id & Hg & Hi & Hn)]; [by left| |].
        -- right. split; [done|]. exists id0. split_and!; [done|set_solver|done].
        -- right. split; [done|]. exists id. split_and!; [done|set_solver|done].
      * intros [?|(Hl & id & Hg & Hi & Hn)]; [by left; left|].
        apply elem_of_cons in Hi as [->|Hi].
        -- left. right. done.
        -- right. split; [done|]. exists id. done.
Qed.

Lemma apply_id_results_NoDup ids c u :
  NoDup l → NoDup u → NoDup ids →
  (∀ id, NoDup (group_get id groups)) →
  (∀ t id, t ∈ u → id ∈ ids → gid t ≠ Some id) →
  NoDup (foldl (apply_id_result groups) (c, u) (map worker ids)).2.
Proof.
  intros Hl. revert c u. induction ids as [|id0 ids IH]; intros c u Hu Hids Hg Hd.
  - done.
  - rewrite map_cons. cbn [foldl]. rewrite apply_id_result_eq.
    apply NoDup_cons in Hids as [Hid0 Hids].
    destruct (named id0).
    + apply IH; [done..|]. intros t id Ht Hi. apply Hd; [done|set_solver].
    + apply IH; [|done..|].
      * apply NoDup_app. split_and!; [done| |apply Hg].
        intros t Ht Ht'. apply groups_gid in Ht' as [_ Ht'].
        eapply Hd; [done| |done]. set_solver.
      * intros t id Ht Hi. apply elem_of_app in Ht as [Ht|Ht].
        -- apply Hd; [done|set_solver].
        -- apply groups_gid in Ht as [_ Ht]. rewrite Ht. intros [= ->]. done.
Qed.

End Fold.

End Stage1Results.

Section Stage1Spec.

Variable env : Env.
Variable params_dict : Params.

Local Abbreviation worker :=
  (get_worms_classification_by_id_worker env (api_source params_dict)).

Lemma prematch_groups l id t :
  t ∈ group_get id (aphia_id_map (prematch params_dict l))
  ↔ t ∈ l ∧ prematch_id params_dict t = Some id.
Proof.
  unfold prematch.
  destruct (prematch_fold params_dict l
              {| aphia_id_map := []; unmatched_tuples := []; pr2_lookups := [] |})
    as (_ & _ & Hg & _ & _).
  rewrite Hg. simpl. rewrite list_elem_of_filter. tauto.
Qed.

Lemma prematch_keys l id :
  id ∈ (aphia_id_map (prematch params_dict l)).*1
  ↔ ∃ t, t ∈ l ∧ prematch_id params_dict t = Some id.
Proof.
  unfold prematch.
  destruct (prematch_fold params_dict l
              {| aphia_id_map := []; unmatched_tuples := []; pr2_lookups := [] |})
    as (_ & _ & _ & _ & Hk).
  rewrite Hk. simpl. split; [|by right]. intros [H|?]; [|done].
  by apply elem_of_nil in H.
Qed.

Lemma prematch_keys_NoDup l :
  NoDup (aphia_id_map (prematch params_dict l)).*1.
Proof.
  unfold prematch.
  destruct (prematch_fold params_dict l
              {| aphia_id_map := []; unmatched_tuples := []; pr2_lookups := [] |})
    as (_ & _ & _ & Hn & _).
  apply Hn. simpl. constructor.
Qed.

Lemma prematch_unmatched l :
  unmatched_tuples (prematch params_dict l)
  = filter (λ t, prematch_id params_dict t = None) l.
Proof.
  unfold prematch.
  destruct (prematch_fold params_dict l
              {| aphia_id_map := []; unmatched_tuples := []; pr2_lookups := [] |})
    as (Hu & _). by rewrite Hu.
Qed.

Lemma prematch_lookups l :
  pr2_lookups (prematch params_dict l)
  = filter (λ t, looks_up params_dict t = true) l.
Proof.
  unfold prematch.
  destruct (prematch_fold params_dict l
              {| aphia_id_map := []; unmatched_tuples := []; pr2_lookups := [] |})
    as (_ & Hl & _). by rewrite Hl.
Qed.

Lemma stage1_cache_lookup c l t :
  (stage1 env params_dict c l).1.1 !! Combo t
  = if decide (t ∈ l) then
      match stage1_record env params_dict t with
      | Some r => Some r
      | None => c !! Combo t
      end
    else c !! Combo t.
Proof.
  unfold stage1, stage1_record.
  destruct (bool_decide (pr2_dict params_dict ≠ ∅)); cbn [fst snd].
  - rewrite (apply_id_results_cache env params_dict _ (prematch_id params_dict) l)
      by apply prematch_groups.
    destruct (prematch_id params_dict t) as [id|] eqn:Hid; cbn [mbind option_bind].
    + destruct (decide (t ∈ l)) as [Hl|Hl].
      * rewrite decide_True.
        -- by destruct (bool_decide (is_Some ((worker id).2 !! "scientificName"))).
        -- split; [done|]. apply prematch_keys. eauto.
      * rewrite decide_False by tauto. done.
    + by destruct (decide (t ∈ l)).
  - by destruct (decide (t ∈ l)).
Qed.

Lemma stage1_sentinel c l :
  (stage1 env params_dict c l).1.1 !! IS_TRULY_EMPTY = c !! IS_TRULY_EMPTY.
Proof.
  unfold stage1.
  destruct (bool_decide (pr2_dict params_dict ≠ ∅)); cbn [fst snd]; [|done].
  apply apply_id_results_sentinel.
Qed.

Lemma elem_of_stage1_unmatched c l t :
  t ∈ (stage1 env params_dict c l).1.2
  ↔ t ∈ l ∧ stage1_record env params_dict t = None.
Proof.
  unfold stage1, stage1_record.
  destruct (bool_decide (pr2_dict params_dict ≠ ∅)); cbn [fst snd]; [|tauto].
  rewrite (apply_id_results_unmatched env params_dict _ (prematch_id params_dict) l)
    by apply prematch_groups.
  rewrite prematch_unmatched, list_elem_of_filter.
  destruct (prematch_id params_dict t) as [id|] eqn:Hid; cbn [mbind option_bind].
  - split.
    + intros [[? _]|(Hl & id' & [= <-] & _ & Hn)]; [done|].
      split; [done|]. by rewrite Hn.
    + intros [Hl Hn]. right. split; [done|]. exists id. split_and!; [done| |].
      * apply prematch_keys. eauto.
      * by destruct (bool_decide (is_Some ((worker id).2 !! "scientificName"))).
  - split; [|tauto]. intros [[_ ?]|(_ & id & ? & _)]; [done|congruence].
Qed.

Lemma NoDup_stage1_unmatched c l :
  NoDup l → NoDup (stage1 env params_dict c l).1.2.
Proof.
  intros Hl. unfold stage1.
  destruct (bool_decide (pr2_dict params_dict ≠ ∅)); cbn [fst snd]; [|done].
  apply (apply_id_results_NoDup env params_dict _ (prematch_id params_dict) l).
  - apply prematch_groups.
  - done.
  - rewrite prematch_unmatched. by apply NoDup_filter.
  - apply prematch_keys_NoDup.
  - intros id.
    destruct (prematch_fold params_dict l
              {| aphia_id_map := []; unmatched_tuples := []; pr2_lookups := [] |})
      as (_ & _ & Hg & _ & _).
    unfold prematch. rewrite Hg. simpl. by apply NoDup_filter.
  - intros t id Ht _. rewrite prematch_unmatched in Ht.
    apply list_elem_of_filter in Ht as [Ht _]. congruence.
Qed.

Lemma stage1_lookups c l :
  pr2_lookups (stage1 env params_dict c l).2
  = if bool_decide (pr2_dict params_dict ≠ ∅)
    then filter (λ t, looks_up params_dict t = true) l else [].
Proof.
  unfold stage1.
  destruct (bool_decide (pr2_dict params_dict ≠ ∅)); cbn [fst snd]; [|done].
  apply prematch_lookups.
Qed.

End Stage1Spec.

(** ** Stage 2 and the keys left over *)

Section Stage2Spec.

Variable env : Env.
Variable params_dict : Params.

Lemma batch_match_step_eq batch_lookup c u t :
  batch_match_step params_dict batch_lookup (c, u) t
  = (store_some (stage2_record params_dict batch_lookup) c t,
     if bool_decide (stage2_record params_dict batch_lookup t = None)
     then u ++ [t] else u).
Proof.
  unfold batch_match_step, store_some, stage2_record, terms_for_matching.
  destruct t as [v a]. cbn [fst snd].
  destruct (parse_semicolon_taxonomy (Some v)) as [|x xs] eqn:Hp.
  { by destruct (bool_decide (a ∈ assays_to_skip_species params_dict)
                 && is_full_length_taxonomy params_dict [] a). }
  assert (Hscan : ∀ y ys,
    scan_terms params_dict batch_lookup (c, u) (v, a) (y :: ys)
    = (match
         first_in_lookup batch_lookup (reverse (y :: ys))
         ≫= (λ '(term, found),
               Some (batch_success params_dict found term (PyStr.join ";" (y :: ys))))
       with
       | Some r => <[Combo (v, a) := r]> c
       | None => c
       end,
       if bool_decide
            (first_in_lookup batch_lookup (reverse (y :: ys))
             ≫= (λ '(term, found),
                   Some (batch_success params_dict found term
                           (PyStr.join ";" (y :: ys)))) = None)
       then u ++ [(v, a)] else u)).
  { intros y ys. unfold scan_terms. cbn [fst joined_or].
    destruct (first_in_lookup batch_lookup (reverse (y :: ys))) as [[term found]|];
      done. }
  destruct (bool_decide (a ∈ assays_to_skip_species params_dict)
            && is_full_length_taxonomy params_dict (x :: xs) a).
  - destruct (drop_last (x :: xs)) as [|y ys]; [done|]. apply Hscan.
  - apply Hscan.
Qed.

Lemma all_terms_nil u t :
  all_terms_to_match env u = [] → t ∈ u →
  parse_semicolon_taxonomy (Some t.1) = [].
Proof.
  unfold all_terms_to_match, py_set_list. intros Hnil Ht.
  pose proof (merge_sort_Permutation (rank_le env)
                (remove_dups (u ≫= λ t, parse_semicolon_taxonomy (Some t.1)))) as HP.
  rewrite Hnil in HP. symmetry in HP. apply Permutation_nil_r in HP.
  destruct (parse_semicolon_taxonomy (Some t.1)) as [|x xs] eqn:Hp; [done|].
  assert (x ∈ remove_dups (u ≫= λ t, parse_semicolon_taxonomy (Some t.1))) as Hx.
  { apply elem_of_remove_dups, list_elem_of_bind. exists t.
    split; [|done]. rewrite Hp. set_solver. }
  rewrite HP in Hx. by apply elem_of_nil in Hx.
Qed.

Lemma stage2_record_no_terms batch_lookup t :
  parse_semicolon_taxonomy (Some t.1) = [] →
  stage2_record params_dict batch_lookup t = None.
Proof.
  intros Hp. unfold stage2_record, terms_for_matching. rewrite Hp.
  by destruct (bool_decide (t.2 ∈ assays_to_skip_species params_dict)
               && is_full_length_taxonomy params_dict [] t.2).
Qed.

Lemma foldl_store_some_none {V} (f : string * string → option V) l c :
  (∀ t, t ∈ l → f t = None) → foldl (store_some f) c l = c.
Proof.
  revert c. induction l as [|a l IH]; intros c Hf; [done|].
  cbn [foldl]. unfold store_some at 2. rewrite Hf by set_solver.
  apply IH. intros t Ht. apply Hf. set_solver.
Qed.

Lemma stage2_eq c u :
  stage2 env params_dict c u
  = (foldl (store_some
              (stage2_record params_dict
                 (build_batch_lookup env (all_terms_to_match env u)))) c u,
     filter (λ t, bool_decide
                    (stage2_record params_dict
                       (build_batch_lookup env (all_terms_to_match env u)) t = None)
                  = true) u).
Proof.
  unfold stage2. destruct u as [|t0 u0] eqn:Hu; [done|]. rewrite <- Hu.
  destruct (all_terms_to_match env u) as [|x xs] eqn:Hterms.
  - assert (∀ t, t ∈ u → stage2_record params_dict (build_batch_lookup env []) t = None)
      as Hnone.
    { intros t Ht. apply stage2_record_no_terms. by eapply all_terms_nil. }
    rewrite foldl_store_some_none by done. f_equal.
    clear Hu Hterms. induction u as [|a u IH]; [done|].
    rewrite filter_cons. rewrite decide_True.
    + f_equal. apply IH.
      * intros t Ht. apply Hnone. set_solver.
    + apply bool_decide_eq_true. apply Hnone. set_solver.
  - rewrite (foldl_store_and_list _ _ _ (batch_match_step_eq _)). done.
Qed.

Lemma stage2_cache_lookup c u t :
  (stage2 env params_dict c u).1 !! Combo t
  = if decide (t ∈ u) then
      match stage2_record params_dict
              (build_batch_lookup env (all_terms_to_match env u)) t with
      | Some r => Some r
      | None => c !! Combo t
      end
    else c !! Combo t.
Proof. rewrite stage2_eq. apply foldl_store_some_lookup. Qed.

Lemma stage2_sentinel c u :
  (stage2 env params_dict c u).1 !! IS_TRULY_EMPTY = c !! IS_TRULY_EMPTY.
Proof. rewrite stage2_eq. apply foldl_store_some_sentinel. Qed.

Lemma elem_of_stage2_unmatched c u t :
  t ∈ (stage2 env params_dict c u).2
  ↔ t ∈ u
    ∧ stage2_record params_dict
        (build_batch_lookup env (all_terms_to_match env u)) t = None.
Proof.
  rewrite stage2_eq. cbn [snd].
  rewrite list_elem_of_filter, bool_decide_eq_true. tauto.
Qed.

Lemma no_match_step_eq c t :
  no_match_step params_dict c t
  = store_some (λ t, Some (no_match_record params_dict t)) c t.
Proof.
  unfold no_match_step, store_some, no_match_record, terms_for_matching.
  destruct t as [v a]. cbn [fst snd].
  destruct (parse_semicolon_taxonomy (Some v)) as [|x xs].
  - by destruct (bool_decide (a ∈ assays_to_skip_species params_dict)
                 && is_full_length_taxonomy params_dict [] a).
  - rewrite (bool_decide_eq_true_2 (x :: xs ≠ [])) by done.
    by rewrite andb_true_r.
Qed.

Lemma final_unmatched_lookup c u t :
  final_unmatched params_dict c u !! Combo t
  = if decide (t ∈ u) then Some (no_match_record params_dict t) else c !! Combo t.
Proof.
  unfold final_unmatched.
  rewrite (foldl_ext _ (store_some (λ t, Some (no_match_record params_dict t))))
    by (intros; apply no_match_step_eq).
  by rewrite foldl_store_some_lookup.
Qed.

Lemma final_unmatched_sentinel c u :
  final_unmatched params_dict c u !! IS_TRULY_EMPTY = c !! IS_TRULY_EMPTY.
Proof.
  unfold final_unmatched.
  rewrite (foldl_ext _ (store_some (λ t, Some (no_match_record params_dict t))))
    by (intros; apply no_match_step_eq).
  by rewrite foldl_store_some_sentinel.
Qed.

End Stage2Spec.

(** ** The cache at the end of the run *)

Section FinalCache.

Variable env : Env.
Variable params_dict : Params.

Lemma final_cache_lookup df t :
  t ∈ unique_tuples df →
  final_cache env params_dict df !! Combo t
  = Some (resolve env params_dict (batch_lookup_of env params_dict df) t).
Proof.
  intros Ht. unfold final_cache, resolve, batch_lookup_of.
  rewrite lookup_insert_ne by done.
  rewrite final_unmatched_lookup. unfold stage2_of.
  rewrite stage2_cache_lookup.
  pose proof (elem_of_stage2_unmatched env params_dict
                (cache_after_stage1 env params_dict df)
                (keys_for_batch env params_dict df) t) as H2.
  pose proof (elem_of_stage1_unmatched env params_dict
                (cache_after_fast_path params_dict df)
                (keys_after_fast_path params_dict df) t) as H1.
  pose proof (elem_of_keys_after_fast_path params_dict df t) as H0.
  pose proof (stage1_cache_lookup env params_dict
                (cache_after_fast_path params_dict df)
                (keys_after_fast_path params_dict df) t) as Hc1.
  fold (stage1_of env params_dict df) in H1, Hc1.
  fold (keys_for_batch env params_dict df) in H1.
  fold (cache_after_stage1 env params_dict df) in Hc1.
  rewrite Hc1. clear Hc1.
  rewrite cache_after_fast_path_lookup.
  rewrite (decide_True (P := t ∈ unique_tuples df)) by done.
  set (lk := build_batch_lookup env
               (all_terms_to_match env (keys_for_batch env params_dict df))) in *.
  set (u1 := keys_for_batch env params_dict df) in *.
  set (u2 := (stage2 env params_dict (cache_after_stage1 env params_dict df) u1).2) in *.
  destruct (fast_record params_dict t) as [r0|] eqn:E0.
  - assert (t ∉ keys_after_fast_path params_dict df) as Hk by (rewrite H0; naive_solver).
    assert (t ∉ u1) as Hu1 by (rewrite H1; naive_solver).
    assert (t ∉ u2) as Hu2 by (rewrite H2; naive_solver).
    rewrite (decide_False (P := t ∈ u2)) by done.
    rewrite (decide_False (P := t ∈ u1)) by done.
    rewrite (decide_False (P := t ∈ keys_after_fast_path _ _)) by done.
    done.
  - assert (t ∈ keys_after_fast_path params_dict df) as Hk by (rewrite H0; done).
    rewrite (decide_True (P := t ∈ keys_after_fast_path _ _)) by done.
    destruct (stage1_record env params_dict t) as [r1|] eqn:E1.
    + assert (t ∉ u1) as Hu1 by (rewrite H1; naive_solver).
      assert (t ∉ u2) as Hu2 by (rewrite H2; naive_solver).
      rewrite (decide_False (P := t ∈ u2)) by done.
      rewrite (decide_False (P := t ∈ u1)) by done.
      done.
    + assert (t ∈ u1) as Hu1 by (rewrite H1; done).
      rewrite (decide_True (P := t ∈ u1)) by done.
      destruct (stage2_record params_dict lk t) as [r2|] eqn:E2.
      * assert (t ∉ u2) as Hu2 by (rewrite H2; naive_solver).
        rewrite (decide_False (P := t ∈ u2)) by done.
        done.
      * assert (t ∈ u2) as Hu2 by (rewrite H2; done).
        rewrite (decide_True (P := t ∈ u2)) by done.
        done.
Qed.

Lemma final_cache_sentinel df :
  final_cache env params_dict df !! IS_TRULY_EMPTY
  = Some (incertae_sedis params_dict "incertae_sedis_truly_empty_fallback" "").
Proof. unfold final_cache. by rewrite lookup_insert_eq. Qed.

Lemma map_key_of_cases r :
  (empty_verbatim_mask r = true ∧ map_key_of r = IS_TRULY_EMPTY)
  ∨ (∃ v, empty_verbatim_mask r = false ∧ verbatimIdentification r = Some v
          ∧ map_key_of r = Combo (v, assay_name r)).
Proof.
  unfold map_key_of. destruct (empty_verbatim_mask r) eqn:Hm; [by left|].
  right. unfold empty_verbatim_mask in Hm.
  destruct (verbatimIdentification r) as [v|] eqn:Hv; [|done].
  exists v. done.
Qed.

Lemma elem_of_unique_tuples df r t :
  r ∈ df → map_key_of r = Combo t → t ∈ unique_tuples df.
Proof.
  intros Hr Hk. unfold unique_tuples, non_empty_keys.
  apply elem_of_drop_duplicates, list_elem_of_omap.
  exists r. split; [done|]. by rewrite Hk.
Qed.

Lemma final_cache_row df r :
  r ∈ df → is_Some (final_cache env params_dict df !! map_key_of r).
Proof.
  intros Hr. destruct (map_key_of_cases r) as [[_ ->]|(v & _ & _ & Hk)].
  - rewrite final_cache_sentinel. eauto.
  - rewrite Hk, final_cache_lookup; [eauto|]. by eapply elem_of_unique_tuples.
Qed.

Lemma final_cache_nonempty df : final_cache env params_dict df ≠ ∅.
Proof. unfold final_cache. apply insert_non_empty. Qed.

End FinalCache.

(** ** Applying the results *)

Lemma results_column cols (record cs : pydict) (col : string) :
  col ≠ "_map_key" → is_Some (record !! col) →
  delete "_map_key" (results_row cols record ∪ cs) !! col = record !! col.
Proof.
  intros Hne [x Hx]. rewrite lookup_delete_ne by done. unfold results_row.
  rewrite Hx. apply lookup_union_Some_l, lookup_union_Some_l. done.
Qed.

Lemma apply_results_rows cache df :
  cache ≠ ∅ → (∀ r, r ∈ df → is_Some (cache !! map_key_of r)) →
  ∃ out, apply_results cache df = Returns out
         ∧ length out = length df
         ∧ ∀ i r, df !! i = Some r →
             ∃ r' record,
               out !! i = Some r'
               ∧ cache !! map_key_of r = Some record
               ∧ verbatimIdentification r' = verbatimIdentification r
               ∧ assay_name r' = assay_name r
               ∧ ∀ col, col ≠ "_map_key" → is_Some (record !! col) →
                        columns r' !! col = record !! col.
Proof.
  intros Hne Hall. unfold apply_results.
  rewrite decide_False by done.
  destruct (mapM (λ r, cache !! map_key_of r) df) as [mapped|] eqn:Hm.
  - apply mapM_Some in Hm.
    eexists. split; [done|]. split.
    + rewrite length_zip_with. apply Forall2_length in Hm. lia.
    + intros i r Hi.
      destruct (Forall2_lookup_l _ _ _ _ _ Hm Hi) as (record & Hrec & Hc).
      eexists _, record. rewrite lookup_zip_with, Hi, Hrec. simpl.
      split_and!; [done..|].
      intros col Hcol Hsome. by apply results_column.
  - exfalso. assert (is_Some (mapM (λ r, cache !! map_key_of r) df)) as [? ?].
    { apply mapM_is_Some, Forall_forall. intros r Hr. by apply Hall. }
    congruence.
Qed.

Lemma get_worms_match_rows env params_dict df :
  ∃ out, get_worms_match_for_dataframe env params_dict df = Returns out
         ∧ length out = length df
         ∧ ∀ i r, df !! i = Some r →
             ∃ r' record,
               out !! i = Some r'
               ∧ final_cache env params_dict df !! map_key_of r = Some record
               ∧ verbatimIdentification r' = verbatimIdentification r
               ∧ assay_name r' = assay_name r
               ∧ ∀ col, col ≠ "_map_key" → is_Some (record !! col) →
                        columns r' !! col = record !! col.
Proof.
  apply apply_results_rows.
  - apply final_cache_nonempty.
  - apply final_cache_row.
Qed.

(** ** The shape of the records *)

Lemma incertae_sedis_name params_dict debug cleaned :
  incertae_sedis params_dict debug cleaned !! "scientificName"
  = Some (Some "incertae sedis").
Proof. unfold incertae_sedis, DWC_RANKS_STD. cbn [foldl]. by simplify_map_eq. Qed.

Lemma incertae_sedis_debug params_dict debug cleaned :
  incertae_sedis params_dict debug cleaned !! "match_type_debug" = Some (Some debug).
Proof. unfold incertae_sedis, DWC_RANKS_STD. cbn [foldl]. by simplify_map_eq. Qed.

Lemma incertae_sedis_cleaned params_dict debug cleaned :
  incertae_sedis params_dict debug cleaned !! "cleanedTaxonomy" = Some (Some cleaned).
Proof. unfold incertae_sedis, DWC_RANKS_STD. cbn [foldl]. by simplify_map_eq. Qed.

Lemma incertae_sedis_ranks params_dict debug cleaned :
  has_rank_fields (incertae_sedis params_dict debug cleaned).
Proof.
  unfold has_rank_fields, incertae_sedis, DWC_RANKS_STD. cbn [foldl].
  repeat constructor; simplify_map_eq; eauto.
Qed.

Lemma batch_record_name m :
  batch_record m !! "scientificName" = Some (get m "scientificname").
Proof. unfold batch_record, DWC_RANKS_STD. cbn [foldl]. by simplify_map_eq. Qed.

Lemma batch_record_ranks m : has_rank_fields (batch_record m).
Proof.
  unfold has_rank_fields, batch_record, DWC_RANKS_STD. cbn [foldl].
  repeat constructor; simplify_map_eq; eauto.
Qed.

Lemma batch_success_name params_dict found term cleaned :
  batch_success params_dict found term cleaned !! "scientificName"
  = found !! "scientificName".
Proof. unfold batch_success. by simplify_map_eq. Qed.

Lemma batch_success_debug params_dict found term cleaned :
  batch_success params_dict found term cleaned !! "match_type_debug"
  = Some (Some ("Success_Batch_" +:+ term)).
Proof. unfold batch_success. by simplify_map_eq. Qed.

Lemma batch_success_cleaned params_dict found term cleaned :
  batch_success params_dict found term cleaned !! "cleanedTaxonomy"
  = Some (Some cleaned).
Proof. unfold batch_success. by simplify_map_eq. Qed.

Lemma batch_success_ranks params_dict found term cleaned :
  has_rank_fields found →
  has_rank_fields (batch_success params_dict found term cleaned).
Proof.
  unfold has_rank_fields, batch_success, DWC_RANKS_STD.
  intros H. repeat (apply Forall_cons in H as [? H]).
  repeat constructor; by simplify_map_eq.
Qed.

Lemma first_accepted_Some name_list m :
  first_accepted name_list = Some m → Some m ∈ name_list ∧ accepted m = true.
Proof.
  induction name_list as [|[m'|] rest IH]; simpl; [done| |].
  - destruct (accepted m') eqn:Ha.
    + intros [= ->]. split; [set_solver|done].
    + intros H. destruct (IH H). split; [set_solver|done].
  - intros H. destruct (IH H). split; [set_solver|done].
Qed.

Section Worker.

Variable env : Env.
Variable api : string.

Lemma id_worker_named id x :
  (get_worms_classification_by_id_worker env api id).2 !! "scientificName" = Some x →
  ∃ record,
    aphiaRecordByAphiaID env id = Returns (Some record)
    ∧ accepted record = true
    ∧ x = get record "scientificname"
    ∧ has_rank_fields (get_worms_classification_by_id_worker env api id).2.
Proof.
  unfold get_worms_classification_by_id_worker.
  destruct (aphiaRecordByAphiaID env id) as [[record|]|]; cbn [snd];
    [|by simplify_map_eq..].
  destruct (accepted record) eqn:Ha; cbn [snd]; [|by simplify_map_eq].
  unfold DWC_RANKS_STD, has_rank_fields. cbn [foldl]. intros H.
  exists record. split_and!; [done|done|by simplify_map_eq|].
  repeat constructor; simplify_map_eq; eauto.
Qed.

Lemma id_worker_failure id :
  match aphiaRecordByAphiaID env id with
  | Returns (Some record) => accepted record = false
  | _ => True
  end →
  (get_worms_classification_by_id_worker env api id).2 !! "scientificName" = None.
Proof.
  unfold get_worms_classification_by_id_worker.
  destruct (aphiaRecordByAphiaID env id) as [[record|]|]; cbn [snd];
    [|by simplify_map_eq..].
  intros ->. cbn [snd]. by simplify_map_eq.
Qed.

End Worker.

(** ** The lookup table of Stage 2 *)

Section RecordMatches.

Variable chunk : list string.

Lemma record_matches_union raw j (table : gmap string pydict) :
  (record_matches chunk j raw table).1 = (record_matches chunk j raw ∅).1 ∪ table.
Proof.
  revert j table. induction raw as [|name_list rest IH]; intros j table; simpl.
  - by rewrite (left_id_L ∅ (∪)).
  - destruct (first_accepted name_list) as [m|]; [|apply IH].
    destruct (chunk !! j) as [name|]; simpl.
    + rewrite IH. rewrite (IH _ (<[name:=batch_record m]> ∅)).
      rewrite <- (assoc_L (∪)). f_equal.
      rewrite <- insert_union_l. by rewrite (left_id_L ∅ (∪)).
    + by rewrite (left_id_L ∅ (∪)).
Qed.

Lemma record_matches_entry raw j (table : gmap string pydict) name found :
  (record_matches chunk j raw table).1 !! name = Some found →
  table !! name = Some found
  ∨ (name ∈ chunk
     ∧ ∃ name_list m, name_list ∈ raw ∧ first_accepted name_list = Some m
                      ∧ found = batch_record m).
Proof.
  revert j table. induction raw as [|name_list rest IH]; intros j table; simpl.
  - by left.
  - destruct (first_accepted name_list) as [m|] eqn:Hm.
    + destruct (chunk !! j) as [name'|] eqn:Hj; simpl; [|by left].
      intros H. apply IH in H as [H|(Hin & nl & m' & Hnl & Hfa & ->)].
      * destruct (decide (name' = name)) as [->|Hne].
        -- rewrite lookup_insert_eq in H. injection H as <-.
           right. split; [by eapply list_elem_of_lookup_2|].
           exists name_list, m. split_and!; [set_solver|done|done].
        -- rewrite lookup_insert_ne in H by done. by left.
      * right. split; [done|]. exists nl, m'. split_and!; [set_solver|done|done].
    + intros H. apply IH in H as [H|(Hin & nl & m' & Hnl & Hfa & ->)]; [by left|].
      right. split; [done|]. exists nl, m'. split_and!; [set_solver|done|done].
Qed.

End RecordMatches.

Section BatchLookup.

Variable env : Env.

Lemma batch_entries_raises b :
  aphiaRecordsByMatchNames env b.2 = Raises → batch_entries env b = ∅.
Proof.
  intros H. unfold batch_entries, sequential_batch, get_worms_batch_worker.
  destruct b as [n chunk]. simpl in *. rewrite H.
  by destruct (pool_map_raises env).
Qed.

Lemma batch_entries_entry b name found :
  batch_entries env b !! name = Some found →
  name ∈ b.2
  ∧ ∃ raw name_list m,
      aphiaRecordsByMatchNames env b.2 = Returns raw
      ∧ name_list ∈ raw ∧ first_accepted name_list = Some m
      ∧ found = batch_record m.
Proof.
  unfold batch_entries, sequential_batch, get_worms_batch_worker.
  destruct b as [n chunk]. cbn [fst snd].
  destruct (aphiaRecordsByMatchNames env chunk) as [raw|] eqn:Hraw.
  - assert ((record_matches chunk 0 raw ∅).1 !! name = Some found →
            name ∈ chunk
            ∧ ∃ raw0 name_list m,
                Returns raw = Returns raw0
                ∧ name_list ∈ raw0 ∧ first_accepted name_list = Some m
                ∧ found = batch_record m) as Hrm.
    { intros H. apply record_matches_entry in H as [H|(Hin & nl & m & ? & ? & ?)].
      - by rewrite lookup_empty in H.
      - split; [done|]. exists raw, nl, m. done. }
    destruct (pool_map_raises env); [exact Hrm|].
    destruct (record_matches chunk 0 raw ∅) as [results [[]|]]; cbn [fst snd] in *.
    + exact Hrm.
    + by rewrite lookup_empty.
  - destruct (pool_map_raises env); cbn [snd]; by rewrite lookup_empty.
Qed.

Lemma sequential_batch_union batch_lookup b :
  sequential_batch env batch_lookup b = sequential_batch env ∅ b ∪ batch_lookup.
Proof.
  unfold sequential_batch.
  destruct (aphiaRecordsByMatchNames env b.2) as [raw|].
  - apply record_matches_union.
  - by rewrite (left_id_L ∅ (∪)).
Qed.

Lemma build_batch_lookup_eq terms :
  build_batch_lookup env terms
  = foldl (λ batch_lookup entries, entries ∪ batch_lookup) ∅
          (map (batch_entries env) (batch_data terms)).
Proof.
  unfold build_batch_lookup, batch_entries, sequential_lookup, parallel_lookup.
  destruct (pool_map_raises env).
  - change (map ?f ?l) with (f <$> l). rewrite foldl_fmap.
    apply foldl_ext. intros L b. apply sequential_batch_union.
  - change (map ?f ?l) with (f <$> l). by rewrite !foldl_fmap.
Qed.

Lemma foldl_union_lookup (ms : list (gmap string pydict)) i m name found :
  ms !! i = Some m → m !! name = Some found →
  (∀ j m', j ≠ i → ms !! j = Some m' → m' !! name = None) →
  foldl (λ batch_lookup entries, entries ∪ batch_lookup) ∅ ms !! name = Some found.
Proof.
  revert i. induction ms as [|x ms IH] using rev_ind; intros i Hi Hm Hothers.
  - done.
  - rewrite foldl_snoc.
    destruct (decide (i = length ms)) as [->|Hne].
    + rewrite lookup_app_r, Nat.sub_diag in Hi by lia. injection Hi as ->.
      by apply lookup_union_Some_l.
    + assert (i < length ms)%nat as Hlt.
      { apply lookup_lt_Some in Hi. rewrite length_app in Hi. simpl in Hi. lia. }
      rewrite lookup_app_l in Hi by done.
      rewrite lookup_union_r.
      * apply (IH i); [done..|]. intros j m' Hj Hm'. apply (Hothers j); [done|].
        rewrite lookup_app_l; [done|]. by eapply lookup_lt_Some.
      * apply (Hothers (length ms)); [lia|].
        by rewrite lookup_app_r, Nat.sub_diag by lia.
Qed.

Lemma foldl_union_entry (ms : list (gmap string pydict)) name found :
  foldl (λ batch_lookup entries, entries ∪ batch_lookup) ∅ ms !! name = Some found →
  ∃ m, m ∈ ms ∧ m !! name = Some found.
Proof.
  induction ms as [|x ms IH] using rev_ind.
  - simpl. by rewrite lookup_empty.
  - rewrite foldl_snoc. intros H. apply lookup_union_Some_raw in H as [H|[_ H]].
    + exists x. split; [set_solver|done].
    + destruct (IH H) as (m & ? & ?). exists m. split; [set_solver|done].
Qed.

Lemma build_batch_lookup_entry terms name found :
  build_batch_lookup env terms !! name = Some found →
  ∃ names raw name_list m,
    aphiaRecordsByMatchNames env names = Returns raw
    ∧ name_list ∈ raw ∧ first_accepted name_list = Some m
    ∧ found = batch_record m.
Proof.
  rewrite build_batch_lookup_eq. intros H.
  apply foldl_union_entry in H as (m' & Hin & Hm').
  apply list_elem_of_fmap in Hin as (b & -> & _).
  apply batch_entries_entry in Hm' as (_ & raw & nl & m & ? & ? & ? & ?).
  by exists b.2, raw, nl, m.
Qed.

End BatchLookup.

Section Batches.

Variable env : Env.

Lemma NoDup_all_terms_to_match u : NoDup (all_terms_to_match env u).
Proof.
  unfold all_terms_to_match, py_set_list.
  rewrite merge_sort_Permutation. apply NoDup_remove_dups.
Qed.

Lemma elem_of_all_terms_to_match u term :
  term ∈ all_terms_to_match env u
  ↔ ∃ t, t ∈ u ∧ term ∈ parse_semicolon_taxonomy (Some t.1).
Proof.
  unfold all_terms_to_match, py_set_list.
  rewrite merge_sort_Permutation, elem_of_remove_dups, list_elem_of_bind.
  naive_solver.
Qed.

Lemma batch_data_lookup (terms : list string) i b :
  batch_data terms !! i = Some b →
  b = ((i * chunk_size / chunk_size + 1)%nat,
       take chunk_size (drop (i * chunk_size) terms)).
Proof.
  unfold batch_data, range_step. intros H.
  apply list_lookup_fmap_Some in H as (k & -> & H).
  apply list_lookup_fmap_Some in H as (k' & -> & H).
  apply lookup_seq in H as [-> _]. done.
Qed.

Lemma elem_of_take_drop (l : list string) a n x :
  x ∈ take n (drop a l) → ∃ p, (a ≤ p < a + n)%nat ∧ l !! p = Some x.
Proof.
  intros H. apply list_elem_of_lookup in H as [q Hq].
  apply lookup_take_Some in Hq as [Hq Hlt].
  rewrite lookup_drop in Hq. exists (a + q)%nat. split; [lia|done].
Qed.

Lemma batch_chunks_disjoint (terms : list string) i j b b' x :
  NoDup terms → i ≠ j →
  batch_data terms !! i = Some b → batch_data terms !! j = Some b' →
  x ∈ b.2 → x ∉ b'.2.
Proof.
  intros Hnd Hij Hb Hb' Hx Hx'.
  apply batch_data_lookup in Hb as ->. apply batch_data_lookup in Hb' as ->.
  cbn [snd] in *.
  apply elem_of_take_drop in Hx as (p & Hp & Hlp).
  apply elem_of_take_drop in Hx' as (q & Hq & Hlq).
  assert (p = q) as -> by (eapply NoDup_lookup; eauto).
  unfold chunk_size in *. lia.
Qed.

(** The entries of a batch are in the table built from all batches. *)
Lemma batch_entries_kept (terms : list string) i b name found :
  NoDup terms → batch_data terms !! i = Some b →
  batch_entries env b !! name = Some found →
  build_batch_lookup env terms !! name = Some found.
Proof.
  intros Hnd Hb Hentry. rewrite build_batch_lookup_eq.
  apply (foldl_union_lookup _ i (batch_entries env b)); [|done|].
  - change (map ?f ?l) with (f <$> l). by rewrite list_lookup_fmap, Hb.
  - intros j m' Hij Hm'.
    change (map ?f ?l) with (f <$> l) in Hm'.
    apply list_lookup_fmap_Some in Hm' as (b' & -> & Hb').
    destruct (batch_entries env b' !! name) as [found'|] eqn:E; [|done].
    exfalso. apply batch_entries_entry in E as [Hin' _].
    apply batch_entries_entry in Hentry as [Hin _].
    by eapply (batch_chunks_disjoint terms i j).
Qed.

End Batches.

Section Complete.

Variable env : Env.
Variable params_dict : Params.

Lemma has_rank_fields_insert_cleaned (record : pydict) v :
  has_rank_fields record → has_rank_fields (<[ "cleanedTaxonomy" := v ]> record).
Proof.
  unfold has_rank_fields, DWC_RANKS_STD.
  intros H. repeat (apply Forall_cons in H as [? H]).
  repeat constructor; by simplify_map_eq.
Qed.

Lemma fast_record_complete t r :
  fast_record params_dict t = Some r →
  has_rank_fields r ∧ r !! "scientificName" = Some (Some "incertae sedis").
Proof.
  unfold fast_record.
  destruct (is_unassigned_case t.1); [|destruct (is_simple_case t.1); [|done]];
    intros [= <-]; split;
    auto using incertae_sedis_ranks, incertae_sedis_name.
Qed.

Lemma stage1_record_complete t r :
  stage1_record env params_dict t = Some r →
  has_rank_fields r
  ∧ is_Some (r !! "scientificName")
  ∧ (service_names_accepted env → ∃ name, r !! "scientificName" = Some (Some name)).
Proof.
  unfold stage1_record.
  destruct (bool_decide (pr2_dict params_dict ≠ ∅)); [|done].
  destruct (prematch_id params_dict t) as [id|]; [|done]. cbn [mbind option_bind].
  case_bool_decide as Hn; [|done]. intros [= <-].
  destruct Hn as [x Hx].
  destruct (id_worker_named _ _ _ _ Hx) as (record & Hrec & Hacc & -> & Hranks).
  split_and!.
  - by apply has_rank_fields_insert_cleaned.
  - rewrite lookup_insert_ne by done. rewrite Hx. eauto.
  - intros [Hsvc _]. rewrite lookup_insert_ne by done. rewrite Hx.
    destruct (Hsvc _ _ Hrec Hacc) as [name ->]. eauto.
Qed.

Lemma stage2_record_complete terms t r :
  stage2_record params_dict (build_batch_lookup env terms) t = Some r →
  has_rank_fields r
  ∧ is_Some (r !! "scientificName")
  ∧ (service_names_accepted env → ∃ name, r !! "scientificName" = Some (Some name)).
Proof.
  unfold stage2_record.
  destruct (terms_for_matching params_dict t) as [|y ys]; [done|].
  destruct (first_in_lookup _ _) as [[term found]|] eqn:Hf; [|done].
  cbn [mbind option_bind]. intros [= <-].
  assert (build_batch_lookup env terms !! term = Some found) as Hfound.
  { clear -Hf. induction (reverse (y :: ys)) as [|a l IH]; [done|].
    simpl in Hf. destruct (build_batch_lookup env terms !! a) eqn:E.
    - by injection Hf as -> ->.
    - by apply IH. }
  apply build_batch_lookup_entry in Hfound as (names & raw & nl & m & Hraw & Hnl & Hm & ->).
  apply first_accepted_Some in Hm as [Hin Hacc].
  split_and!.
  - apply batch_success_ranks, batch_record_ranks.
  - rewrite batch_success_name, batch_record_name. eauto.
  - intros [_ Hsvc]. rewrite batch_success_name, batch_record_name.
    destruct (Hsvc _ _ _ _ Hraw Hnl Hin Hacc) as [name ->]. eauto.
Qed.

Lemma resolve_complete df t :
  let r := resolve env params_dict (batch_lookup_of env params_dict df) t in
  has_rank_fields r
  ∧ is_Some (r !! "scientificName")
  ∧ (service_names_accepted env → ∃ name, r !! "scientificName" = Some (Some name)).
Proof.
  unfold resolve, batch_lookup_of.
  destruct (fast_record params_dict t) as [r0|] eqn:E0.
  { apply fast_record_complete in E0 as [? ->]. eauto. }
  destruct (stage1_record env params_dict t) as [r1|] eqn:E1.
  { by apply stage1_record_complete in E1. }
  destruct (stage2_record params_dict _ t) as [r2|] eqn:E2.
  { by apply stage2_record_complete in E2. }
  simpl. unfold no_match_record. rewrite incertae_sedis_name.
  split_and!; eauto using incertae_sedis_ranks.
Qed.

Lemma final_cache_complete df r record :
  r ∈ df → final_cache env params_dict df !! map_key_of r = Some record →
  has_rank_fields record
  ∧ is_Some (record !! "scientificName")
  ∧ (service_names_accepted env →
     ∃ name, record !! "scientificName" = Some (Some name)).
Proof.
  intros Hr. destruct (map_key_of_cases r) as [[_ ->]|(v & _ & _ & Hk)].
  - rewrite final_cache_sentinel. intros [= <-]. rewrite incertae_sedis_name.
    split_and!; eauto using incertae_sedis_ranks.
  - rewrite Hk, final_cache_lookup by (by eapply elem_of_unique_tuples).
    intros [= <-]. apply resolve_complete.
Qed.

End Complete.

Section FastPathClaims.

Variable env : Env.
Variable params_dict : Params.

Lemma resolve_fast df t r :
  fast_record params_dict t = Some r →
  resolve env params_dict (batch_lookup_of env params_dict df) t = r.
Proof. intros H. unfold resolve. by rewrite H. Qed.

End FastPathClaims.

(** C2 (truly-empty detection), as the code has it.  A row whose
    [verbatimIdentification] is [""], ["  "] or ["Unassigned"] gets the one
    sentinel key, whatever its assay, and ends with the scientific name
    "incertae sedis" and the label [incertae_sedis_truly_empty_fallback].  A
    row whose [verbatimIdentification] is ["unassigned;"] keeps the key made
    of that string and its own assay; the fast path gives it the scientific
    name "incertae sedis" and the label [incertae_sedis_unassigned]. *)
Theorem truly_empty_detection env params_dict df i r v :
  df !! i = Some r → verbatimIdentification r = Some v →
  ∃ out r',
    get_worms_match_for_dataframe env params_dict df = Returns out
    ∧ out !! i = Some r'
    ∧ (v ∈ [""; "  "; "Unassigned"] →
       map_key_of r = IS_TRULY_EMPTY
       ∧ columns r' !! "scientificName" = Some (Some "incertae sedis")
       ∧ columns r' !! "match_type_debug"
         = Some (Some "incertae_sedis_truly_empty_fallback"))
    ∧ (v = "unassigned;" →
       map_key_of r = Combo ("unassigned;", assay_name r)
       ∧ columns r' !! "scientificName" = Some (Some "incertae sedis")
       ∧ columns r' !! "match_type_debug" = Some (Some "incertae_sedis_unassigned")).
Proof.
  intros Hi Hv.
  destruct (get_worms_match_rows env params_dict df) as (out & Hrun & _ & Hrows).
  destruct (Hrows i r Hi) as (r' & record & Hout & Hrec & _ & _ & Hcols).
  exists out, r'. split_and!; [done..| |].
  - intros Hin.
    assert (map_key_of r = IS_TRULY_EMPTY) as Hk.
    { unfold map_key_of, empty_verbatim_mask. rewrite Hv.
      apply list_elem_of_In in Hin. simpl in Hin.
      destruct Hin as [<-|[<-|[<-|[]]]]; reflexivity. }
    split; [done|]. rewrite Hk, final_cache_sentinel in Hrec. injection Hrec as <-.
    rewrite !Hcols by (rewrite ?incertae_sedis_name, ?incertae_sedis_debug; eauto).
    by rewrite incertae_sedis_name, incertae_sedis_debug.
  - intros ->.
    assert (map_key_of r = Combo ("unassigned;", assay_name r)) as Hk.
    { unfold map_key_of, empty_verbatim_mask. by rewrite Hv. }
    split; [done|].
    rewrite Hk, final_cache_lookup in Hrec
      by (eapply elem_of_unique_tuples; [by eapply list_elem_of_lookup_2|done]).
    rewrite (resolve_fast env params_dict df _
               (incertae_sedis params_dict "incertae_sedis_unassigned" "unassigned"))
      in Hrec by reflexivity.
    injection Hrec as <-.
    rewrite !Hcols by (rewrite ?incertae_sedis_name, ?incertae_sedis_debug; eauto).
    by rewrite incertae_sedis_name, incertae_sedis_debug.
Qed.

(** C2, as stated, fails: the row "unassigned;" does not get the sentinel
    key, and two such rows of different assays do not share a key. *)
Lemma unassigned_semicolon_not_sentinel :
  (map_key_of {| verbatimIdentification := Some "unassigned;";
                 assay_name := "16S"; columns := ∅ |}
   ≠ IS_TRULY_EMPTY)
  ∧ (map_key_of {| verbatimIdentification := Some "unassigned;";
                   assay_name := "16S"; columns := ∅ |}
     ≠ map_key_of {| verbatimIdentification := Some "unassigned;";
                     assay_name := "18S"; columns := ∅ |}).
Proof. split; vm_compute; discriminate. Qed.

Section Stage1Groups.

Variable env : Env.
Variable params_dict : Params.

Lemma stage1_groups c l id t :
  t ∈ group_get id (aphia_id_map (stage1 env params_dict c l).2)
  ↔ pr2_dict params_dict ≠ ∅ ∧ t ∈ l ∧ prematch_id params_dict t = Some id.
Proof.
  unfold stage1. case_bool_decide as Hp; cbn [snd].
  - rewrite prematch_groups. tauto.
  - simpl. split; [by intros ?%elem_of_nil|tauto].
Qed.

Lemma stage1_ids_NoDup c l :
  NoDup (aphia_id_map (stage1 env params_dict c l).2).*1.
Proof.
  unfold stage1. case_bool_decide; cbn [snd].
  - apply prematch_keys_NoDup.
  - simpl. constructor.
Qed.

Lemma stage1_lookups_NoDup c l :
  NoDup l → NoDup (pr2_lookups (stage1 env params_dict c l).2).
Proof.
  intros Hl. rewrite stage1_lookups. case_bool_decide.
  - by apply NoDup_filter.
  - constructor.
Qed.

End Stage1Groups.

Lemma is_simple_case_eq v :
  is_simple_case v = true ↔ PyStr.lower (cleaned_verbatim v) = "eukaryota".
Proof.
  unfold is_simple_case. rewrite bool_decide_eq_true, list_elem_of_singleton. done.
Qed.

Lemma simple_case_not_unassigned v :
  PyStr.lower (cleaned_verbatim v) = "eukaryota" → is_unassigned_case v = false.
Proof.
  intros H. unfold is_unassigned_case. rewrite H.
  destruct (cleaned_verbatim v); [discriminate|]. reflexivity.
Qed.

(** C8 (kingdom-only shortcut).  A key of the run whose cleaned lineage
    (trimmed, trailing semicolons stripped, trimmed) is "eukaryota" in any
    letter case gets from the fast path the incertae sedis record labelled
    [incertae_sedis_simple_case_] followed by the cleaned lineage; the key
    is removed from the keys the stages process (no identifier group and no
    batch matching for it) and keeps that record to the end.  A key whose
    cleaned lineage is "Bacteria", or any other lineage that is neither
    "eukaryota" nor one of the unassigned forms, gets no record from the
    fast path and stays among the keys handed to the stages. *)
Theorem kingdom_only_shortcut env params_dict df v a :
  (v, a) ∈ unique_tuples df →
  (PyStr.lower (cleaned_verbatim v) = "eukaryota" →
   let record :=
     incertae_sedis params_dict
       ("incertae_sedis_simple_case_" +:+ cleaned_verbatim v) (cleaned_verbatim v) in
   cache_after_fast_path params_dict df !! Combo (v, a) = Some record
   ∧ record !! "match_type_debug"
     = Some (Some ("incertae_sedis_simple_case_" +:+ cleaned_verbatim v))
   ∧ record !! "scientificName" = Some (Some "incertae sedis")
   ∧ ((v, a) ∉ keys_after_fast_path params_dict df)
   ∧ (∀ id, (v, a) ∉ group_get id (identifier_groups env params_dict df))
   ∧ ((v, a) ∉ keys_for_batch env params_dict df)
   ∧ final_cache env params_dict df !! Combo (v, a) = Some record)
  ∧ (PyStr.lower (cleaned_verbatim v) ≠ "eukaryota" →
     is_unassigned_case v = false →
     cache_after_fast_path params_dict df !! Combo (v, a) = None
     ∧ (v, a) ∈ keys_after_fast_path params_dict df)
  ∧ (cleaned_verbatim v = "Bacteria" →
     cache_after_fast_path params_dict df !! Combo (v, a) = None
     ∧ (v, a) ∈ keys_after_fast_path params_dict df).
Proof.
  intros Hkey.
  assert (Hother : PyStr.lower (cleaned_verbatim v) ≠ "eukaryota" →
                   is_unassigned_case v = false →
                   cache_after_fast_path params_dict df !! Combo (v, a) = None
                   ∧ (v, a) ∈ keys_after_fast_path params_dict df).
  { intros Hne Hun.
    assert (fast_record params_dict (v, a) = None) as Hf.
    { unfold fast_record. cbn [fst]. rewrite Hun.
      destruct (is_simple_case v) eqn:Hs; [|done].
      by apply is_simple_case_eq in Hs. }
    rewrite cache_after_fast_path_lookup, decide_True by done.
    split; [done|]. by apply elem_of_keys_after_fast_path. }
  split_and!.
  - intros Heuk record.
    assert (fast_record params_dict (v, a) = Some record) as Hf.
    { unfold fast_record. cbn [fst].
      rewrite (simple_case_not_unassigned v Heuk).
      by rewrite (proj2 (is_simple_case_eq v) Heuk). }
    assert ((v, a) ∉ keys_after_fast_path params_dict df) as Hk.
    { rewrite elem_of_keys_after_fast_path, Hf. by intros [_ ?]. }
    split_and!.
    + by rewrite cache_after_fast_path_lookup, decide_True.
    + apply incertae_sedis_debug.
    + apply incertae_sedis_name.
    + done.
    + intros id Hin. apply stage1_groups in Hin as (_ & Hin & _). done.
    + intros Hin. apply elem_of_stage1_unmatched in Hin as [Hin _]. done.
    + rewrite final_cache_lookup by done. f_equal. by apply resolve_fast.
  - done.
  - intros Hb. apply Hother.
    + by rewrite Hb.
    + unfold is_unassigned_case. by rewrite Hb.
Qed.

Section PrematchClaims.

Variable env : Env.
Variable params_dict : Params.

Lemma prematch_id_skip v a :
  a ∈ assays_to_skip_species params_dict → prematch_id params_dict (v, a) = None.
Proof.
  intros Ha. unfold prematch_id. cbn [snd]. by rewrite bool_decide_eq_true_2.
Qed.

Lemma looks_up_skip v a :
  a ∈ assays_to_skip_species params_dict → looks_up params_dict (v, a) = false.
Proof.
  intros Ha. unfold looks_up. cbn [snd]. by rewrite bool_decide_eq_true_2.
Qed.

Lemma stage1_record_skip v a :
  a ∈ assays_to_skip_species params_dict →
  stage1_record env params_dict (v, a) = None.
Proof.
  intros Ha. unfold stage1_record. rewrite prematch_id_skip by done.
  by case_bool_decide.
Qed.

Lemma stage1_record_failed t id :
  prematch_id params_dict t = Some id →
  match aphiaRecordByAphiaID env id with
  | Returns (Some record) => accepted record = false
  | _ => True
  end →
  stage1_record env params_dict t = None.
Proof.
  intros Hid Hfail. unfold stage1_record. rewrite Hid.
  case_bool_decide; [|done]. cbn [mbind option_bind].
  rewrite (id_worker_failure _ _ _ Hfail).
  rewrite bool_decide_eq_false_2; [done|]. by intros [? ?].
Qed.

Lemma stage1_of_cache_untouched df t :
  t ∈ keys_for_batch env params_dict df →
  cache_after_stage1 env params_dict df !! Combo t = None.
Proof.
  unfold keys_for_batch, cache_after_stage1, stage1_of. intros Hin.
  apply elem_of_stage1_unmatched in Hin as [Hl Hrec].
  rewrite stage1_cache_lookup, decide_True, Hrec by done.
  apply elem_of_keys_after_fast_path in Hl as [Hu Hf].
  by rewrite cache_after_fast_path_lookup, decide_True, Hf.
Qed.

End PrematchClaims.

(** ** The scan of the terms *)

Section Scan.

Variable batch_lookup : gmap string pydict.

Lemma first_in_lookup_app l1 l2 :
  first_in_lookup batch_lookup (l1 ++ l2)
  = match first_in_lookup batch_lookup l1 with
    | Some hit => Some hit
    | None => first_in_lookup batch_lookup l2
    end.
Proof.
  induction l1 as [|x l1 IH]; [done|]. simpl.
  by destruct (batch_lookup !! x).
Qed.

Lemma first_in_lookup_None l :
  first_in_lookup batch_lookup l = None ↔ Forall (λ x, batch_lookup !! x = None) l.
Proof.
  induction l as [|x l IH]; simpl.
  - split; [constructor|done].
  - destruct (batch_lookup !! x) eqn:E.
    + split; [done|]. intros H. apply Forall_cons in H as [H _]. congruence.
    + rewrite IH. split; [by constructor|]. by intros [_ ?]%Forall_cons.
Qed.

(** Scanning the reversed list finds the last term of the list that is a
    key of the table. *)
Lemma first_in_lookup_reverse terms term found :
  first_in_lookup batch_lookup (reverse terms) = Some (term, found)
  ↔ ∃ pre post, terms = pre ++ term :: post
                ∧ batch_lookup !! term = Some found
                ∧ Forall (λ x, batch_lookup !! x = None) post.
Proof.
  induction terms as [|x terms IH] using rev_ind.
  - simpl. split; [done|]. intros (pre & post & H & _). by destruct pre.
  - rewrite reverse_app. cbn [reverse app]. simpl.
    destruct (batch_lookup !! x) as [fx|] eqn:Ex.
    + split.
      * intros [= <- <-]. exists terms, []. split_and!; [done|done|constructor].
      * intros (pre & post & Heq & Hf & Hpost).
        destruct post as [|p post _] using rev_ind.
        -- apply app_inj_tail in Heq as [_ <-]. congruence.
        -- rewrite app_comm_cons, app_assoc in Heq.
           apply app_inj_tail in Heq as [_ <-].
           apply Forall_app in Hpost as [_ Hp].
           apply Forall_cons in Hp as [Hp _]. congruence.
    + rewrite IH. split.
      * intros (pre & post & -> & Hf & Hpost). exists pre, (post ++ [x]).
        split_and!; [by rewrite <- app_assoc|done|].
        apply Forall_app. split; [done|]. by constructor.
      * intros (pre & post & Heq & Hf & Hpost).
        destruct post as [|p post _] using rev_ind.
        -- apply app_inj_tail in Heq as [_ <-]. congruence.
        -- rewrite app_comm_cons, app_assoc in Heq.
           apply app_inj_tail in Heq as [-> _].
           apply Forall_app in Hpost as [Hpost _].
           exists pre, post. done.
Qed.

End Scan.

(** C5 (reverse-specificity match order).  The scan of a key's terms, from
    the most specific to the least specific, stops at the last term of the
    sequence that is a key of the lookup table: no term after it is in the
    table.  The record stored for the key is that term's entry with the
    provenance, the label [Success_Batch_] followed by the term, and the
    cleaned lineage written over it; when no term is in the table the key
    is left unmatched.  For the terms A, B, C and a table holding B only,
    the match uses B and the label is [Success_Batch_B].  In a whole run,
    a key handed to Stage 2 whose terms are scanned this way ends with that
    record in the cache. *)
Theorem reverse_specificity_match_order env params_dict :
  (∀ batch_lookup st t terms term found,
     first_in_lookup batch_lookup (reverse terms) = Some (term, found) →
     (∃ pre post, terms = pre ++ term :: post
                  ∧ batch_lookup !! term = Some found
                  ∧ Forall (λ x, batch_lookup !! x = None) post)
     ∧ scan_terms params_dict batch_lookup st t terms
       = (<[ Combo t := batch_success params_dict found term (joined_or terms t.1) ]> st.1,
          st.2)
     ∧ batch_success params_dict found term (joined_or terms t.1) !! "match_type_debug"
       = Some (Some ("Success_Batch_" +:+ term)))
  ∧ (∀ batch_lookup terms pre term post found,
       terms = pre ++ term :: post →
       batch_lookup !! term = Some found →
       Forall (λ x, batch_lookup !! x = None) post →
       first_in_lookup batch_lookup (reverse terms) = Some (term, found))
  ∧ (∀ batch_lookup st t terms,
       Forall (λ x, batch_lookup !! x = None) terms →
       scan_terms params_dict batch_lookup st t terms = (st.1, st.2 ++ [t]))
  ∧ (∀ st t found,
       scan_terms params_dict {[ "B" := found ]} st t ["A"; "B"; "C"]
       = (<[ Combo t := batch_success params_dict found "B" "A;B;C" ]> st.1, st.2)
       ∧ batch_success params_dict found "B" "A;B;C" !! "match_type_debug"
         = Some (Some "Success_Batch_B"))
  ∧ (∀ df t term found,
       t ∈ keys_for_batch env params_dict df →
       terms_for_matching params_dict t ≠ [] →
       first_in_lookup (batch_lookup_of env params_dict df)
                       (reverse (terms_for_matching params_dict t))
       = Some (term, found) →
       final_cache env params_dict df !! Combo t
       = Some (batch_success params_dict found term
                 (PyStr.join ";" (terms_for_matching params_dict t)))).
Proof.
  split_and!.
  - intros batch_lookup [c u] t terms term found Hf. split_and!.
    + by apply first_in_lookup_reverse.
    + unfold scan_terms. by rewrite Hf.
    + apply batch_success_debug.
  - intros batch_lookup terms pre term post found ? ? ?.
    apply first_in_lookup_reverse. eauto.
  - intros batch_lookup [c u] t terms Hall.
    unfold scan_terms.
    assert (first_in_lookup batch_lookup (reverse terms) = None) as ->; [|done].
    apply first_in_lookup_None. by apply Forall_reverse.
  - intros [c u] t found. split; [|apply batch_success_debug].
    unfold scan_terms. cbn [reverse rev_append first_in_lookup joined_or].
    by simplify_map_eq.
  - intros df t term found Hin Hne Hf.
    assert (Hin' := Hin). unfold keys_for_batch, stage1_of in Hin'.
    apply elem_of_stage1_unmatched in Hin' as [Hk H1].
    apply elem_of_keys_after_fast_path in Hk as [Hu H0].
    rewrite final_cache_lookup by done. f_equal.
    unfold resolve. rewrite H0, H1. unfold stage2_record. rewrite Hf.
    by destruct (terms_for_matching params_dict t).
Qed.

Section Truncation.

Variable env : Env.
Variable params_dict : Params.

Lemma final_record_for_batch_key df t :
  t ∈ keys_for_batch env params_dict df →
  final_cache env params_dict df !! Combo t
  = Some (default (no_match_record params_dict t)
                  (stage2_record params_dict (batch_lookup_of env params_dict df) t)).
Proof.
  intros Hin. unfold keys_for_batch, stage1_of in Hin.
  apply elem_of_stage1_unmatched in Hin as [Hk H1].
  apply elem_of_keys_after_fast_path in Hk as [Hu H0].
  rewrite final_cache_lookup by done. unfold resolve. by rewrite H0, H1.
Qed.

Lemma final_record_cleaned df t :
  t ∈ keys_for_batch env params_dict df →
  ∃ record,
    final_cache env params_dict df !! Combo t = Some record
    ∧ record !! "cleanedTaxonomy"
      = Some (Some (joined_or (terms_for_matching params_dict t) t.1)).
Proof.
  intros Hin. rewrite final_record_for_batch_key by done.
  eexists. split; [done|].
  unfold stage2_record, no_match_record.
  destruct (terms_for_matching params_dict t) as [|y ys] eqn:Ht.
  - simpl. apply incertae_sedis_cleaned.
  - destruct (first_in_lookup _ _) as [[term found]|]; simpl.
    + apply batch_success_cleaned.
    + apply incertae_sedis_cleaned.
Qed.

Lemma skip_key_for_batch df v a :
  (v, a) ∈ keys_after_fast_path params_dict df →
  a ∈ assays_to_skip_species params_dict →
  (v, a) ∈ keys_for_batch env params_dict df.
Proof.
  intros Hk Ha. unfold keys_for_batch, stage1_of.
  apply elem_of_stage1_unmatched. split; [done|]. by apply stage1_record_skip.
Qed.

End Truncation.

Lemma drop_last_length (l : list string) : length (drop_last l) = (length l - 1)%nat.
Proof. unfold drop_last. rewrite length_take. lia. Qed.

(** The truncation policy for the keys the fast path leaves. *)
Lemma depth_truncation_left_keys env params_dict df v a :
  (v, a) ∈ keys_after_fast_path params_dict df →
  a ∈ assays_to_skip_species params_dict →
  (v, a) ∈ keys_for_batch env params_dict df
  ∧ ∃ record,
      final_cache env params_dict df !! Combo (v, a) = Some record
      ∧ (max_depth_for_assay params_dict a
         ≤ Z.of_nat (length (parse_semicolon_taxonomy (Some v))) →
         (2 ≤ length (parse_semicolon_taxonomy (Some v)))%nat →
         (∀ batch_lookup st,
            batch_match_step params_dict batch_lookup st (v, a)
            = scan_terms params_dict batch_lookup st (v, a)
                (drop_last (parse_semicolon_taxonomy (Some v))))
         ∧ record !! "cleanedTaxonomy"
           = Some (Some (PyStr.join ";" (drop_last (parse_semicolon_taxonomy (Some v))))))
      ∧ (max_depth_for_assay params_dict a
         ≤ Z.of_nat (length (parse_semicolon_taxonomy (Some v))) →
         length (parse_semicolon_taxonomy (Some v)) = 1%nat →
         (∀ batch_lookup st,
            batch_match_step params_dict batch_lookup st (v, a) = (st.1, st.2 ++ [(v, a)]))
         ∧ record = incertae_sedis params_dict "Failed_All_Stages_NoMatch" v)
      ∧ (Z.of_nat (length (parse_semicolon_taxonomy (Some v)))
         < max_depth_for_assay params_dict a →
         parse_semicolon_taxonomy (Some v) ≠ [] →
         (∀ batch_lookup st,
            batch_match_step params_dict batch_lookup st (v, a)
            = scan_terms params_dict batch_lookup st (v, a)
                (parse_semicolon_taxonomy (Some v)))
         ∧ record !! "cleanedTaxonomy"
           = Some (Some (PyStr.join ";" (parse_semicolon_taxonomy (Some v))))).
Proof.
  intros Hk Ha.
  assert ((v, a) ∈ keys_for_batch env params_dict df) as Hb
      by by apply skip_key_for_batch.
  split; [done|].
  destruct (final_record_cleaned env params_dict df (v, a) Hb) as (record & Hrec & Hcl).
  exists record. split; [done|].
  pose proof (final_record_for_batch_key env params_dict df (v, a) Hb) as Hfinal.
  rewrite Hrec in Hfinal. injection Hfinal as Hfinal.
  unfold terms_for_matching in Hcl. cbn [fst snd] in Hcl.
  unfold stage2_record, no_match_record, terms_for_matching in Hfinal.
  cbn [fst snd] in Hfinal.
  unfold batch_match_step.
  rewrite (bool_decide_eq_true_2 _ Ha) in *. cbn [andb] in *.
  unfold is_full_length_taxonomy in *.
  destruct (parse_semicolon_taxonomy (Some v)) as [|x xs] eqn:Hp.
  - split_and!; intros; simpl in *; [lia|lia|done].
  - split_and!.
    + intros Hfull Hlen. rewrite (bool_decide_eq_true_2 _ Hfull) in *.
      destruct (drop_last (x :: xs)) as [|y ys] eqn:Hd.
      { apply (f_equal length) in Hd. rewrite drop_last_length in Hd.
        simpl in *. lia. }
      split; [done|]. exact Hcl.
    + intros Hfull Hlen. rewrite (bool_decide_eq_true_2 _ Hfull) in *.
      destruct xs; [|simpl in Hlen; lia].
      split; [done|]. by rewrite Hfinal.
    + intros Hlt _.
      rewrite bool_decide_eq_false_2 in * by lia.
      split; [done|]. exact Hcl.
Qed.

Lemma rows_share_key r1 r2 :
  verbatimIdentification r1 = verbatimIdentification r2 →
  assay_name r1 = assay_name r2 → map_key_of r1 = map_key_of r2.
Proof.
  intros Hv Ha. unfold map_key_of, empty_verbatim_mask. by rewrite Hv, Ha.
Qed.

(** C3 (deduplication and cache consistency), as the code has it.  The
    distinct keys of the table are processed once each.  For a key, Stage 1
    tests the local dictionary at most once: once when the dictionary is not
    empty, the fast path left the key, its assay does not skip species and
    its lineage has a term; never otherwise.  The identifiers fetched are
    pairwise distinct and a key belongs to the group of at most one of
    them, once.  A key is handed to Stage 2 at most once, and each distinct
    term of those keys is sent to the service in one batch only.  Rows that
    share the pair ([verbatimIdentification], [assay_name]) get their
    columns from one and the same record of the cache. *)
Theorem deduplication_and_cache_consistency env params_dict df :
  NoDup (unique_tuples df)
  ∧ NoDup (dictionary_lookups env params_dict df)
  ∧ (∀ t, t ∈ dictionary_lookups env params_dict df
          ↔ pr2_dict params_dict ≠ ∅
            ∧ t ∈ keys_after_fast_path params_dict df
            ∧ (t.2 ∉ assays_to_skip_species params_dict)
            ∧ parse_semicolon_taxonomy (Some t.1) ≠ [])
  ∧ NoDup (identifier_groups env params_dict df).*1
  ∧ (∀ id id' t,
       t ∈ group_get id (identifier_groups env params_dict df) →
       t ∈ group_get id' (identifier_groups env params_dict df) → id = id')
  ∧ (∀ id, NoDup (group_get id (identifier_groups env params_dict df)))
  ∧ NoDup (keys_for_batch env params_dict df)
  ∧ NoDup (all_terms_to_match env (keys_for_batch env params_dict df))
  ∧ (∀ i j b b' term,
       i ≠ j →
       batch_data (all_terms_to_match env (keys_for_batch env params_dict df)) !! i
       = Some b →
       batch_data (all_terms_to_match env (keys_for_batch env params_dict df)) !! j
       = Some b' →
       term ∈ b.2 → term ∉ b'.2)
  ∧ (∀ i j r1 r2,
       df !! i = Some r1 → df !! j = Some r2 →
       verbatimIdentification r1 = verbatimIdentification r2 →
       assay_name r1 = assay_name r2 →
       ∃ out r1' r2' record,
         get_worms_match_for_dataframe env params_dict df = Returns out
         ∧ out !! i = Some r1' ∧ out !! j = Some r2'
         ∧ final_cache env params_dict df !! map_key_of r1 = Some record
         ∧ final_cache env params_dict df !! map_key_of r2 = Some record
         ∧ ∀ col, col ≠ "_map_key" → is_Some (record !! col) →
                  columns r1' !! col = record !! col
                  ∧ columns r2' !! col = record !! col).
Proof.
  split_and!.
  - apply NoDup_drop_duplicates.
  - unfold dictionary_lookups, stage1_of.
    apply stage1_lookups_NoDup, NoDup_keys_after_fast_path.
  - intros t. unfold dictionary_lookups, stage1_of. rewrite stage1_lookups.
    case_bool_decide as Hp.
    + rewrite list_elem_of_filter. unfold looks_up.
      rewrite andb_true_iff, negb_true_iff, bool_decide_eq_false, bool_decide_eq_true.
      tauto.
    + split; [by intros ?%elem_of_nil|]. intros [? _]. done.
  - unfold identifier_groups, stage1_of. apply stage1_ids_NoDup.
  - intros id id' t H1 H2. unfold identifier_groups, stage1_of in *.
    apply stage1_groups in H1 as (_ & _ & H1).
    apply stage1_groups in H2 as (_ & _ & H2). congruence.
  - intros id. unfold identifier_groups, stage1_of, stage1.
    case_bool_decide; cbn [snd]; [|constructor].
    unfold prematch.
    destruct (prematch_fold params_dict (keys_after_fast_path params_dict df)
                {| aphia_id_map := []; unmatched_tuples := []; pr2_lookups := [] |})
      as (_ & _ & Hg & _ & _).
    rewrite Hg. simpl. apply NoDup_filter, NoDup_keys_after_fast_path.
  - unfold keys_for_batch, stage1_of.
    apply NoDup_stage1_unmatched, NoDup_keys_after_fast_path.
  - apply NoDup_all_terms_to_match.
  - intros i j b b' term Hij Hb Hb'.
    eapply batch_chunks_disjoint; [apply NoDup_all_terms_to_match|done..].
  - intros i j r1 r2 Hi Hj Hv Ha.
    destruct (get_worms_match_rows env params_dict df) as (out & Hrun & _ & Hrows).
    destruct (Hrows i r1 Hi) as (r1' & rec1 & Hout1 & Hrec1 & _ & _ & Hcols1).
    destruct (Hrows j r2 Hj) as (r2' & rec2 & Hout2 & Hrec2 & _ & _ & Hcols2).
    assert (rec1 = rec2) as <-.
    { rewrite (rows_share_key r1 r2 Hv Ha) in Hrec1. congruence. }
    exists out, r1', r2', rec1. split_and!; [done..|].
    intros col Hne Hs. split; [by apply Hcols1|by apply Hcols2].
Qed.

(** ** The normalizer *)

Section Normalizer.

Lemma prefix_single a c r :
  String.prefix (String a "") (String c r) = Ascii.eqb c a.
Proof.
  simpl. destruct (ascii_dec a c) as [->|Hne].
  - rewrite Ascii.eqb_refl. by destruct r.
  - symmetry. apply Ascii.eqb_neq. congruence.
Qed.

Lemma replace_go_unfold old new c r :
  PyStr.replace_go old new 0 (String c r)
  = if String.prefix old (String c r)
    then new +:+ PyStr.replace_go old new (Nat.pred (String.length old)) r
    else String c (PyStr.replace_go old new 0 r).
Proof. done. Qed.

Lemma replace_char a b s :
  PyStr.replace (String a "") (String b "") s
  = map_chars (λ c, if Ascii.eqb c a then b else c) s.
Proof.
  unfold PyStr.replace. induction s as [|c r IH]; [done|].
  rewrite replace_go_unfold, prefix_single. cbn [map_chars].
  destruct (Ascii.eqb c a); simpl; by rewrite IH.
Qed.

Lemma map_chars_compose f g s :
  map_chars f (map_chars g s) = map_chars (λ c, f (g c)) s.
Proof. induction s as [|c r IH]; [done|]. simpl. by rewrite IH. Qed.

Lemma map_chars_ext f g s :
  (∀ c, f c = g c) → map_chars f s = map_chars g s.
Proof. intros H. induction s as [|c r IH]; [done|]. simpl. by rewrite H, IH. Qed.

Lemma replace_separators s :
  PyStr.replace "/" " " (PyStr.replace "-" " " (PyStr.replace "_" " " s))
  = map_chars separator_to_space s.
Proof.
  rewrite !replace_char, !map_chars_compose. apply map_chars_ext.
  intros c. unfold separator_to_space.
  destruct c as [[] [] [] [] [] [] [] []]; reflexivity.
Qed.

Lemma re_digit_isdigit c : PyStr.re_digit c = true → PyStr.isdigit c = true.
Proof.
  unfold PyStr.re_digit, PyStr.isdigit. intros ->. done.
Qed.

Lemma remove_digits_gate s :
  (if PyStr.any PyStr.isdigit s then PyStr.re_sub_digits s else s)
  = PyStr.remove_chars PyStr.re_digit s.
Proof.
  destruct (PyStr.any PyStr.isdigit s) eqn:Hany; [done|].
  induction s as [|c r IH]; [done|]. simpl in *.
  apply orb_false_iff in Hany as [Hc Hr].
  destruct (PyStr.re_digit c) eqn:Hd.
  - apply re_digit_isdigit in Hd. congruence.
  - by rewrite <- IH.
Qed.

Lemma foldl_append_some {A B} (f : A → option B) l acc :
  foldl (λ acc x, match f x with Some y => acc ++ [y] | None => acc end) acc l
  = acc ++ omap f l.
Proof.
  revert acc. induction l as [|x l IH]; intros acc; simpl.
  - by rewrite app_nil_r.
  - rewrite IH. destruct (f x); [|done]. by rewrite <- app_assoc.
Qed.

Lemma nonempty_false s : PyStr.nonempty s = false ↔ s = "".
Proof. by destruct s. Qed.

Lemma clean_name_eq name :
  clean_name name = normalize_token collapse_if_double_space name.
Proof.
  unfold clean_name, normalize_token, collapse_if_double_space.
  assert (negb (PyStr.nonempty (PyStr.strip name))
          = bool_decide (PyStr.strip name = "")) as ->.
  { by destruct (PyStr.strip name). }
  assert ((PyStr.lower (PyStr.strip name) =? "unassigned")%string
          = bool_decide (PyStr.lower (PyStr.strip name) = "unassigned")) as ->.
  { destruct (String.eqb_spec (PyStr.lower (PyStr.strip name)) "unassigned").
    - by rewrite bool_decide_eq_true_2.
    - by rewrite bool_decide_eq_false_2. }
  destruct (_ || _); [done|].
  rewrite remove_digits_gate.
  set (t := PyStr.strip _).
  destruct t as [|c [|c' r]]; reflexivity.
Qed.

Lemma parse_semicolon_taxonomy_eq raw :
  parse_semicolon_taxonomy raw = normalize raw.
Proof.
  unfold parse_semicolon_taxonomy, normalize, normalize_with.
  destruct raw as [s|]; [|done].
  assert (negb (PyStr.nonempty (PyStr.strip s)) = bool_decide (PyStr.strip s = ""))
    as -> by by destruct (PyStr.strip s).
  case_bool_decide; [done|].
  rewrite replace_separators, foldl_append_some. simpl.
  apply list_omap_ext, Forall2_same_length_lookup. split; [done|].
  intros i x y Hx Hy. rewrite Hx in Hy. injection Hy as <-. apply clean_name_eq.
Qed.

End Normalizer.

(** ** Strings *)

Section Strings.

Implicit Types (s t w : string) (p : ascii → bool).

Lemma append_cons c s t : String c s +:+ t = String c (s +:+ t).
Proof. reflexivity. Qed.

Lemma append_nil_l s : "" +:+ s = s.
Proof. reflexivity. Qed.

Lemma append_nil_r s : s +:+ "" = s.
Proof. induction s as [|c r IH]; [done|]. by rewrite append_cons, IH. Qed.

Lemma append_assoc s t w : (s +:+ t) +:+ w = s +:+ (t +:+ w).
Proof. induction s as [|c r IH]; [done|]. by rewrite !append_cons, IH. Qed.

Lemma all_chars_app p s t :
  all_chars p (s +:+ t) = all_chars p s && all_chars p t.
Proof.
  induction s as [|c r IH]; [done|]. rewrite append_cons. simpl.
  by rewrite IH, andb_assoc.
Qed.

Lemma all_chars_impl p q s :
  (∀ c, p c = true → q c = true) → all_chars p s = true → all_chars q s = true.
Proof.
  intros Hpq. induction s as [|c r IH]; [done|]. simpl.
  intros [Hc Hr]%andb_true_iff. rewrite (Hpq c Hc). by apply IH.
Qed.

Lemma lstrip_by_decompose p s :
  ∃ w, s = w +:+ PyStr.lstrip_by p s ∧ all_chars p w = true.
Proof.
  induction s as [|c r (w & IH & Hw)]; [by exists ""|]. simpl.
  destruct (p c) eqn:Hc.
  - exists (String c w). rewrite append_cons. simpl. rewrite Hc, Hw.
    by rewrite <- IH.
  - by exists "".
Qed.

Lemma lstrip_by_head p s c r :
  PyStr.lstrip_by p s = String c r → p c = false.
Proof.
  induction s as [|c' r' IH]; [done|]. simpl.
  destruct (p c') eqn:Hc; [done|]. by intros [= <- <-].
Qed.

Lemma lstrip_by_app p w s :
  all_chars p w = true → PyStr.lstrip_by p (w +:+ s) = PyStr.lstrip_by p s.
Proof.
  induction w as [|c r IH]; [done|]. rewrite append_cons. simpl.
  intros [Hc Hr]%andb_true_iff. rewrite Hc. by apply IH.
Qed.

Lemma lstrip_by_all p w : all_chars p w = true → PyStr.lstrip_by p w = "".
Proof.
  induction w as [|c r IH]; [done|]. simpl.
  intros [Hc Hr]%andb_true_iff. rewrite Hc. by apply IH.
Qed.

Lemma rstrip_by_all p w : all_chars p w = true → PyStr.rstrip_by p w = "".
Proof.
  induction w as [|c r IH]; [done|]. simpl.
  intros [Hc Hr]%andb_true_iff. by rewrite IH, Hc.
Qed.

Lemma rstrip_by_decompose p s :
  ∃ w, s = PyStr.rstrip_by p s +:+ w ∧ all_chars p w = true.
Proof.
  induction s as [|c r (w & IH & Hw)]; [by exists ""|].
  cbn [PyStr.rstrip_by].
  destruct (PyStr.rstrip_by p r) as [|c' r'] eqn:Hr.
  - rewrite append_nil_l in IH. subst w. cbn [PyStr.nonempty negb andb].
    destruct (p c) eqn:Hc.
    + exists (String c r). rewrite append_nil_l. simpl. by rewrite Hc, Hw.
    + exists r. by rewrite append_cons, append_nil_l.
  - cbn [PyStr.nonempty negb andb]. exists w. split; [|done].
    rewrite append_cons. by rewrite <- IH.
Qed.

Lemma rstrip_by_app p s w :
  all_chars p w = true → PyStr.rstrip_by p (s +:+ w) = PyStr.rstrip_by p s.
Proof.
  intros Hw. induction s as [|c r IH].
  - rewrite append_nil_l. by apply rstrip_by_all.
  - rewrite append_cons. simpl. by rewrite IH.
Qed.

Lemma rstrip_by_none p s :
  all_chars (λ c, negb (p c)) s = true → PyStr.rstrip_by p s = s.
Proof.
  induction s as [|c r IH]; [done|]. simpl.
  intros [Hc Hr]%andb_true_iff. apply negb_true_iff in Hc.
  by rewrite IH, Hc, andb_false_r.
Qed.

(** Trimming a string without whitespace set between whitespace. *)
Lemma strip_padded w0 c w1 :
  all_chars PyStr.isspace w0 = true → all_chars PyStr.isspace w1 = true →
  all_chars (λ ch, negb (PyStr.isspace ch)) c = true →
  PyStr.strip (w0 +:+ c +:+ w1) = c.
Proof.
  intros H0 H1 Hc. unfold PyStr.strip. rewrite lstrip_by_app by done.
  destruct c as [|ch r].
  - rewrite append_nil_l, lstrip_by_all by done. done.
  - assert (PyStr.lstrip_by PyStr.isspace (String ch r +:+ w1) = String ch r +:+ w1)
      as ->.
    { rewrite append_cons. simpl in *. apply andb_true_iff in Hc as [Hc _].
      apply negb_true_iff in Hc. by rewrite Hc. }
    rewrite rstrip_by_app by done. by apply rstrip_by_none.
Qed.

End Strings.

(** ** Whitespace in the tokens *)

Section Collapse.

Lemma all_chars_lstrip p q s :
  all_chars q s = true → all_chars q (PyStr.lstrip_by p s) = true.
Proof.
  intros H. destruct (lstrip_by_decompose p s) as (w & Hs & _).
  rewrite Hs, all_chars_app in H. by apply andb_true_iff in H as [_ ?].
Qed.

Lemma all_chars_rstrip p q s :
  all_chars q s = true → all_chars q (PyStr.rstrip_by p s) = true.
Proof.
  intros H. destruct (rstrip_by_decompose p s) as (w & Hs & _).
  rewrite Hs, all_chars_app in H. by apply andb_true_iff in H as [? _].
Qed.

Lemma all_chars_strip q s :
  all_chars q s = true → all_chars q (PyStr.strip s) = true.
Proof. intros H. by apply all_chars_rstrip, all_chars_lstrip. Qed.

Lemma all_chars_remove q p s :
  all_chars q s = true → all_chars q (PyStr.remove_chars p s) = true.
Proof.
  induction s as [|c r IH]; [done|]. simpl.
  intros [Hc Hr]%andb_true_iff. destruct (p c); simpl; [by apply IH|].
  by rewrite Hc, IH.
Qed.

Lemma all_chars_replace_go q old k s :
  all_chars q s = true → all_chars q (PyStr.replace_go old "" k s) = true.
Proof.
  revert k. induction s as [|c r IH]; intros k; [done|].
  cbn [all_chars]. intros [Hc Hr]%andb_true_iff.
  destruct k as [|k]; [|by apply IH].
  rewrite replace_go_unfold. destruct (String.prefix old (String c r)).
  - rewrite append_nil_l. by apply IH.
  - cbn [all_chars]. by rewrite Hc, IH.
Qed.

Lemma all_chars_split q sep s :
  all_chars q s = true → Forall (λ t, all_chars q t = true) (PyStr.split sep s).
Proof.
  induction s as [|c r IH]; [by repeat constructor|].
  cbn [all_chars]. intros [Hc Hr]%andb_true_iff. simpl.
  specialize (IH Hr). destruct (Ascii.eqb c sep).
  - by constructor.
  - destruct (PyStr.split sep r) as [|p ps].
    + repeat constructor. simpl. by rewrite Hc.
    + apply Forall_cons in IH as [Hp Hps]. constructor; [|done].
      simpl. by rewrite Hc, Hp.
Qed.

Lemma all_chars_map q f s :
  (∀ c, q c = true → q (f c) = true) →
  all_chars q s = true → all_chars q (map_chars f s) = true.
Proof.
  intros Hf. induction s as [|c r IH]; [done|]. simpl.
  intros [Hc Hr]%andb_true_iff. by rewrite (Hf c Hc), IH.
Qed.

Lemma separator_to_space_visible c :
  space_or_visible c = true → space_or_visible (separator_to_space c) = true.
Proof. destruct c as [[] [] [] [] [] [] [] []]; done. Qed.

Lemma space_or_visible_space c :
  space_or_visible c = true → PyStr.isspace c = true → c = " "%char.
Proof. destruct c as [[] [] [] [] [] [] [] []]; done. Qed.

Lemma prefix_space_cons c r :
  String.prefix " " (String c r) = Ascii.eqb c " ".
Proof. apply prefix_single. Qed.

Lemma prefix_double c r :
  String.prefix "  " (String c r) = Ascii.eqb c " " && String.prefix " " r.
Proof.
  change (String.prefix "  " (String c r))
    with (if ascii_dec " " c then String.prefix " " r else false).
  destruct (ascii_dec " " c) as [<-|Hne].
  - by rewrite Ascii.eqb_refl.
  - rewrite (proj2 (Ascii.eqb_neq c " ")); [done|congruence].
Qed.

(** Where the only whitespace is the space and no two spaces are
    adjacent, collapsing the runs changes nothing. *)
Lemma collapse_go_id in_run s :
  all_chars space_or_visible s = true →
  PyStr.contains "  " s = false →
  (in_run = true → String.prefix " " s = false) →
  PyStr.collapse_go in_run s = s.
Proof.
  revert in_run. induction s as [|c r IH]; intros in_run Hq Hno Hrun; [done|].
  cbn [all_chars] in Hq. apply andb_true_iff in Hq as [Hc Hr].
  cbn [PyStr.contains] in Hno. apply orb_false_iff in Hno as [Hpre Hno].
  rewrite prefix_double in Hpre.
  cbn [PyStr.collapse_go].
  destruct (PyStr.isspace c) eqn:Hws.
  - pose proof (space_or_visible_space c Hc Hws) as ->.
    rewrite Ascii.eqb_refl in Hpre. cbn [andb] in Hpre.
    destruct in_run.
    + specialize (Hrun eq_refl). by rewrite prefix_space_cons in Hrun.
    + f_equal. by apply IH.
  - f_equal. by apply IH.
Qed.

Lemma collapse_same token :
  all_chars space_or_visible token = true →
  collapse_if_double_space token = PyStr.re_sub_spaces token.
Proof.
  intros Hq. unfold collapse_if_double_space.
  destruct (PyStr.contains "  " token) eqn:Hc; [done|].
  symmetry. by apply collapse_go_id.
Qed.

Lemma normalize_token_same token :
  all_chars space_or_visible token = true →
  normalize_token collapse_if_double_space token
  = normalize_token PyStr.re_sub_spaces token.
Proof.
  intros Hq. unfold normalize_token.
  destruct (_ || _); [done|].
  rewrite collapse_same; [done|].
  apply all_chars_remove. unfold PyStr.replace.
  by apply all_chars_replace_go, all_chars_replace_go, all_chars_strip.
Qed.

(** On an input whose only whitespace is the space, the normalizer
    collapses every whitespace run. *)
Lemma normalize_same s :
  all_chars space_or_visible s = true →
  normalize (Some s) = normalize_claimed (Some s).
Proof.
  intros Hq. unfold normalize, normalize_claimed, normalize_with.
  case_bool_decide; [done|].
  apply list_omap_ext, Forall2_same_length_lookup. split; [done|].
  intros i x y Hx Hy. rewrite Hx in Hy. injection Hy as <-.
  apply normalize_token_same.
  pose proof (all_chars_split space_or_visible ";" _
                (all_chars_map _ _ _ separator_to_space_visible Hq)) as Hall.
  rewrite Forall_forall in Hall. apply Hall. by eapply list_elem_of_lookup_2.
Qed.

(** What the collapse leaves has no two adjacent spaces. *)
Lemma collapse_go_no_double in_run s :
  PyStr.contains "  " (PyStr.collapse_go in_run s) = false
  ∧ (in_run = true → String.prefix " " (PyStr.collapse_go in_run s) = false).
Proof.
  revert in_run. induction s as [|c r IH]; intros in_run; [by destruct in_run|].
  cbn [PyStr.collapse_go].
  destruct (PyStr.isspace c) eqn:Hws.
  - destruct in_run; [apply IH|].
    destruct (IH true) as [Hno Hpre]. split; [|done].
    cbn [PyStr.contains]. rewrite Hno, orb_false_r, prefix_double.
    by rewrite (Hpre eq_refl), andb_false_r.
  - destruct (IH false) as [Hno _].
    assert (Ascii.eqb c " " = false) as Hc.
    { destruct (Ascii.eqb c " ") eqn:E; [|done].
      apply Ascii.eqb_eq in E as ->. done. }
    split.
    + cbn [PyStr.contains]. by rewrite Hno, orb_false_r, prefix_double, Hc.
    + intros _. by rewrite prefix_space_cons.
Qed.

End Collapse.

Section Tokens.

Lemma prefix_app_l sub s w :
  String.prefix sub s = true → String.prefix sub (s +:+ w) = true.
Proof.
  revert sub. induction s as [|c r IH]; intros sub.
  - destruct sub; [|done]. intros _. by destruct w.
  - destruct sub as [|a sub']; [done|]. rewrite append_cons. simpl.
    destruct (ascii_dec a c); [apply IH|done].
Qed.

Lemma contains_app_l sub s w :
  PyStr.contains sub s = true → PyStr.contains sub (s +:+ w) = true.
Proof.
  induction s as [|c r IH].
  - simpl. rewrite orb_false_r. intros H. destruct sub; [|done]. by destruct w.
  - rewrite append_cons. cbn [PyStr.contains].
    intros [H|H]%orb_true_iff.
    + rewrite <- append_cons. by rewrite (prefix_app_l _ _ _ H).
    + by rewrite (IH H), orb_true_r.
Qed.

Lemma contains_app_r sub w s :
  PyStr.contains sub s = true → PyStr.contains sub (w +:+ s) = true.
Proof.
  intros H. induction w as [|c r IH]; [done|].
  rewrite append_cons. cbn [PyStr.contains]. by rewrite IH, orb_true_r.
Qed.

Lemma contains_strip sub s :
  PyStr.contains sub s = false → PyStr.contains sub (PyStr.strip s) = false.
Proof.
  intros H. unfold PyStr.strip.
  destruct (lstrip_by_decompose PyStr.isspace s) as (w & Hs & _).
  destruct (rstrip_by_decompose PyStr.isspace (PyStr.lstrip_by PyStr.isspace s))
    as (w' & Hl & _).
  destruct (PyStr.contains sub (PyStr.rstrip_by _ _)) eqn:E; [|done].
  apply (contains_app_l _ _ w') in E. rewrite <- Hl in E.
  apply (contains_app_r _ w) in E. rewrite <- Hs in E. congruence.
Qed.

(** A token the normalizer keeps is longer than one character and holds
    no two adjacent spaces. *)
Lemma clean_name_token name token :
  clean_name name = Some token →
  (1 < String.length token)%nat ∧ PyStr.contains "  " token = false.
Proof.
  unfold clean_name. destruct (_ || _); [done|].
  set (t1 := if PyStr.any PyStr.isdigit _ then _ else _).
  set (t2 := if PyStr.contains "  " t1 then PyStr.re_sub_spaces t1 else t1).
  assert (PyStr.contains "  " t2 = false) as Hno.
  { unfold t2. destruct (PyStr.contains "  " t1) eqn:E; [|done].
    apply collapse_go_no_double. }
  destruct (PyStr.nonempty (PyStr.strip t2)
            && (1 <? String.length (PyStr.strip t2))%nat) eqn:E; [|done].
  intros [= <-]. apply andb_true_iff in E as [_ E]. apply Nat.ltb_lt in E.
  split; [done|]. by apply contains_strip.
Qed.

Lemma parse_tokens raw :
  Forall (λ token, (1 < String.length token)%nat
                   ∧ PyStr.contains "  " token = false)
         (parse_semicolon_taxonomy raw).
Proof.
  unfold parse_semicolon_taxonomy. destruct raw as [s|]; [|constructor].
  destruct (negb _); [constructor|].
  rewrite foldl_append_some. simpl.
  apply Forall_forall. intros token Hin.
  apply list_elem_of_omap in Hin as (name & _ & Hc).
  by eapply clean_name_token.
Qed.

End Tokens.

(** C7 (normalizer), as the code has it.  [parse_semicolon_taxonomy] is a
    function of its argument alone, and for every input it is the
    normalizer of the specification: nothing for a missing or blank input;
    otherwise underscores, hyphens and slashes become spaces, the string is
    split at the semicolons, and each token is trimmed, passed over when
    empty or equal to "unassigned" in any letter case, freed of the
    substrings " sp." and " spp." and of its digits, has its whitespace
    runs collapsed to one space when it holds two consecutive spaces (and
    is left as it is otherwise), is trimmed again and passed over when at
    most one character long.  Every token returned is longer than one
    character and holds no two adjacent spaces; on an input whose only
    whitespace is the ordinary space the result is that of the normalizer
    that collapses every whitespace run.  "Eukaryota;Metazoa_sp.2;" gives
    Eukaryota, Metazoa. *)
Theorem normalizer_behaviour :
  (∀ raw, parse_semicolon_taxonomy raw = normalize raw)
  ∧ (∀ raw1 raw2, raw1 = raw2 →
       parse_semicolon_taxonomy raw1 = parse_semicolon_taxonomy raw2)
  ∧ (∀ raw, Forall (λ token, (1 < String.length token)%nat
                             ∧ PyStr.contains "  " token = false)
                   (parse_semicolon_taxonomy raw))
  ∧ (∀ s, all_chars space_or_visible s = true →
       parse_semicolon_taxonomy (Some s) = normalize_claimed (Some s))
  ∧ parse_semicolon_taxonomy (Some "Eukaryota;Metazoa_sp.2;") = ["Eukaryota"; "Metazoa"].
Proof.
  split_and!.
  - apply parse_semicolon_taxonomy_eq.
  - by intros raw1 raw2 ->.
  - apply parse_tokens.
  - intros s Hs. rewrite parse_semicolon_taxonomy_eq. by apply normalize_same.
  - vm_compute. reflexivity.
Qed.

(** C7, as stated, fails: a token holding two tabs and no two consecutive
    spaces keeps its whitespace run. *)
Lemma whitespace_run_not_collapsed :
  parse_semicolon_taxonomy (Some two_tabs) = [two_tabs]
  ∧ normalize_claimed (Some two_tabs) = ["Aa Bb"]
  ∧ parse_semicolon_taxonomy (Some two_tabs) ≠ normalize_claimed (Some two_tabs).
Proof. split_and!; vm_compute; [reflexivity|reflexivity|discriminate]. Qed.

Section FastPathStrings.

Lemma cleaned_verbatim_decompose v :
  ∃ w0 w1 s1 w2,
    v = w0 +:+ cleaned_verbatim v +:+ w1 +:+ s1 +:+ w2
    ∧ all_chars PyStr.isspace w0 = true
    ∧ all_chars PyStr.isspace w1 = true
    ∧ all_chars (Ascii.eqb ";") s1 = true
    ∧ all_chars PyStr.isspace w2 = true.
Proof.
  unfold cleaned_verbatim, PyStr.strip, PyStr.rstrip_char.
  destruct (lstrip_by_decompose PyStr.isspace v) as (w0 & Hv & H0).
  set (V1 := PyStr.lstrip_by PyStr.isspace v) in *.
  destruct (rstrip_by_decompose PyStr.isspace V1) as (w2 & HV1 & H2).
  set (X := PyStr.rstrip_by PyStr.isspace V1) in *.
  destruct (rstrip_by_decompose (Ascii.eqb ";") X) as (s1 & HX & Hs1).
  set (Y := PyStr.rstrip_by (Ascii.eqb ";") X) in *.
  destruct (lstrip_by_decompose PyStr.isspace Y) as (w' & HY & H').
  set (Y1 := PyStr.lstrip_by PyStr.isspace Y) in *.
  destruct (rstrip_by_decompose PyStr.isspace Y1) as (w1 & HY1 & H1).
  set (c := PyStr.rstrip_by PyStr.isspace Y1) in *.
  assert (w' = "") as ->.
  { destruct w' as [|x w'']; [done|]. exfalso.
    simpl in H'. apply andb_true_iff in H' as [Hx _].
    assert (V1 = String x (((w'' +:+ Y1) +:+ s1) +:+ w2)) as HV.
    { rewrite HV1, HX, HY. by rewrite !append_cons. }
    apply (lstrip_by_head PyStr.isspace v) in HV. congruence. }
  rewrite append_nil_l in HY.
  exists w0, w1, s1, w2. split_and!; [|done..].
  rewrite Hv at 1. rewrite HV1, HX, HY, HY1. by rewrite !append_assoc.
Qed.

Lemma split_nosep sep p :
  all_chars (λ ch, negb (Ascii.eqb ch sep)) p = true → PyStr.split sep p = [p].
Proof.
  induction p as [|c r IH]; [done|]. simpl.
  intros [Hc Hr]%andb_true_iff. apply negb_true_iff in Hc.
  by rewrite Hc, IH.
Qed.

Lemma split_first sep p r :
  all_chars (λ ch, negb (Ascii.eqb ch sep)) p = true →
  PyStr.split sep (p +:+ String sep r) = p :: PyStr.split sep r.
Proof.
  induction p as [|c p' IH].
  - intros _. rewrite append_nil_l. simpl. by rewrite Ascii.eqb_refl.
  - rewrite append_cons. simpl.
    intros [Hc Hr]%andb_true_iff. apply negb_true_iff in Hc.
    by rewrite Hc, IH.
Qed.

Lemma map_chars_fixed f s :
  all_chars (λ ch, Ascii.eqb (f ch) ch) s = true → map_chars f s = s.
Proof.
  induction s as [|c r IH]; [done|]. simpl.
  intros [Hc Hr]%andb_true_iff. apply Ascii.eqb_eq in Hc.
  by rewrite Hc, IH.
Qed.

Lemma isspace_fixed ch :
  PyStr.isspace ch = true → Ascii.eqb (separator_to_space ch) ch = true.
Proof. destruct ch as [[] [] [] [] [] [] [] []]; done. Qed.

Lemma isspace_not_semicolon ch :
  PyStr.isspace ch = true → negb (Ascii.eqb ch ";") = true.
Proof. destruct ch as [[] [] [] [] [] [] [] []]; done. Qed.

Lemma semicolon_fixed ch :
  Ascii.eqb ";" ch = true → Ascii.eqb (separator_to_space ch) ch = true.
Proof. intros <-%Ascii.eqb_eq. done. Qed.

Lemma plain_char_spec ch :
  plain_char ch = true →
  negb (PyStr.isspace ch) = true ∧ negb (Ascii.eqb ch ";") = true
  ∧ Ascii.eqb (separator_to_space ch) ch = true
  ∧ negb (PyStr.isdigit ch) = true ∧ negb (Ascii.eqb ch " ") = true.
Proof. destruct ch as [[] [] [] [] [] [] [] []]; done. Qed.

Lemma lower_letter_plain ch :
  lower_letter (PyStr.lower_char ch) = true → plain_char ch = true.
Proof. destruct ch as [[] [] [] [] [] [] [] []]; done. Qed.

Lemma lower_plain s :
  all_chars lower_letter (PyStr.lower s) = true → all_chars plain_char s = true.
Proof.
  induction s as [|c r IH]; [done|]. simpl.
  intros [Hc Hr]%andb_true_iff. by rewrite (lower_letter_plain c Hc), IH.
Qed.

Lemma lower_length s : String.length (PyStr.lower s) = String.length s.
Proof. induction s as [|c r IH]; [done|]. simpl. by rewrite IH. Qed.

Lemma split_blank_tail s1 w2 :
  all_chars (Ascii.eqb ";") s1 = true → all_chars PyStr.isspace w2 = true →
  Forall (λ q, all_chars PyStr.isspace q = true) (PyStr.split ";" (s1 +:+ w2)).
Proof.
  intros Hs H2. induction s1 as [|x s1 IH].
  - rewrite append_nil_l, split_nosep; [by constructor|].
    eapply all_chars_impl; [|exact H2]. apply isspace_not_semicolon.
  - cbn [all_chars] in Hs. apply andb_true_iff in Hs as [Hx Hs].
    apply Ascii.eqb_eq in Hx as <-.
    rewrite append_cons. cbn [PyStr.split]. rewrite Ascii.eqb_refl.
    constructor; [done|]. by apply IH.
Qed.

(** The split of a padded lineage: the first piece holds the lineage,
    the others are blank. *)
Lemma split_padded w0 c w1 s1 w2 :
  all_chars PyStr.isspace w0 = true → all_chars PyStr.isspace w1 = true →
  all_chars (Ascii.eqb ";") s1 = true → all_chars PyStr.isspace w2 = true →
  all_chars plain_char c = true →
  ∃ p rest,
    PyStr.split ";" (map_chars separator_to_space (w0 +:+ c +:+ w1 +:+ s1 +:+ w2))
    = p :: rest
    ∧ PyStr.strip p = c
    ∧ Forall (λ q, all_chars PyStr.isspace q = true) rest.
Proof.
  intros H0 H1 Hs H2 Hc.
  assert (all_chars (λ ch, negb (PyStr.isspace ch)) c = true) as Hcw.
  { eapply all_chars_impl; [|exact Hc]. intros ch Hp. apply plain_char_spec in Hp. tauto. }
  rewrite map_chars_fixed.
  2:{ rewrite !all_chars_app. repeat (apply andb_true_iff; split).
      - eapply all_chars_impl; [|exact H0]. apply isspace_fixed.
      - eapply all_chars_impl; [|exact Hc]. intros ch Hp. apply plain_char_spec in Hp. tauto.
      - eapply all_chars_impl; [|exact H1]. apply isspace_fixed.
      - eapply all_chars_impl; [|exact Hs]. apply semicolon_fixed.
      - eapply all_chars_impl; [|exact H2]. apply isspace_fixed. }
  assert (∀ w, all_chars PyStr.isspace w = true →
               all_chars (λ ch, negb (Ascii.eqb ch ";")) (w0 +:+ c +:+ w) = true)
    as Hnosep.
  { intros w Hw. rewrite !all_chars_app. repeat (apply andb_true_iff; split).
    - eapply all_chars_impl; [|exact H0]. apply isspace_not_semicolon.
    - eapply all_chars_impl; [|exact Hc]. intros ch Hp. apply plain_char_spec in Hp. tauto.
    - eapply all_chars_impl; [|exact Hw]. apply isspace_not_semicolon. }
  destruct s1 as [|x s1'].
  - rewrite append_nil_l. exists (w0 +:+ c +:+ w1 +:+ w2), [].
    assert (all_chars PyStr.isspace (w1 +:+ w2) = true) as H12
        by by rewrite all_chars_app, H1, H2.
    split_and!; [|by apply strip_padded|constructor].
    apply split_nosep. by apply Hnosep.
  - cbn [all_chars] in Hs. apply andb_true_iff in Hs as [Hx Hs].
    apply Ascii.eqb_eq in Hx as <-.
    exists (w0 +:+ c +:+ w1), (PyStr.split ";" (s1' +:+ w2)).
    split_and!; [|by apply strip_padded|by apply split_blank_tail].
    rewrite append_cons.
    replace (w0 +:+ c +:+ w1 +:+ String ";" (s1' +:+ w2))
      with ((w0 +:+ c +:+ w1) +:+ String ";" (s1' +:+ w2))
      by by rewrite !append_assoc.
    apply split_first. by apply Hnosep.
Qed.

End FastPathStrings.

Section CleanPlain.

Lemma prefix_absent a o c r :
  Ascii.eqb c a = false → String.prefix (String a o) (String c r) = false.
Proof.
  intros Hc. simpl. destruct (ascii_dec a c) as [->|_]; [|done].
  by rewrite Ascii.eqb_refl in Hc.
Qed.

Lemma replace_absent a o new s :
  all_chars (λ ch, negb (Ascii.eqb ch a)) s = true →
  PyStr.replace (String a o) new s = s.
Proof.
  unfold PyStr.replace. induction s as [|c r IH]; [done|].
  cbn [all_chars]. intros [Hc Hr]%andb_true_iff. apply negb_true_iff in Hc.
  rewrite replace_go_unfold, prefix_absent by done. by rewrite IH.
Qed.

Lemma contains_absent a o s :
  all_chars (λ ch, negb (Ascii.eqb ch a)) s = true →
  PyStr.contains (String a o) s = false.
Proof.
  induction s as [|c r IH]; [done|].
  cbn [all_chars]. intros [Hc Hr]%andb_true_iff. apply negb_true_iff in Hc.
  cbn [PyStr.contains]. rewrite prefix_absent by done. by apply IH.
Qed.

Lemma any_none p s :
  all_chars (λ ch, negb (p ch)) s = true → PyStr.any p s = false.
Proof.
  induction s as [|c r IH]; [done|]. simpl.
  intros [Hc Hr]%andb_true_iff. apply negb_true_iff in Hc. by rewrite Hc, IH.
Qed.

Lemma clean_name_plain p c :
  PyStr.strip p = c → all_chars plain_char c = true →
  PyStr.lower c ≠ "unassigned" → (1 < String.length c)%nat →
  clean_name p = Some c.
Proof.
  intros Hp Hc Hl Hlen. unfold clean_name. rewrite Hp.
  assert (all_chars (λ ch, negb (Ascii.eqb ch " ")) c = true) as Hsp.
  { eapply all_chars_impl; [|exact Hc]. intros ch H.
    apply plain_char_spec in H. tauto. }
  assert (all_chars (λ ch, negb (PyStr.isspace ch)) c = true) as Hws.
  { eapply all_chars_impl; [|exact Hc]. intros ch H.
    apply plain_char_spec in H. tauto. }
  assert (all_chars (λ ch, negb (PyStr.isdigit ch)) c = true) as Hd.
  { eapply all_chars_impl; [|exact Hc]. intros ch H.
    apply plain_char_spec in H. tauto. }
  assert (PyStr.nonempty c = true) as -> by (destruct c; [simpl in Hlen; lia|done]).
  assert ((PyStr.lower c =? "unassigned")%string = false) as ->
      by by apply String.eqb_neq.
  cbn [negb orb].
  rewrite (replace_absent " " "sp." "" c Hsp).
  rewrite (replace_absent " " "spp." "" c Hsp).
  rewrite (any_none _ _ Hd).
  rewrite (contains_absent " " " " c Hsp).
  assert (PyStr.strip c = c) as ->.
  { rewrite <- (append_nil_r c) at 1. by apply (strip_padded "" c ""). }
  assert (PyStr.nonempty c = true) as -> by (destruct c; [simpl in Hlen; lia|done]).
  by rewrite (proj2 (Nat.ltb_lt _ _) Hlen).
Qed.

Lemma clean_name_blank q :
  all_chars PyStr.isspace q = true → clean_name q = None.
Proof.
  intros Hq. unfold clean_name.
  assert (PyStr.strip q = "") as ->; [|done].
  unfold PyStr.strip. by rewrite lstrip_by_all.
Qed.

Lemma clean_name_plain_cases p c :
  PyStr.strip p = c → all_chars plain_char c = true →
  clean_name p = None ∨ clean_name p = Some c.
Proof.
  intros Hp Hc.
  destruct (decide (PyStr.lower c = "unassigned")) as [Hl|Hl].
  { left. unfold clean_name. rewrite Hp, Hl. by rewrite orb_true_r. }
  destruct (decide (1 < String.length c)%nat) as [Hlen|Hlen].
  { right. by apply clean_name_plain. }
  left. destruct c as [|ch [|ch' r]]; [| |simpl in Hlen; lia].
  - unfold clean_name. by rewrite Hp.
  - unfold clean_name. rewrite Hp. cbn [PyStr.nonempty negb orb].
    destruct (_ =? _)%string; [done|].
    cbn [all_chars] in Hc. apply andb_true_iff in Hc as [Hc _].
    apply plain_char_spec in Hc as (Hws & _ & _ & Hd & Hsp).
    apply negb_true_iff in Hws, Hd, Hsp.
    rewrite (replace_absent " " "sp." "" (String ch "")) by (simpl; by rewrite Hsp).
    rewrite (replace_absent " " "spp." "" (String ch "")) by (simpl; by rewrite Hsp).
    cbn [PyStr.any]. rewrite Hd. cbn [orb].
    rewrite (contains_absent " " " " (String ch "")) by (simpl; by rewrite Hsp).
    unfold PyStr.strip. simpl. rewrite Hws. simpl. by rewrite Hws.
Qed.

(** A lineage whose cleaned form holds plain characters only has no
    term, or that cleaned form as its only term. *)
Lemma plain_lineage_parse v :
  all_chars plain_char (cleaned_verbatim v) = true →
  parse_semicolon_taxonomy (Some v) = []
  ∨ (parse_semicolon_taxonomy (Some v) = [cleaned_verbatim v]
     ∧ PyStr.lower (cleaned_verbatim v) ≠ "unassigned"
     ∧ (1 < String.length (cleaned_verbatim v))%nat).
Proof.
  intros Hplain.
  destruct (cleaned_verbatim_decompose v) as (w0 & w1 & s1 & w2 & Hv & H0 & H1 & Hs1 & H2).
  destruct (split_padded w0 (cleaned_verbatim v) w1 s1 w2 H0 H1 Hs1 H2 Hplain)
    as (p & rest & Hsplit & Hp & Hrest).
  rewrite <- Hv in Hsplit.
  rewrite parse_semicolon_taxonomy_eq. unfold normalize, normalize_with.
  case_bool_decide; [by left|].
  rewrite Hsplit. cbn [omap list_omap].
  assert (omap (normalize_token collapse_if_double_space) rest = []) as ->.
  { clear -Hrest. induction Hrest as [|q rest Hq _ IH]; [done|].
    cbn [omap list_omap]. by rewrite <- clean_name_eq, clean_name_blank, IH. }
  rewrite <- clean_name_eq.
  destruct (decide (PyStr.lower (cleaned_verbatim v) = "unassigned")) as [Hl|Hl].
  { left. unfold clean_name. rewrite Hp, Hl. by rewrite orb_true_r. }
  destruct (decide (1 < String.length (cleaned_verbatim v))%nat) as [Hlen|Hlen].
  { right. by rewrite (clean_name_plain p _ Hp Hplain Hl Hlen). }
  left. destruct (clean_name_plain_cases p _ Hp Hplain) as [->|Hc]; [done|].
  exfalso. clear -Hc Hlen Hp. unfold clean_name in Hc. rewrite Hp in Hc.
  destruct (_ || _); [done|].
  revert Hc. set (t := PyStr.strip _). intros Hc.
  destruct (PyStr.nonempty t && (1 <? String.length t)%nat) eqn:E; [|done].
  injection Hc as Hc. apply andb_true_iff in E as [_ E].
  apply Nat.ltb_lt in E. rewrite Hc in E. lia.
Qed.

Lemma simple_case_plain v :
  is_simple_case v = true → all_chars plain_char (cleaned_verbatim v) = true.
Proof.
  intros Hs%is_simple_case_eq. apply lower_plain. by rewrite Hs.
Qed.

Lemma unassigned_case_plain v :
  is_unassigned_case v = true → all_chars plain_char (cleaned_verbatim v) = true.
Proof.
  unfold is_unassigned_case. intros [Hs|Hs]%orb_true_iff.
  - by destruct (cleaned_verbatim v).
  - apply bool_decide_eq_true in Hs. apply lower_plain.
    apply list_elem_of_In in Hs. simpl in Hs.
    destruct Hs as [<-|[<-|[<-|[<-|[]]]]]; reflexivity.
Qed.

(** A key of the simple case has its cleaned lineage as only term. *)
Lemma simple_case_parse v :
  is_simple_case v = true →
  parse_semicolon_taxonomy (Some v) = [cleaned_verbatim v].
Proof.
  intros Hs.
  destruct (plain_lineage_parse v (simple_case_plain v Hs)) as [Hp|(Hp & _)];
    [|done].
  exfalso.
  destruct (cleaned_verbatim_decompose v) as (w0 & w1 & s1 & w2 & Hv & H0 & H1 & Hs1 & H2).
  destruct (split_padded w0 (cleaned_verbatim v) w1 s1 w2 H0 H1 Hs1 H2
              (simple_case_plain v Hs)) as (p & rest & Hsplit & Hpp & _).
  rewrite <- Hv in Hsplit.
  apply is_simple_case_eq in Hs.
  rewrite parse_semicolon_taxonomy_eq in Hp. unfold normalize, normalize_with in Hp.
  rewrite bool_decide_eq_false_2 in Hp.
  2:{ intros E. unfold cleaned_verbatim in Hs. by rewrite E in Hs. }
  rewrite Hsplit in Hp. cbn [omap list_omap] in Hp.
  rewrite <- clean_name_eq in Hp.
  rewrite (clean_name_plain p (cleaned_verbatim v)) in Hp; [done|done| | |].
  - apply lower_plain. by rewrite Hs.
  - by rewrite Hs.
  - rewrite <- lower_length, Hs. simpl. lia.
Qed.

(** A key the fast path handles has at most one term. *)
Lemma fast_case_parse v :
  is_unassigned_case v = true ∨ is_simple_case v = true →
  parse_semicolon_taxonomy (Some v) = []
  ∨ parse_semicolon_taxonomy (Some v) = [cleaned_verbatim v].
Proof.
  intros [H|H].
  - destruct (plain_lineage_parse v (unassigned_case_plain v H)) as [?|(? & _)]; eauto.
  - right. by apply simple_case_parse.
Qed.

End CleanPlain.

Section NoTerms.

Variable env : Env.
Variable params_dict : Params.

Lemma terms_for_matching_nil t :
  parse_semicolon_taxonomy (Some t.1) = [] → terms_for_matching params_dict t = [].
Proof.
  intros Hp. unfold terms_for_matching. rewrite Hp.
  by destruct (_ && _).
Qed.

Lemma prematch_id_no_terms t :
  parse_semicolon_taxonomy (Some t.1) = [] → prematch_id params_dict t = None.
Proof.
  intros Hp. unfold prematch_id. rewrite Hp. by case_bool_decide.
Qed.

Lemma stage1_record_no_terms t :
  parse_semicolon_taxonomy (Some t.1) = [] → stage1_record env params_dict t = None.
Proof.
  intros Hp. unfold stage1_record. rewrite prematch_id_no_terms by done.
  by case_bool_decide.
Qed.

End NoTerms.

(** C10 (a key without terms).  Take a key of the run that is not one of
    the truly-empty cases of the fast path and whose normalized term
    sequence is empty.  The fast path leaves it; Stage 1 does not test the
    local dictionary for it and puts it in no identifier group; it is
    handed to Stage 2, whose loop passes it over without a scan and leaves
    it unmatched; and it ends with the [Failed_All_Stages_NoMatch] incertae
    sedis record, whose [cleanedTaxonomy] is the raw
    [verbatimIdentification] string. *)
Theorem key_without_terms env params_dict df v a :
  (v, a) ∈ unique_tuples df →
  is_unassigned_case v = false →
  parse_semicolon_taxonomy (Some v) = [] →
  (v, a) ∈ keys_after_fast_path params_dict df
  ∧ ((v, a) ∉ dictionary_lookups env params_dict df)
  ∧ (∀ id, (v, a) ∉ group_get id (identifier_groups env params_dict df))
  ∧ (v, a) ∈ keys_for_batch env params_dict df
  ∧ (∀ batch_lookup st,
       batch_match_step params_dict batch_lookup st (v, a) = (st.1, st.2 ++ [(v, a)]))
  ∧ (v, a) ∈ (stage2_of env params_dict df).2
  ∧ final_cache env params_dict df !! Combo (v, a)
    = Some (incertae_sedis params_dict "Failed_All_Stages_NoMatch" v)
  ∧ incertae_sedis params_dict "Failed_All_Stages_NoMatch" v !! "cleanedTaxonomy"
    = Some (Some v)
  ∧ incertae_sedis params_dict "Failed_All_Stages_NoMatch" v !! "match_type_debug"
    = Some (Some "Failed_All_Stages_NoMatch")
  ∧ incertae_sedis params_dict "Failed_All_Stages_NoMatch" v !! "scientificName"
    = Some (Some "incertae sedis").
Proof.
  intros Hkey Hun Hp.
  assert (is_simple_case v = false) as Hsimple.
  { destruct (is_simple_case v) eqn:Hs; [|done].
    apply simple_case_parse in Hs. congruence. }
  assert (fast_record params_dict (v, a) = None) as Hfast.
  { unfold fast_record. cbn [fst]. by rewrite Hun, Hsimple. }
  assert ((v, a) ∈ keys_after_fast_path params_dict df) as Hleft
      by by apply elem_of_keys_after_fast_path.
  assert (stage1_record env params_dict (v, a) = None) as H1
      by by apply stage1_record_no_terms.
  assert ((v, a) ∈ keys_for_batch env params_dict df) as Hbatch.
  { unfold keys_for_batch, stage1_of. by apply elem_of_stage1_unmatched. }
  assert (∀ lk, stage2_record params_dict lk (v, a) = None) as H2.
  { intros lk. by apply stage2_record_no_terms. }
  split_and!.
  - done.
  - unfold dictionary_lookups, stage1_of. rewrite stage1_lookups.
    case_bool_decide; [|by intros ?%elem_of_nil].
    rewrite list_elem_of_filter. unfold looks_up. cbn [fst snd]. rewrite Hp.
    rewrite (bool_decide_eq_false_2 ([] ≠ [])) by (intros H'; by apply H').
    rewrite andb_false_r. by intros [? _].
  - intros id Hin. unfold identifier_groups, stage1_of in Hin.
    apply stage1_groups in Hin as (_ & _ & Hid).
    by rewrite prematch_id_no_terms in Hid.
  - done.
  - intros lk st. unfold batch_match_step. by rewrite Hp.
  - unfold stage2_of. apply elem_of_stage2_unmatched. split; [done|]. apply H2.
  - rewrite final_cache_lookup by done. f_equal.
    unfold resolve. rewrite Hfast, H1, H2. simpl.
    unfold no_match_record. by rewrite terms_for_matching_nil.
  - apply incertae_sedis_cleaned.
  - apply incertae_sedis_debug.
  - apply incertae_sedis_name.
Qed.

Lemma fast_record_cleaned params_dict t r :
  fast_record params_dict t = Some r →
  r !! "cleanedTaxonomy" = Some (Some (cleaned_verbatim t.1))
  ∧ (is_unassigned_case t.1 = true ∨ is_simple_case t.1 = true).
Proof.
  unfold fast_record.
  destruct (is_unassigned_case t.1); [|destruct (is_simple_case t.1); [|done]];
    intros [= <-]; (split; [apply incertae_sedis_cleaned|eauto]).
Qed.

(** C4 (depth-truncation policy), as the code has it.  Take a key of the
    run whose assay skips species.  If its lineage has at least as many
    terms as the [max_depth] of the assay and at least two terms, the key is
    handed to the Batch Matcher, the scan uses the terms without the last
    one, and the key's [cleanedTaxonomy] is the join of those remaining
    terms.  If the lineage is full length with one term only and the fast
    path leaves the key, nothing is left once the term is dropped: the key
    is unmatched and its record is the [Failed_All_Stages_NoMatch] record
    whose [cleanedTaxonomy] is the raw string, not the empty join.  If the
    lineage has fewer terms than [max_depth] (and at least one), the scan
    uses all its terms and [cleanedTaxonomy] is their join. *)
Theorem depth_truncation_policy env params_dict df v a :
  (v, a) ∈ unique_tuples df →
  a ∈ assays_to_skip_species params_dict →
  ∃ record,
    final_cache env params_dict df !! Combo (v, a) = Some record
    ∧ (max_depth_for_assay params_dict a
       ≤ Z.of_nat (length (parse_semicolon_taxonomy (Some v))) →
       (2 ≤ length (parse_semicolon_taxonomy (Some v)))%nat →
       (v, a) ∈ keys_for_batch env params_dict df
       ∧ (∀ batch_lookup st,
            batch_match_step params_dict batch_lookup st (v, a)
            = scan_terms params_dict batch_lookup st (v, a)
                (drop_last (parse_semicolon_taxonomy (Some v))))
       ∧ record !! "cleanedTaxonomy"
         = Some (Some (PyStr.join ";" (drop_last (parse_semicolon_taxonomy (Some v))))))
    ∧ (max_depth_for_assay params_dict a
       ≤ Z.of_nat (length (parse_semicolon_taxonomy (Some v))) →
       length (parse_semicolon_taxonomy (Some v)) = 1%nat →
       (v, a) ∈ keys_after_fast_path params_dict df →
       (∀ batch_lookup st,
          batch_match_step params_dict batch_lookup st (v, a) = (st.1, st.2 ++ [(v, a)]))
       ∧ record = incertae_sedis params_dict "Failed_All_Stages_NoMatch" v
       ∧ record !! "cleanedTaxonomy" = Some (Some v))
    ∧ (Z.of_nat (length (parse_semicolon_taxonomy (Some v)))
       < max_depth_for_assay params_dict a →
       parse_semicolon_taxonomy (Some v) ≠ [] →
       (∀ batch_lookup st,
          batch_match_step params_dict batch_lookup st (v, a)
          = scan_terms params_dict batch_lookup st (v, a)
              (parse_semicolon_taxonomy (Some v)))
       ∧ record !! "cleanedTaxonomy"
         = Some (Some (PyStr.join ";" (parse_semicolon_taxonomy (Some v))))).
Proof.
  intros Hkey Ha.
  destruct (fast_record params_dict (v, a)) as [r0|] eqn:Hfast.
  - exists r0. split.
    { rewrite final_cache_lookup by done. f_equal. by apply resolve_fast. }
    destruct (fast_record_cleaned _ _ _ Hfast) as [Hcl Hcase]. cbn [fst] in *.
    assert ((v, a) ∉ keys_after_fast_path params_dict df) as Hnot.
    { rewrite elem_of_keys_after_fast_path, Hfast. by intros [_ ?]. }
    destruct (fast_case_parse v Hcase) as [Hp|Hp]; rewrite Hp.
    + split_and!; intros; simpl in *; [lia|done|done].
    + split_and!.
      * intros _ Hlen. simpl in Hlen. lia.
      * intros _ _ Hin. done.
      * intros Hlt _. split; [|done].
        intros lk st. unfold batch_match_step. rewrite Hp.
        unfold is_full_length_taxonomy.
        rewrite (bool_decide_eq_false_2
                   (max_depth_for_assay params_dict a
                    ≤ Z.of_nat (length [cleaned_verbatim v]))) by lia.
        by rewrite andb_false_r.
  - assert ((v, a) ∈ keys_after_fast_path params_dict df) as Hleft
        by by apply elem_of_keys_after_fast_path.
    destruct (depth_truncation_left_keys env params_dict df v a Hleft Ha)
      as (Hb & record & Hrec & Hfull2 & Hfull1 & Hbelow).
    exists record. split; [done|]. split_and!.
    + intros Hf Hl. destruct (Hfull2 Hf Hl). done.
    + intros Hf Hl _. destruct (Hfull1 Hf Hl) as [Hstep ->].
      split_and!; [done|done|apply incertae_sedis_cleaned].
    + done.
Qed.

(** ** The claims on the sample runs *)

Lemma sample_service_names : service_names_accepted sample_service.
Proof.
  split.
  - intros id record H Hacc. simpl in H.
    destruct (id =? 2); [|discriminate]. injection H as <-.
    eexists. vm_compute. reflexivity.
  - intros names raw name_list m H Hnl Hm Hacc. simpl in H. injection H as <-.
    apply list_elem_of_fmap in Hnl as (name & -> & _).
    destruct (String.eqb name "Metazoa").
    + apply elem_of_cons in Hm as [Hm|Hm]; [discriminate|].
      apply list_elem_of_singleton in Hm. injection Hm as ->.
      eexists. vm_compute. reflexivity.
    + by apply elem_of_nil in Hm.
Defined.

Lemma truly_empty_detection_witness :
  sample_table !! 2%nat = Some (sample_row (Some "unassigned;") "16S")
  ∧ ∃ out r',
      get_worms_match_for_dataframe sample_service sample_params sample_table
      = Returns out
      ∧ out !! 2%nat = Some r'
      ∧ columns r' !! "scientificName" = Some (Some "incertae sedis")
      ∧ columns r' !! "match_type_debug" = Some (Some "incertae_sedis_unassigned").
Proof.
  split; [reflexivity|].
  destruct (truly_empty_detection sample_service sample_params sample_table 2
              (sample_row (Some "unassigned;") "16S") "unassigned;" eq_refl eq_refl)
    as (out & r' & Hrun & Hout & _ & Hsemi).
  destruct (Hsemi eq_refl) as (_ & Hname & Hlabel).
  exists out, r'. split_and!; [exact Hrun|exact Hout|exact Hname|exact Hlabel].
Defined.

(** C3, as stated, fails: the two rows ("Bacteria", "16S") share a key for
    which the local dictionary, though it holds "Bacteria", is never
    tested, the assay being one that skips species. *)
Lemma no_dictionary_lookup_for_skipped_assay :
  sample_table !! 5%nat = Some (sample_row (Some "Bacteria") "16S")
  ∧ pr2_dict sample_params !! "Bacteria" = Some 6
  ∧ length (filter (λ t, t = ("Bacteria", "16S"))
              (dictionary_lookups sample_service sample_params sample_table))
    = 0%nat
  ∧ dictionary_lookups sample_service plain_params sample_table = [].
Proof. split_and!; vm_compute; reflexivity. Qed.

(** C4, as stated, fails: with [max_depth] 1 for the skipping assay 16S,
    the lineage "Bacteria" is full length, its last term is dropped, and
    its [cleanedTaxonomy] is the raw string, not the join of the remaining
    terms, which is empty. *)
Lemma single_term_lineage_keeps_raw_string :
  "16S" ∈ assays_to_skip_species sample_params_depth1
  ∧ max_depth_for_assay sample_params_depth1 "16S"
    = Z.of_nat (length (parse_semicolon_taxonomy (Some "Bacteria")))
  ∧ PyStr.join ";" (drop_last (parse_semicolon_taxonomy (Some "Bacteria"))) = ""
  ∧ final_cache sample_service sample_params_depth1 sample_table
      !! Combo ("Bacteria", "16S")
    ≫= (.!! "cleanedTaxonomy")
    = Some (Some "Bacteria").
Proof.
  split_and!; [|vm_compute; reflexivity..].
  apply (bool_decide_unpack _). vm_compute. exact I.
Qed.

Lemma deduplication_and_cache_consistency_witness :
  sample_table !! 3%nat = Some (sample_row (Some "Eukaryota;Metazoa;Xx") "16S")
  ∧ sample_table !! 6%nat = Some (sample_row (Some "Eukaryota;Metazoa;Xx") "16S")
  ∧ ∃ out r1' r2' record,
      get_worms_match_for_dataframe sample_service sample_params sample_table
      = Returns out
      ∧ out !! 3%nat = Some r1' ∧ out !! 6%nat = Some r2'
      ∧ final_cache sample_service sample_params sample_table
          !! Combo ("Eukaryota;Metazoa;Xx", "16S") = Some record
      ∧ ∀ col, col ≠ "_map_key" → is_Some (record !! col) →
               columns r1' !! col = record !! col
               ∧ columns r2' !! col = record !! col.
Proof.
  split; [reflexivity|]. split; [reflexivity|].
  destruct (deduplication_and_cache_consistency sample_service sample_params sample_table)
    as (_ & _ & _ & _ & _ & _ & _ & _ & _ & Hrows).
  destruct (Hrows 3%nat 6%nat _ _ eq_refl eq_refl eq_refl eq_refl)
    as (out & r1' & r2' & record & Hrun & H1 & H2 & Hrec & _ & Hcols).
  exists out, r1', r2', record. split_and!; [exact Hrun|exact H1|exact H2|exact Hrec|exact Hcols].
Defined.

Lemma depth_truncation_policy_witness :
  ("Eukaryota;Metazoa;Xx", "16S") ∈ unique_tuples sample_table
  ∧ "16S" ∈ assays_to_skip_species sample_params
  ∧ (max_depth_for_assay sample_params "16S"
     ≤ Z.of_nat (length (parse_semicolon_taxonomy (Some "Eukaryota;Metazoa;Xx"))))
  ∧ ∃ record,
      final_cache sample_service sample_params sample_table
        !! Combo ("Eukaryota;Metazoa;Xx", "16S") = Some record
      ∧ record !! "cleanedTaxonomy" = Some (Some "Eukaryota;Metazoa").
Proof.
  assert (Hkey : ("Eukaryota;Metazoa;Xx", "16S") ∈ unique_tuples sample_table).
  { apply (bool_decide_unpack _). vm_compute. exact I. }
  assert (Hskip : "16S" ∈ assays_to_skip_species sample_params).
  { apply (bool_decide_unpack _). vm_compute. exact I. }
  assert (Hfull : max_depth_for_assay sample_params "16S"
                  ≤ Z.of_nat (length (parse_semicolon_taxonomy
                                        (Some "Eukaryota;Metazoa;Xx")))).
  { apply Z.leb_le. vm_compute. reflexivity. }
  assert (Hlen : (2 ≤ length (parse_semicolon_taxonomy (Some "Eukaryota;Metazoa;Xx")))%nat).
  { apply Nat.leb_le. vm_compute. reflexivity. }
  split_and!; [exact Hkey|exact Hskip|exact Hfull|].
  destruct (depth_truncation_policy sample_service sample_params sample_table
              "Eukaryota;Metazoa;Xx" "16S" Hkey Hskip)
    as (record & Hrec & Hfull2 & _).
  destruct (Hfull2 Hfull Hlen) as (_ & _ & Hcleaned).
  exists record. split; [exact Hrec|exact Hcleaned].
Defined.

Lemma reverse_specificity_match_order_witness :
  first_in_lookup ({[ "B" := metazoa_record ]} : gmap string pydict)
                  (reverse ["A"; "B"; "C"])
  = Some ("B", metazoa_record)
  ∧ scan_terms sample_params {[ "B" := metazoa_record ]} (∅, [])
               ("A;B;C", "18S") ["A"; "B"; "C"]
    = (<[ Combo ("A;B;C", "18S")
          := batch_success sample_params metazoa_record "B" "A;B;C" ]> ∅, [])
  ∧ batch_success sample_params metazoa_record "B" "A;B;C" !! "match_type_debug"
    = Some (Some "Success_Batch_B").
Proof.
  assert (Hfound : first_in_lookup ({[ "B" := metazoa_record ]} : gmap string pydict)
                     (reverse ["A"; "B"; "C"])
                   = Some ("B", metazoa_record)).
  { vm_compute. reflexivity. }
  split; [exact Hfound|].
  destruct (reverse_specificity_match_order sample_service sample_params) as (Hscan & _).
  destruct (Hscan {[ "B" := metazoa_record ]} (∅, []) ("A;B;C", "18S")
              ["A"; "B"; "C"] "B" metazoa_record Hfound) as (_ & Hstore & Hlabel).
  split; [exact Hstore|exact Hlabel].
Defined.

Lemma normalizer_behaviour_witness :
  Some "Bacteria;Proteobacteria_sp.1" = Some "Bacteria;Proteobacteria_sp.1"
  ∧ all_chars space_or_visible "Homo  sapiens; Pan" = true
  ∧ parse_semicolon_taxonomy (Some "Bacteria;Proteobacteria_sp.1")
    = parse_semicolon_taxonomy (Some "Bacteria;Proteobacteria_sp.1")
  ∧ parse_semicolon_taxonomy (Some "Bacteria;Proteobacteria_sp.1")
    = normalize (Some "Bacteria;Proteobacteria_sp.1")
  ∧ parse_semicolon_taxonomy (Some "Homo  sapiens; Pan")
    = normalize_claimed (Some "Homo  sapiens; Pan").
Proof.
  destruct normalizer_behaviour as (Hspec & Hfun & _ & Hsame & _).
  split; [reflexivity|]. split; [reflexivity|]. split_and!.
  - exact (Hfun _ _ eq_refl).
  - exact (Hspec _).
  - exact (Hsame "Homo  sapiens; Pan" eq_refl).
Defined.

Lemma kingdom_only_shortcut_witness :
  ("Eukaryota", "16S") ∈ unique_tuples sample_table
  ∧ PyStr.lower (cleaned_verbatim "Eukaryota") = "eukaryota"
  ∧ final_cache sample_service sample_params sample_table !! Combo ("Eukaryota", "16S")
    = Some (incertae_sedis sample_params
              ("incertae_sedis_simple_case_" +:+ cleaned_verbatim "Eukaryota")
              (cleaned_verbatim "Eukaryota"))
  ∧ ("Bacteria", "16S") ∈ unique_tuples sample_table
  ∧ cleaned_verbatim "Bacteria" = "Bacteria"
  ∧ ("Bacteria", "16S") ∈ keys_after_fast_path sample_params sample_table.
Proof.
  assert (Hkey : ("Eukaryota", "16S") ∈ unique_tuples sample_table).
  { apply (bool_decide_unpack _). vm_compute. exact I. }
  assert (Hkey' : ("Bacteria", "16S") ∈ unique_tuples sample_table).
  { apply (bool_decide_unpack _). vm_compute. exact I. }
  assert (Heuk : PyStr.lower (cleaned_verbatim "Eukaryota") = "eukaryota").
  { vm_compute. reflexivity. }
  assert (Hbac : cleaned_verbatim "Bacteria" = "Bacteria").
  { vm_compute. reflexivity. }
  destruct (kingdom_only_shortcut sample_service sample_params sample_table
              "Eukaryota" "16S" Hkey) as (Hshort & _ & _).
  destruct (Hshort Heuk) as (_ & _ & _ & _ & _ & _ & Hfinal).
  destruct (kingdom_only_shortcut sample_service sample_params sample_table
              "Bacteria" "16S" Hkey') as (_ & _ & Hpass).
  destruct (Hpass Hbac) as (_ & Hleft).
  split_and!; [exact Hkey|exact Heuk|exact Hfinal|exact Hkey'|exact Hbac|exact Hleft].
Defined.

Lemma key_without_terms_witness :
  ("a;b;1", "18S") ∈ unique_tuples sample_table
  ∧ is_unassigned_case "a;b;1" = false
  ∧ parse_semicolon_taxonomy (Some "a;b;1") = []
  ∧ final_cache sample_service sample_params sample_table !! Combo ("a;b;1", "18S")
    = Some (incertae_sedis sample_params "Failed_All_Stages_NoMatch" "a;b;1").
Proof.
  assert (Hkey : ("a;b;1", "18S") ∈ unique_tuples sample_table).
  { apply (bool_decide_unpack _). vm_compute. exact I. }
  assert (Hun : is_unassigned_case "a;b;1" = false).
  { vm_compute. reflexivity. }
  assert (Hp : parse_semicolon_taxonomy (Some "a;b;1") = []).
  { vm_compute. reflexivity. }
  destruct (key_without_terms sample_service sample_params sample_table
              "a;b;1" "18S" Hkey Hun Hp) as (_ & _ & _ & _ & _ & _ & Hfinal & _).
  split_and!; [exact Hkey|exact Hun|exact Hp|exact Hfinal].
Defined.

(** * Further properties *)

(** ** The fields of the records *)

Section Fields.

Variable env : Env.
Variable params_dict : Params.

Lemma incertae_sedis_dom debug cleaned :
  dom (incertae_sedis params_dict debug cleaned) = list_to_set result_fields.
Proof.
  unfold incertae_sedis, result_fields, DWC_RANKS_STD. cbn [foldl app list_to_set].
  rewrite !dom_insert_L, dom_empty_L. set_solver.
Qed.

Lemma batch_success_dom m term cleaned :
  dom (batch_success params_dict (batch_record m) term cleaned)
  = list_to_set result_fields.
Proof.
  unfold batch_success, batch_record, result_fields, DWC_RANKS_STD.
  cbn [foldl app list_to_set].
  rewrite !dom_insert_L, dom_empty_L. set_solver.
Qed.

Lemma id_worker_dom api id :
  is_Some ((get_worms_classification_by_id_worker env api id).2 !! "scientificName") →
  dom (<[ "cleanedTaxonomy" := Some "" ]>
         (get_worms_classification_by_id_worker env api id).2)
  = list_to_set result_fields.
Proof.
  unfold get_worms_classification_by_id_worker.
  destruct (aphiaRecordByAphiaID env id) as [[record|]|]; cbn [snd];
    [|intros [? H]; by simplify_map_eq..].
  destruct (accepted record); cbn [snd]; [|intros [? H]; by simplify_map_eq].
  intros _. unfold result_fields, DWC_RANKS_STD. cbn [foldl app list_to_set].
  rewrite !dom_insert_L, dom_empty_L. set_solver.
Qed.

Lemma first_in_lookup_found (batch_lookup : gmap string pydict) l term found :
  first_in_lookup batch_lookup l = Some (term, found) →
  term ∈ l ∧ batch_lookup !! term = Some found.
Proof.
  induction l as [|a l IH]; [done|]. simpl.
  destruct (batch_lookup !! a) eqn:E.
  - intros [= -> ->]. split; [set_solver|done].
  - intros H. destruct (IH H). split; [set_solver|done].
Qed.

Lemma resolve_dom df t :
  dom (resolve env params_dict (batch_lookup_of env params_dict df) t)
  = list_to_set result_fields.
Proof.
  unfold resolve.
  destruct (fast_record params_dict t) as [r0|] eqn:E0.
  { unfold fast_record in E0.
    destruct (is_unassigned_case t.1); [|destruct (is_simple_case t.1); [|done]];
      injection E0 as <-; apply incertae_sedis_dom. }
  destruct (stage1_record env params_dict t) as [r1|] eqn:E1.
  { unfold stage1_record in E1.
    destruct (bool_decide (pr2_dict params_dict ≠ ∅)); [|done].
    destruct (prematch_id params_dict t) as [id|]; [|done].
    cbn [mbind option_bind] in E1. case_bool_decide as Hn; [|done].
    injection E1 as <-. rewrite dom_insert_L.
    rewrite <- (id_worker_dom _ _ Hn), dom_insert_L. done. }
  destruct (stage2_record params_dict _ t) as [r2|] eqn:E2; cbn [default].
  - unfold stage2_record in E2.
    destruct (terms_for_matching params_dict t) as [|y ys]; [done|].
    destruct (first_in_lookup _ _) as [[term found]|] eqn:Hf; [|done].
    cbn [mbind option_bind] in E2. injection E2 as <-.
    apply first_in_lookup_found in Hf as [_ Hf].
    apply build_batch_lookup_entry in Hf as (? & ? & ? & m & _ & _ & _ & ->).
    apply batch_success_dom.
  - apply incertae_sedis_dom.
Qed.

Lemma final_cache_dom df r record :
  r ∈ df → final_cache env params_dict df !! map_key_of r = Some record →
  dom record = list_to_set result_fields.
Proof.
  intros Hr. destruct (map_key_of_cases r) as [[_ ->]|(v & _ & _ & Hk)].
  - rewrite final_cache_sentinel. intros [= <-]. apply incertae_sedis_dom.
  - rewrite Hk, final_cache_lookup by (by eapply elem_of_unique_tuples).
    intros [= <-]. apply resolve_dom.
Qed.

End Fields.

(** ** The columns of the returned table *)

Lemma results_row_full (cols : gset string) (record : pydict) :
  cols ⊆ dom record → results_row cols record = record.
Proof.
  intros Hsub. unfold results_row. apply map_eq. intros k.
  rewrite lookup_union. destruct (record !! k) as [x|] eqn:E.
  - by destruct (gset_to_gmap None cols !! k).
  - rewrite lookup_gset_to_gmap, option_guard_False; [done|].
    intros Hk. apply Hsub, elem_of_dom in Hk as [? ?]. congruence.
Qed.

Lemma apply_results_columns cache df (fields : gset string) :
  cache ≠ ∅ →
  (∀ r, r ∈ df → ∃ record, cache !! map_key_of r = Some record ∧ dom record = fields) →
  ∃ out, apply_results cache df = Returns out
         ∧ length out = length df
         ∧ ∀ i r, df !! i = Some r →
             ∃ r' record,
               out !! i = Some r'
               ∧ cache !! map_key_of r = Some record
               ∧ verbatimIdentification r' = verbatimIdentification r
               ∧ assay_name r' = assay_name r
               ∧ columns r' = delete "_map_key" (record ∪ columns r).
Proof.
  intros Hne Hall. unfold apply_results.
  rewrite decide_False by done.
  destruct (mapM (λ r, cache !! map_key_of r) df) as [mapped|] eqn:Hm.
  - apply mapM_Some in Hm.
    assert (⋃ (dom <$> mapped) ⊆ fields) as Hcols.
    { intros k Hk. apply elem_of_union_list in Hk as (X & HX & Hk).
      apply list_elem_of_fmap in HX as (record & -> & Hrec).
      apply list_elem_of_lookup in Hrec as [i Hi].
      destruct (Forall2_lookup_r _ _ _ _ _ Hm Hi) as (r & Hr & Hc).
      destruct (Hall r) as (record' & Hc' & Hdom); [by eapply list_elem_of_lookup_2|].
      rewrite Hc in Hc'. injection Hc' as <-. by rewrite <- Hdom. }
    eexists. split; [done|]. split.
    + rewrite length_zip_with. apply Forall2_length in Hm. lia.
    + intros i r Hi.
      destruct (Forall2_lookup_l _ _ _ _ _ Hm Hi) as (record & Hrec & Hc).
      eexists _, record. rewrite lookup_zip_with, Hi, Hrec. simpl.
      split_and!; [done..|].
      rewrite results_row_full; [done|].
      destruct (Hall r) as (record' & Hc' & Hdom); [by eapply list_elem_of_lookup_2|].
      rewrite Hc in Hc'. injection Hc' as <-. by rewrite Hdom.
  - exfalso. assert (is_Some (mapM (λ r, cache !! map_key_of r) df)) as [? ?].
    { apply mapM_is_Some, Forall_forall. intros r Hr.
      destruct (Hall r Hr) as (? & Hx & _). simpl. rewrite Hx. eauto. }
    congruence.
Qed.

Lemma get_worms_match_columns env params_dict df :
  ∃ out, get_worms_match_for_dataframe env params_dict df = Returns out
         ∧ length out = length df
         ∧ ∀ i r, df !! i = Some r →
             ∃ r' record,
               out !! i = Some r'
               ∧ final_cache env params_dict df !! map_key_of r = Some record
               ∧ dom record = list_to_set result_fields
               ∧ verbatimIdentification r' = verbatimIdentification r
               ∧ assay_name r' = assay_name r
               ∧ columns r' = delete "_map_key" (record ∪ columns r).
Proof.
  destruct (apply_results_columns (final_cache env params_dict df) df
              (list_to_set result_fields)) as (out & Hrun & Hlen & Hrows).
  - apply final_cache_nonempty.
  - intros r Hr. destruct (final_cache_row env params_dict df r Hr) as [record Hrec].
    exists record. split; [done|]. by eapply final_cache_dom.
  - exists out. split; [done|]. split; [done|].
    intros i r Hi. destruct (Hrows i r Hi) as (r' & record & ? & Hrec & ? & ? & ?).
    exists r', record. split_and!; [done..| |done|done|done].
    eapply final_cache_dom; [|done]. by eapply list_elem_of_lookup_2.
Qed.



(** ** The rows the mask catches *)

Section Mask.

Lemma all_chars_lower q s :
  (∀ c, q (PyStr.lower_char c) = true → q c = true) →
  all_chars q (PyStr.lower s) = true → all_chars q s = true.
Proof.
  intros Hq. induction s as [|c r IH]; [done|]. simpl.
  intros [Hc Hr]%andb_true_iff. by rewrite (Hq c Hc), IH.
Qed.

Lemma lower_char_not_space c :
  negb (PyStr.isspace (PyStr.lower_char c)) = true → negb (PyStr.isspace c) = true.
Proof. destruct c as [[] [] [] [] [] [] [] []]; done. Qed.

Lemma lower_char_not_semicolon c :
  negb (Ascii.eqb ";" (PyStr.lower_char c)) = true → negb (Ascii.eqb ";" c) = true.
Proof. destruct c as [[] [] [] [] [] [] [] []]; done. Qed.

(** A string without whitespace and without a semicolon is its own
    cleaned form. *)
Lemma cleaned_verbatim_fixed s :
  all_chars (λ c, negb (PyStr.isspace c)) s = true →
  all_chars (λ c, negb (Ascii.eqb ";" c)) s = true →
  PyStr.strip (PyStr.rstrip_char ";" s) = s.
Proof.
  intros Hs Hc. unfold PyStr.rstrip_char. rewrite rstrip_by_none by done.
  rewrite <- (append_nil_r s) at 1.
  change (s +:+ "") with ("" +:+ s +:+ ""). by apply strip_padded.
Qed.

Lemma strip_blank_cleaned v :
  PyStr.strip v = "" → cleaned_verbatim v = "".
Proof. unfold cleaned_verbatim. by intros ->. Qed.

Lemma strip_unassigned_cleaned v :
  PyStr.lower (PyStr.strip v) = "unassigned" → cleaned_verbatim v = PyStr.strip v.
Proof.
  intros H. unfold cleaned_verbatim. apply cleaned_verbatim_fixed.
  - apply all_chars_lower; [apply lower_char_not_space|]. by rewrite H.
  - apply all_chars_lower; [apply lower_char_not_semicolon|]. by rewrite H.
Qed.

(** Every value the mask of the empty inputs catches is one the test of
    the fast path for unassigned inputs catches too. *)
Lemma mask_unassigned_case r v :
  verbatimIdentification r = Some v → empty_verbatim_mask r = true →
  is_unassigned_case v = true.
Proof.
  unfold empty_verbatim_mask. intros ->. intros [H|H]%orb_true_iff.
  - apply String.eqb_eq in H. unfold is_unassigned_case.
    by rewrite (strip_blank_cleaned v H).
  - apply String.eqb_eq in H. unfold is_unassigned_case.
    rewrite (strip_unassigned_cleaned v H), H. apply orb_true_r.
Qed.

Lemma map_key_of_assigned r v :
  verbatimIdentification r = Some v → is_unassigned_case v = false →
  map_key_of r = Combo (v, assay_name r).
Proof.
  intros Hv Hu. unfold map_key_of.
  destruct (empty_verbatim_mask r) eqn:Hm.
  - rewrite (mask_unassigned_case r v Hv Hm) in Hu. done.
  - by rewrite Hv.
Qed.

End Mask.

(** ** The row of a key *)

(** What the call returns for a row whose value is not an unassigned
    one: the record its key resolves to, over the columns of the row. *)
Lemma row_record env params_dict df i r v :
  df !! i = Some r → verbatimIdentification r = Some v →
  is_unassigned_case v = false →
  (v, assay_name r) ∈ unique_tuples df
  ∧ ∃ out r',
      get_worms_match_for_dataframe env params_dict df = Returns out
      ∧ out !! i = Some r'
      ∧ final_cache env params_dict df !! Combo (v, assay_name r)
        = Some (resolve env params_dict (batch_lookup_of env params_dict df)
                        (v, assay_name r))
      ∧ ∀ col x, col ≠ "_map_key" →
          resolve env params_dict (batch_lookup_of env params_dict df)
                  (v, assay_name r) !! col = Some x →
          columns r' !! col = Some x.
Proof.
  intros Hi Hv Hu.
  pose proof (map_key_of_assigned r v Hv Hu) as Hk.
  assert ((v, assay_name r) ∈ unique_tuples df) as Hin.
  { eapply elem_of_unique_tuples; [|done]. by eapply list_elem_of_lookup_2. }
  split; [done|].
  destruct (get_worms_match_rows env params_dict df) as (out & Hrun & _ & Hrows).
  destruct (Hrows i r Hi) as (r' & record & Hout & Hrec & _ & _ & Hcols).
  rewrite Hk, final_cache_lookup in Hrec by done. injection Hrec as <-.
  exists out, r'. split_and!; [done|done|by apply final_cache_lookup|].
  intros col x Hne Hx. rewrite Hcols; [done|done|]. rewrite Hx. eauto.
Qed.

(** ** The values of the fields *)

Section FieldValues.

Variable env : Env.
Variable params_dict : Params.

Lemma incertae_sedis_fields debug cleaned :
  let record := incertae_sedis params_dict debug cleaned in
  record !! "scientificNameID" = Some (Some "urn:lsid:marinespecies.org:taxname:12")
  ∧ record !! "taxonRank" = Some None
  ∧ record !! "nameAccordingTo" = Some (Some (api_source params_dict))
  ∧ Forall (λ rank, record !! rank = Some None) DWC_RANKS_STD.
Proof.
  unfold incertae_sedis, DWC_RANKS_STD. cbn [foldl].
  split_and!; [by simplify_map_eq..|].
  repeat constructor; by simplify_map_eq.
Qed.

Lemma id_worker_fields api id record :
  aphiaRecordByAphiaID env id = Returns (Some record) →
  accepted record = true →
  let result := (get_worms_classification_by_id_worker env api id).2 in
  result !! "scientificName" = Some (get record "scientificname")
  ∧ result !! "scientificNameID" = Some (get record "lsid")
  ∧ result !! "taxonRank" = Some (get record "rank")
  ∧ result !! "nameAccordingTo" = Some (Some api)
  ∧ result !! "match_type_debug" = Some (Some ("Success_AphiaID_" +:+ pretty id))
  ∧ Forall (λ rank, result !! rank = Some (get record rank)) DWC_RANKS_STD.
Proof.
  intros Hrec Hacc. unfold get_worms_classification_by_id_worker.
  rewrite Hrec, Hacc. cbn [snd]. unfold DWC_RANKS_STD. cbn [foldl].
  repeat match goal with
         | |- context [PyStr.lower ?s] =>
             let s' := eval vm_compute in (PyStr.lower s) in
             change (PyStr.lower s) with s'
         end.
  split_and!; [by simplify_map_eq..|].
  repeat constructor; by simplify_map_eq.
Qed.

Lemma batch_record_fields m :
  batch_record m !! "scientificName" = Some (get m "scientificname")
  ∧ batch_record m !! "scientificNameID" = Some (get m "lsid")
  ∧ batch_record m !! "taxonRank" = Some (get m "rank")
  ∧ Forall (λ rank, batch_record m !! rank = Some (get m rank)) DWC_RANKS_STD
  ∧ batch_record m !! "nameAccordingTo" = None
  ∧ batch_record m !! "match_type_debug" = None
  ∧ batch_record m !! "cleanedTaxonomy" = None.
Proof.
  unfold batch_record, DWC_RANKS_STD. cbn [foldl].
  repeat match goal with
         | |- context [PyStr.lower ?s] =>
             let s' := eval vm_compute in (PyStr.lower s) in
             change (PyStr.lower s) with s'
         end.
  split_and!; try by simplify_map_eq.
  repeat constructor; by simplify_map_eq.
Qed.

Lemma batch_success_fields found term cleaned :
  let record := batch_success params_dict found term cleaned in
  record !! "nameAccordingTo" = Some (Some (api_source params_dict))
  ∧ record !! "match_type_debug" = Some (Some ("Success_Batch_" +:+ term))
  ∧ record !! "cleanedTaxonomy" = Some (Some cleaned)
  ∧ ∀ col, col ∉ ["nameAccordingTo"; "match_type_debug"; "cleanedTaxonomy"] →
           record !! col = found !! col.
Proof.
  unfold batch_success. split_and!; [by simplify_map_eq..|].
  intros col Hcol. rewrite !lookup_insert_ne; [done|set_solver..].
Qed.

(** The form a key takes the Stage 1 record in. *)
Lemma stage1_record_Some t r :
  stage1_record env params_dict t = Some r →
  ∃ species_name id record,
    (t.2 ∉ assays_to_skip_species params_dict)
    ∧ last (parse_semicolon_taxonomy (Some t.1)) = Some species_name
    ∧ pr2_dict params_dict !! species_name = Some id
    ∧ aphiaRecordByAphiaID env id = Returns (Some record)
    ∧ accepted record = true
    ∧ r = <[ "cleanedTaxonomy" :=
               Some (PyStr.join ";" (parse_semicolon_taxonomy (Some t.1))) ]>
          (get_worms_classification_by_id_worker env (api_source params_dict) id).2.
Proof.
  unfold stage1_record, prematch_id.
  destruct (bool_decide (pr2_dict params_dict ≠ ∅)); [|done].
  case_bool_decide as Hskip; [done|].
  destruct (last (parse_semicolon_taxonomy (Some t.1))) as [species_name|] eqn:Hl;
    [|done].
  cbn [mbind option_bind].
  destruct (pr2_dict params_dict !! species_name) as [id|] eqn:Hid; [|done].
  cbn [mbind option_bind]. case_bool_decide as Hn; [|done]. intros [= <-].
  destruct Hn as [x Hx].
  destruct (id_worker_named _ _ _ _ Hx) as (record & Hrec & Hacc & _ & _).
  exists species_name, id, record. split_and!; [done..|].
  destruct (parse_semicolon_taxonomy (Some t.1)); [done|done].
Qed.

(** The converse: a key of an assay that is not skipped, whose last term
    the local dictionary knows, and whose identifier the service answers
    with an accepted record. *)
Lemma stage1_record_hit t species_name id record :
  (t.2 ∉ assays_to_skip_species params_dict) →
  last (parse_semicolon_taxonomy (Some t.1)) = Some species_name →
  pr2_dict params_dict !! species_name = Some id →
  aphiaRecordByAphiaID env id = Returns (Some record) →
  accepted record = true →
  stage1_record env params_dict t
  = Some (<[ "cleanedTaxonomy" :=
               Some (PyStr.join ";" (parse_semicolon_taxonomy (Some t.1))) ]>
          (get_worms_classification_by_id_worker env (api_source params_dict) id).2).
Proof.
  intros Hskip Hl Hid Hrec Hacc. unfold stage1_record, prematch_id.
  rewrite bool_decide_eq_true_2.
  2:{ intros He. rewrite He, lookup_empty in Hid. done. }
  rewrite (bool_decide_eq_false_2 _ Hskip), Hl. cbn [mbind option_bind].
  rewrite Hid. cbn [mbind option_bind].
  destruct (id_worker_fields (api_source params_dict) id record Hrec Hacc) as [Hn _].
  rewrite bool_decide_eq_true_2 by (rewrite Hn; eauto).
  destruct (parse_semicolon_taxonomy (Some t.1)); [done|done].
Qed.

Lemma stage2_record_Some batch_lookup t r :
  stage2_record params_dict batch_lookup t = Some r →
  ∃ term found,
    term ∈ terms_for_matching params_dict t
    ∧ batch_lookup !! term = Some found
    ∧ r = batch_success params_dict found term
            (PyStr.join ";" (terms_for_matching params_dict t)).
Proof.
  unfold stage2_record.
  destruct (terms_for_matching params_dict t) as [|y ys]; [done|].
  destruct (first_in_lookup _ _) as [[term found]|] eqn:Hf; [|done].
  cbn [mbind option_bind]. intros [= <-].
  apply first_in_lookup_found in Hf as [Hin Hf].
  exists term, found. split_and!; [|done..].
  by rewrite elem_of_reverse in Hin.
Qed.

Lemma terms_for_matching_subseteq t term :
  term ∈ terms_for_matching params_dict t →
  term ∈ parse_semicolon_taxonomy (Some t.1).
Proof.
  unfold terms_for_matching, drop_last.
  destruct (_ && _); [|done]. apply subseteq_take.
Qed.

End FieldValues.

(** ** The outcome of a row *)

Section Outcome.

Variable env : Env.
Variable params_dict : Params.

Lemma incertae_sedis_is_incertae debug cleaned :
  incertae_sedis_columns (incertae_sedis params_dict debug cleaned).
Proof.
  destruct (incertae_sedis_fields params_dict debug cleaned) as (? & ? & _ & ?).
  split_and!; [apply incertae_sedis_name|done..].
Qed.

Lemma incertae_sedis_columns_transfer (record cols : pydict) :
  (∀ col x, col ≠ "_map_key" → record !! col = Some x → cols !! col = Some x) →
  incertae_sedis_columns record → incertae_sedis_columns cols.
Proof.
  intros Hcols (Hn & Hid & Hr & Hranks).
  split_and!; [by apply Hcols..|].
  rewrite Forall_forall in Hranks. apply Forall_forall. intros rank Hin.
  apply Hcols; [|by apply Hranks]. intros ->.
  apply list_elem_of_In in Hin. simpl in Hin. intuition discriminate.
Qed.

(** The record a key resolves to, by the way it was resolved. *)
Lemma resolve_outcome df t :
  let record := resolve env params_dict (batch_lookup_of env params_dict df) t in
  record !! "nameAccordingTo" = Some (Some (api_source params_dict))
  ∧ ∃ label cleaned,
      record !! "match_type_debug" = Some (Some label)
      ∧ record !! "cleanedTaxonomy" = Some (Some cleaned)
      ∧ ((incertae_sedis_columns record
          ∧ (label ∈ ["incertae_sedis_unassigned"; "Failed_All_Stages_NoMatch"]
             ∨ label = "incertae_sedis_simple_case_" +:+ cleaned_verbatim t.1))
         ∨ (∃ species_name id found,
              (t.2 ∉ assays_to_skip_species params_dict)
              ∧ last (parse_semicolon_taxonomy (Some t.1)) = Some species_name
              ∧ pr2_dict params_dict !! species_name = Some id
              ∧ aphiaRecordByAphiaID env id = Returns (Some found)
              ∧ accepted found = true
              ∧ label = "Success_AphiaID_" +:+ pretty id
              ∧ record !! "scientificName" = Some (get found "scientificname"))
         ∨ (∃ term found,
              term ∈ terms_for_matching params_dict t
              ∧ term ∈ parse_semicolon_taxonomy (Some t.1)
              ∧ batch_lookup_of env params_dict df !! term = Some found
              ∧ label = "Success_Batch_" +:+ term
              ∧ record !! "scientificName" = found !! "scientificName")).
Proof.
  unfold resolve.
  destruct (fast_record params_dict t) as [r0|] eqn:E0.
  { unfold fast_record in E0.
    destruct (is_unassigned_case t.1); [|destruct (is_simple_case t.1); [|done]];
      injection E0 as <-.
    - destruct (incertae_sedis_fields params_dict "incertae_sedis_unassigned"
                  (cleaned_verbatim t.1)) as (_ & _ & Hsrc & _).
      split; [done|]. eexists _, _.
      split; [apply incertae_sedis_debug|]. split; [apply incertae_sedis_cleaned|].
      left. split; [apply incertae_sedis_is_incertae|]. left. set_solver.
    - destruct (incertae_sedis_fields params_dict
                  ("incertae_sedis_simple_case_" +:+ cleaned_verbatim t.1)
                  (cleaned_verbatim t.1)) as (_ & _ & Hsrc & _).
      split; [done|]. eexists _, _.
      split; [apply incertae_sedis_debug|]. split; [apply incertae_sedis_cleaned|].
      left. split; [apply incertae_sedis_is_incertae|]. by right. }
  destruct (stage1_record env params_dict t) as [r1|] eqn:E1.
  { apply stage1_record_Some in E1
      as (species_name & id & found & Hskip & Hl & Hid & Hrec & Hacc & ->).
    destruct (id_worker_fields env (api_source params_dict) id found Hrec Hacc)
      as (Hn & _ & _ & Hsrc & Hdebug & _).
    split; [by rewrite lookup_insert_ne|]. eexists _, _.
    split; [by rewrite lookup_insert_ne|]. split; [by rewrite lookup_insert_eq|].
    right. left. exists species_name, id, found.
    split_and!; [done..|]. by rewrite lookup_insert_ne. }
  destruct (stage2_record params_dict _ t) as [r2|] eqn:E2; cbn [default].
  - apply stage2_record_Some in E2 as (term & found & Hin & Hf & ->).
    destruct (batch_success_fields params_dict found term
                (PyStr.join ";" (terms_for_matching params_dict t)))
      as (Hsrc & Hdebug & Hcl & Hother).
    split; [done|]. eexists _, _. split; [done|]. split; [done|].
    right. right. exists term, found.
    split_and!; [done|by eapply terms_for_matching_subseteq|done|done|].
    apply Hother. set_solver.
  - unfold no_match_record.
    destruct (incertae_sedis_fields params_dict "Failed_All_Stages_NoMatch"
                (joined_or (terms_for_matching params_dict t) t.1))
      as (_ & _ & Hsrc & _).
    split; [done|]. eexists _, _.
    split; [apply incertae_sedis_debug|]. split; [apply incertae_sedis_cleaned|].
    left. split; [apply incertae_sedis_is_incertae|]. left. set_solver.
Qed.

End Outcome.

(** X2 (outcome of every row).  In every row of the result
    [nameAccordingTo] is the configured source ("WoRMS" when none is
    configured) and [match_type_debug] and [cleanedTaxonomy] hold a
    string.  The row is of one of three kinds and the label tells which:
    no match, with the name and identifier of incertae sedis, no rank and
    a label among incertae_sedis_truly_empty_fallback,
    incertae_sedis_unassigned, Failed_All_Stages_NoMatch and
    incertae_sedis_simple_case_ followed by the cleaned value; a match
    through the local dictionary, for an assay that does not skip species,
    labelled Success_AphiaID_ with the identifier the dictionary has for
    the last term, named as the accepted record the service returned for
    it; or a batch match, labelled Success_Batch_ with one of the row's own
    terms for matching that is in the lookup table, named as the table's
    entry. *)
Theorem outcome_of_every_row env params_dict df i r :
  df !! i = Some r →
  ∃ out r' label cleaned,
    get_worms_match_for_dataframe env params_dict df = Returns out
    ∧ out !! i = Some r'
    ∧ columns r' !! "nameAccordingTo" = Some (Some (api_source params_dict))
    ∧ columns r' !! "match_type_debug" = Some (Some label)
    ∧ columns r' !! "cleanedTaxonomy" = Some (Some cleaned)
    ∧ ((incertae_sedis_columns (columns r')
        ∧ (label ∈ ["incertae_sedis_truly_empty_fallback";
                    "incertae_sedis_unassigned"; "Failed_All_Stages_NoMatch"]
           ∨ ∃ v, verbatimIdentification r = Some v
                  ∧ label = "incertae_sedis_simple_case_" +:+ cleaned_verbatim v))
       ∨ (∃ v species_name id found,
            verbatimIdentification r = Some v
            ∧ (assay_name r ∉ assays_to_skip_species params_dict)
            ∧ last (parse_semicolon_taxonomy (Some v)) = Some species_name
            ∧ pr2_dict params_dict !! species_name = Some id
            ∧ aphiaRecordByAphiaID env id = Returns (Some found)
            ∧ accepted found = true
            ∧ label = "Success_AphiaID_" +:+ pretty id
            ∧ columns r' !! "scientificName" = Some (get found "scientificname"))
       ∨ (∃ v term found,
            verbatimIdentification r = Some v
            ∧ term ∈ terms_for_matching params_dict (v, assay_name r)
            ∧ term ∈ parse_semicolon_taxonomy (Some v)
            ∧ batch_lookup_of env params_dict df !! term = Some found
            ∧ label = "Success_Batch_" +:+ term
            ∧ columns r' !! "scientificName" = found !! "scientificName")).
Proof.
  intros Hi.
  destruct (get_worms_match_rows env params_dict df) as (out & Hrun & _ & Hrows).
  destruct (Hrows i r Hi) as (r' & record & Hout & Hrec & _ & _ & Hcols).
  assert (∀ col x, col ≠ "_map_key" → record !! col = Some x →
                   columns r' !! col = Some x) as Hget.
  { intros col x Hne Hx. rewrite Hcols; [done|done|]. rewrite Hx. eauto. }
  destruct (map_key_of_cases r) as [[_ Hk]|(v & _ & Hv & Hk)]; rewrite Hk in Hrec.
  - rewrite final_cache_sentinel in Hrec. injection Hrec as <-.
    destruct (incertae_sedis_fields params_dict
                "incertae_sedis_truly_empty_fallback" "") as (_ & _ & Hsrc & _).
    exists out, r', "incertae_sedis_truly_empty_fallback", "".
    split_and!; [done|done|by apply Hget|..].
    + apply Hget; [done|apply incertae_sedis_debug].
    + apply Hget; [done|apply incertae_sedis_cleaned].
    + left. split; [|left; set_solver].
      eapply incertae_sedis_columns_transfer; [exact Hget|].
      apply incertae_sedis_is_incertae.
  - rewrite final_cache_lookup in Hrec.
    2:{ eapply elem_of_unique_tuples; [|done]. by eapply list_elem_of_lookup_2. }
    injection Hrec as <-.
    destruct (resolve_outcome env params_dict df (v, assay_name r))
      as (Hsrc & label & cleaned & Hdebug & Hcl & Hkind).
    exists out, r', label, cleaned.
    split_and!; [done|done|by apply Hget..|].
    destruct Hkind as [[Hinc Hlab]|[(sp & id & found & ? & ? & ? & ? & ? & ? & Hn)
                                   |(term & found & ? & ? & ? & ? & Hn)]].
    + left. split; [by eapply incertae_sedis_columns_transfer|].
      destruct Hlab as [Hlab| ->]; [left; set_solver|].
      right. by exists v.
    + right. left. exists v, sp, id, found. split_and!; [done..|]. by apply Hget.
    + right. right. exists v, term, found. split_and!; [done..|].
      cbn [fst] in *. rewrite <- Hn.
      destruct (resolve env params_dict _ _ !! "scientificName") as [x|] eqn:Hx.
      * by apply Hget.
      * exfalso. 
        assert (is_Some (resolve env params_dict (batch_lookup_of env params_dict df)
                           (v, assay_name r) !! "scientificName")) as [? ?].
        { apply elem_of_dom. rewrite resolve_dom. set_solver. }
        congruence.
Qed.

Lemma outcome_of_every_row_witness :
  sample_table !! 0%nat = Some (sample_row (Some "Eukaryota;Metazoa_sp.2;") "18S")
  ∧ ∃ out r' label cleaned,
      get_worms_match_for_dataframe sample_service sample_params sample_table
      = Returns out
      ∧ out !! 0%nat = Some r'
      ∧ columns r' !! "nameAccordingTo" = Some (Some "WoRMS")
      ∧ columns r' !! "match_type_debug" = Some (Some label)
      ∧ columns r' !! "cleanedTaxonomy" = Some (Some cleaned).
Proof.
  split; [reflexivity|].
  destruct (outcome_of_every_row sample_service sample_params sample_table 0
              (sample_row (Some "Eukaryota;Metazoa_sp.2;") "18S") eq_refl)
    as (out & r' & label & cleaned & Hrun & Hout & Hsrc & Hdebug & Hcl & _).
  exists out, r', label, cleaned.
  split_and!; [exact Hrun|exact Hout|exact Hsrc|exact Hdebug|exact Hcl].
Defined.

(** ** A match through the local dictionary *)

(** X3 (match through the local dictionary).  A row whose value is
    neither an unassigned one nor the kingdom-only case, whose assay is not
    among those that skip species, whose last normalized term the local
    dictionary maps to an identifier, and for whose identifier the service
    returns an accepted record, is resolved in Stage 1: its name,
    identifier, rank and the seven rank fields are those of the service's
    record, its label is Success_AphiaID_ with the identifier, its
    [cleanedTaxonomy] is the join of all its normalized terms, and its key
    is not handed to Stage 2. *)
Theorem dictionary_match env params_dict df i r v species_name id found :
  df !! i = Some r → verbatimIdentification r = Some v →
  is_unassigned_case v = false → is_simple_case v = false →
  (assay_name r ∉ assays_to_skip_species params_dict) →
  last (parse_semicolon_taxonomy (Some v)) = Some species_name →
  pr2_dict params_dict !! species_name = Some id →
  aphiaRecordByAphiaID env id = Returns (Some found) →
  accepted found = true →
  ((v, assay_name r) ∉ keys_for_batch env params_dict df)
  ∧ ∃ out r',
      get_worms_match_for_dataframe env params_dict df = Returns out
      ∧ out !! i = Some r'
      ∧ columns r' !! "scientificName" = Some (get found "scientificname")
      ∧ columns r' !! "scientificNameID" = Some (get found "lsid")
      ∧ columns r' !! "taxonRank" = Some (get found "rank")
      ∧ Forall (λ rank, columns r' !! rank = Some (get found rank)) DWC_RANKS_STD
      ∧ columns r' !! "nameAccordingTo" = Some (Some (api_source params_dict))
      ∧ columns r' !! "match_type_debug"
        = Some (Some ("Success_AphiaID_" +:+ pretty id))
      ∧ columns r' !! "cleanedTaxonomy"
        = Some (Some (PyStr.join ";" (parse_semicolon_taxonomy (Some v)))).
Proof.
  intros Hi Hv Hu Hs Hskip Hl Hid Hrec Hacc.
  pose proof (stage1_record_hit env params_dict (v, assay_name r) species_name id
                found Hskip Hl Hid Hrec Hacc) as H1.
  split.
  { unfold keys_for_batch, stage1_of. rewrite elem_of_stage1_unmatched.
    intros [_ Hnone]. rewrite H1 in Hnone. done. }
  destruct (row_record env params_dict df i r v Hi Hv Hu)
    as (_ & out & r' & Hrun & Hout & _ & Hget).
  assert (resolve env params_dict (batch_lookup_of env params_dict df)
                  (v, assay_name r)
          = <[ "cleanedTaxonomy" :=
                 Some (PyStr.join ";" (parse_semicolon_taxonomy (Some v))) ]>
            (get_worms_classification_by_id_worker env (api_source params_dict) id).2)
    as Hres.
  { unfold resolve, fast_record. cbn [fst]. by rewrite Hu, Hs, H1. }
  rewrite Hres in Hget. clear Hres H1.
  destruct (id_worker_fields env (api_source params_dict) id found Hrec Hacc)
    as (Hn & Hnid & Hrank & Hsrc & Hdebug & Hranks).
  exists out, r'. split_and!; [done|done|..].
  1-3,5-6: apply Hget; [done|by rewrite lookup_insert_ne].
  - rewrite Forall_forall in Hranks. apply Forall_forall. intros rank Hin.
    assert (rank ≠ "_map_key" ∧ rank ≠ "cleanedTaxonomy") as [? ?].
    { apply list_elem_of_In in Hin. simpl in Hin.
      split; intros ->; intuition discriminate. }
    apply Hget; [done|]. rewrite lookup_insert_ne by done. by apply Hranks.
  - apply Hget; [done|]. by rewrite lookup_insert_eq.
Qed.

Lemma dictionary_match_witness :
  sample_table !! 0%nat = Some (sample_row (Some "Eukaryota;Metazoa_sp.2;") "18S")
  ∧ is_unassigned_case "Eukaryota;Metazoa_sp.2;" = false
  ∧ is_simple_case "Eukaryota;Metazoa_sp.2;" = false
  ∧ ("18S" ∉ assays_to_skip_species sample_params)
  ∧ last (parse_semicolon_taxonomy (Some "Eukaryota;Metazoa_sp.2;")) = Some "Metazoa"
  ∧ pr2_dict sample_params !! "Metazoa" = Some 2
  ∧ aphiaRecordByAphiaID sample_service 2 = Returns (Some metazoa_record)
  ∧ accepted metazoa_record = true
  ∧ ∃ out r',
      get_worms_match_for_dataframe sample_service sample_params sample_table
      = Returns out
      ∧ out !! 0%nat = Some r'
      ∧ columns r' !! "scientificName" = Some (Some "Metazoa")
      ∧ columns r' !! "match_type_debug" = Some (Some "Success_AphiaID_2")
      ∧ columns r' !! "cleanedTaxonomy" = Some (Some "Eukaryota;Metazoa").
Proof.
  assert (Hskip : "18S" ∉ assays_to_skip_species sample_params).
  { apply (bool_decide_unpack _). vm_compute. exact I. }
  split; [reflexivity|]. split; [vm_compute; reflexivity|].
  split; [vm_compute; reflexivity|]. split; [exact Hskip|].
  split; [vm_compute; reflexivity|]. split; [vm_compute; reflexivity|].
  split; [reflexivity|]. split; [vm_compute; reflexivity|].
  destruct (dictionary_match sample_service sample_params sample_table 0
              (sample_row (Some "Eukaryota;Metazoa_sp.2;") "18S")
              "Eukaryota;Metazoa_sp.2;" "Metazoa" 2 metazoa_record
              eq_refl eq_refl eq_refl eq_refl Hskip eq_refl eq_refl eq_refl eq_refl)
    as (_ & out & r' & Hrun & Hout & Hn & _ & _ & _ & _ & Hdebug & Hcl).
  exists out, r'. split_and!; [exact Hrun|exact Hout|exact Hn|exact Hdebug|exact Hcl].
Defined.

(** ** A key that nothing matches *)

(** X4 (no match).  A row whose key Stage 1 leaves unmatched and none of
    whose terms for matching (the normalized terms, without the last one
    where the assay skips species and the lineage is full length) is a key
    of the lookup table gets the name and identifier of incertae sedis, no
    rank, the label Failed_All_Stages_NoMatch and, as [cleanedTaxonomy],
    the join of those terms, or the raw value when there is none. *)
Theorem no_match_row env params_dict df i r v :
  df !! i = Some r → verbatimIdentification r = Some v →
  (v, assay_name r) ∈ keys_for_batch env params_dict df →
  Forall (λ term, batch_lookup_of env params_dict df !! term = None)
         (terms_for_matching params_dict (v, assay_name r)) →
  ∃ out r',
    get_worms_match_for_dataframe env params_dict df = Returns out
    ∧ out !! i = Some r'
    ∧ incertae_sedis_columns (columns r')
    ∧ columns r' !! "nameAccordingTo" = Some (Some (api_source params_dict))
    ∧ columns r' !! "match_type_debug" = Some (Some "Failed_All_Stages_NoMatch")
    ∧ columns r' !! "cleanedTaxonomy"
      = Some (Some (joined_or (terms_for_matching params_dict (v, assay_name r)) v)).
Proof.
  intros Hi Hv Hkey Hnone.
  assert (is_unassigned_case v = false) as Hu.
  { unfold keys_for_batch, stage1_of in Hkey.
    apply elem_of_stage1_unmatched in Hkey as [Hkey _].
    apply elem_of_keys_after_fast_path in Hkey as [_ Hfast].
    unfold fast_record in Hfast. cbn [fst] in Hfast.
    by destruct (is_unassigned_case v). }
  destruct (row_record env params_dict df i r v Hi Hv Hu)
    as (_ & out & r' & Hrun & Hout & Hfinal & Hget).
  rewrite (final_record_for_batch_key env params_dict df _ Hkey) in Hfinal.
  assert (stage2_record params_dict (batch_lookup_of env params_dict df)
            (v, assay_name r) = None) as H2.
  { unfold stage2_record.
    destruct (terms_for_matching params_dict (v, assay_name r)) as [|y ys] eqn:Ht;
      [done|].
    assert (first_in_lookup (batch_lookup_of env params_dict df) (reverse (y :: ys))
            = None) as ->; [|done].
    apply first_in_lookup_None. by apply Forall_reverse. }
  rewrite H2 in Hfinal. cbn [default] in Hfinal. injection Hfinal as Hres.
  rewrite <- Hres in Hget. unfold no_match_record in Hget. cbn [fst] in Hget.
  set (cleaned := joined_or (terms_for_matching params_dict (v, assay_name r)) v) in *.
  destruct (incertae_sedis_fields params_dict "Failed_All_Stages_NoMatch" cleaned)
    as (_ & _ & Hsrc & _).
  exists out, r'. split_and!; [done|done|..].
  - eapply incertae_sedis_columns_transfer; [exact Hget|].
    apply incertae_sedis_is_incertae.
  - by apply Hget.
  - apply Hget; [done|apply incertae_sedis_debug].
  - apply Hget; [done|apply incertae_sedis_cleaned].
Qed.

Lemma no_match_row_witness :
  sample_table !! 8%nat = Some (sample_row (Some "Bacteria") "18S")
  ∧ ("Bacteria", "18S") ∈ keys_for_batch sample_service sample_params sample_table
  ∧ terms_for_matching sample_params ("Bacteria", "18S") = ["Bacteria"]
  ∧ batch_lookup_of sample_service sample_params sample_table !! "Bacteria" = None
  ∧ ∃ out r',
      get_worms_match_for_dataframe sample_service sample_params sample_table
      = Returns out
      ∧ out !! 8%nat = Some r'
      ∧ columns r' !! "match_type_debug" = Some (Some "Failed_All_Stages_NoMatch")
      ∧ columns r' !! "cleanedTaxonomy" = Some (Some "Bacteria").
Proof.
  assert (Hkey : ("Bacteria", "18S")
                 ∈ keys_for_batch sample_service sample_params sample_table).
  { apply (bool_decide_unpack _). vm_compute. exact I. }
  assert (Hnone : Forall (λ term, batch_lookup_of sample_service sample_params
                                    sample_table !! term = None)
                         (terms_for_matching sample_params ("Bacteria", "18S"))).
  { apply (bool_decide_unpack _). vm_compute. exact I. }
  split; [reflexivity|]. split; [exact Hkey|].
  split; [vm_compute; reflexivity|]. split; [vm_compute; reflexivity|].
  destruct (no_match_row sample_service sample_params sample_table 8
              (sample_row (Some "Bacteria") "18S") "Bacteria"
              eq_refl eq_refl Hkey Hnone)
    as (out & r' & Hrun & Hout & _ & _ & Hdebug & Hcl).
  exists out, r'. split_and!; [exact Hrun|exact Hout|exact Hdebug|exact Hcl].
Defined.

(** ** The two workers *)

(** X5 (identifier worker).  [get_worms_classification_by_id_worker]
    hands back the identifier it was given; its result has the key
    [scientificName] exactly when the service returned an accepted record
    for the identifier; then the name, the identifier of the name, the rank
    and the seven rank fields are the values [get] finds in that record
    (missing keys give a missing value) and the source is the one passed
    in; in every other case, a call that raises included, the result is
    the single entry [match_type_debug] with Failure_AphiaID_ and the
    identifier. *)
Theorem identifier_worker_result env api id :
  let result := (get_worms_classification_by_id_worker env api id).2 in
  (get_worms_classification_by_id_worker env api id).1 = id
  ∧ (is_Some (result !! "scientificName")
     ↔ ∃ record, aphiaRecordByAphiaID env id = Returns (Some record)
                 ∧ accepted record = true)
  ∧ (∀ record,
       aphiaRecordByAphiaID env id = Returns (Some record) →
       accepted record = true →
       result !! "scientificName" = Some (get record "scientificname")
       ∧ result !! "scientificNameID" = Some (get record "lsid")
       ∧ result !! "taxonRank" = Some (get record "rank")
       ∧ result !! "nameAccordingTo" = Some (Some api)
       ∧ result !! "match_type_debug"
         = Some (Some ("Success_AphiaID_" +:+ pretty id))
       ∧ Forall (λ rank, result !! rank = Some (get record rank)) DWC_RANKS_STD)
  ∧ (result !! "scientificName" = None →
     result = {[ "match_type_debug" := Some ("Failure_AphiaID_" +:+ pretty id) ]}).
Proof.
  cbn zeta. split_and!.
  - unfold get_worms_classification_by_id_worker.
    destruct (aphiaRecordByAphiaID env id) as [[record|]|]; [|done..].
    by destruct (accepted record).
  - split.
    + intros [x Hx]. destruct (id_worker_named _ _ _ _ Hx) as (record & ? & ? & _).
      by exists record.
    + intros (record & Hrec & Hacc).
      destruct (id_worker_fields env api id record Hrec Hacc) as [-> _]. eauto.
  - intros record Hrec Hacc. by apply id_worker_fields.
  - destruct (aphiaRecordByAphiaID env id) as [[record|]|] eqn:Hrec.
    + destruct (accepted record) eqn:Hacc.
      * destruct (id_worker_fields env api id record Hrec Hacc) as [-> _].
        intros [=].
      * intros _. unfold get_worms_classification_by_id_worker.
        by rewrite Hrec, Hacc.
    + intros _. unfold get_worms_classification_by_id_worker. by rewrite Hrec.
    + intros _. unfold get_worms_classification_by_id_worker. by rewrite Hrec.
Qed.

Lemma identifier_worker_result_witness :
  aphiaRecordByAphiaID sample_service 2 = Returns (Some metazoa_record)
  ∧ accepted metazoa_record = true
  ∧ (get_worms_classification_by_id_worker sample_service "WoRMS" 2).2
      !! "scientificName" = Some (Some "Metazoa")
  ∧ (get_worms_classification_by_id_worker sample_service "WoRMS" 2).2
      !! "kingdom" = Some (Some "Animalia")
  ∧ (get_worms_classification_by_id_worker sample_service "WoRMS" 2).2
      !! "phylum" = Some None
  ∧ (get_worms_classification_by_id_worker sample_service "WoRMS" 6).2
    = {[ "match_type_debug" := Some "Failure_AphiaID_6" ]}.
Proof.
  assert (Hacc : accepted metazoa_record = true) by (vm_compute; reflexivity).
  destruct (identifier_worker_result sample_service "WoRMS" 2) as (_ & _ & Hok & _).
  destruct (Hok metazoa_record eq_refl Hacc) as (Hn & _ & _ & _ & _ & Hranks).
  destruct (identifier_worker_result sample_service "WoRMS" 6) as (_ & _ & _ & Hfail).
  split; [reflexivity|]. split; [exact Hacc|]. split; [exact Hn|].
  split; [exact (Forall_inv Hranks)|].
  split; [exact (Forall_inv (Forall_inv_tail Hranks))|].
  apply Hfail. vm_compute. reflexivity.
Defined.

Section BatchWorker.

Variable chunk : list string.

Lemma first_accepted_spec name_list m :
  first_accepted name_list = Some m
  ↔ ∃ pre post,
      name_list = pre ++ Some m :: post
      ∧ accepted m = true
      ∧ Forall (λ c, match c with
                     | Some m' => accepted m' = false
                     | None => True
                     end) pre.
Proof.
  split.
  - induction name_list as [|[m'|] rest IH]; simpl; [done| |].
    + destruct (accepted m') eqn:Ha.
      * intros [= ->]. exists [], rest. done.
      * intros H. destruct (IH H) as (pre & post & -> & ? & ?).
        exists (Some m' :: pre), post. split_and!; [done|done|by constructor].
    + intros H. destruct (IH H) as (pre & post & -> & ? & ?).
      exists (None :: pre), post. split_and!; [done|done|by constructor].
  - intros (pre & post & -> & Ha & Hpre).
    induction Hpre as [|[m'|] pre Hc Hpre IH]; simpl.
    + by rewrite Ha.
    + by rewrite Hc.
    + done.
Qed.

Lemma record_matches_in_range raw j (table : gmap string pydict) :
  (j + length raw ≤ length chunk)%nat →
  (record_matches chunk j raw table).2 = Returns ().
Proof.
  revert j table. induction raw as [|name_list rest IH]; intros j table Hlen; [done|].
  simpl in *. destruct (first_accepted name_list) as [m|].
  - destruct (lookup_lt_is_Some_2 chunk j) as [name ->]; [lia|].
    apply IH. lia.
  - apply IH. lia.
Qed.

Lemma record_matches_lookup raw j (table : gmap string pydict) k name :
  NoDup chunk → chunk !! k = Some name →
  (j + length raw ≤ length chunk)%nat →
  (record_matches chunk j raw table).1 !! name
  = if decide (j ≤ k < j + length raw)%nat then
      match raw !! (k - j)%nat ≫= first_accepted with
      | Some m => Some (batch_record m)
      | None => table !! name
      end
    else table !! name.
Proof.
  intros Hnd Hk. revert j table.
  induction raw as [|name_list rest IH]; intros j table Hlen.
  { simpl. rewrite decide_False by lia. done. }
  simpl in Hlen. cbn [record_matches].
  assert (∀ table',
            (∀ m, first_accepted name_list = Some m → k = j →
                  table' !! name = Some (batch_record m)) →
            (first_accepted name_list = None ∨ k ≠ j → table' !! name = table !! name) →
            (record_matches chunk (S j) rest table').1 !! name
            = if decide (j ≤ k < j + length (name_list :: rest))%nat then
                match (name_list :: rest) !! (k - j)%nat ≫= first_accepted with
                | Some m => Some (batch_record m)
                | None => table !! name
                end
              else table !! name) as Hstep.
  { intros table' Hhit Hmiss. rewrite IH by lia. simpl length.
    destruct (decide (k = j)) as [->|Hne].
    - rewrite decide_False by lia. rewrite decide_True by lia.
      rewrite Nat.sub_diag. simpl.
      destruct (first_accepted name_list) as [m|] eqn:Hfa; [by apply Hhit|].
      apply Hmiss. by left.
    - destruct (decide (S j ≤ k < S j + length rest)%nat) as [Hin|Hout].
      + rewrite decide_True by lia.
        replace (k - j)%nat with (S (k - S j)) by lia. simpl.
        destruct (rest !! (k - S j)%nat ≫= first_accepted); [done|].
        apply Hmiss. by right.
      + rewrite decide_False by lia. apply Hmiss. by right. }
  destruct (first_accepted name_list) as [m|] eqn:Hfa.
  - destruct (lookup_lt_is_Some_2 chunk j) as [name' Hj]; [lia|]. rewrite Hj.
    apply Hstep.
    + intros m' [= <-] ->. rewrite Hj in Hk. injection Hk as ->.
      apply lookup_insert_eq.
    + intros [?|Hne]; [done|]. apply lookup_insert_ne. intros ->.
      apply Hne. by eapply NoDup_lookup.
  - apply Hstep; [done|done].
Qed.

End BatchWorker.

(** X6 (batch worker).  [get_worms_batch_worker] hands back the number of
    its batch; every key of its result is a name of the chunk and every
    entry is built from the first candidate of some answer that is a record
    with status "accepted" (candidates before it are missing or have
    another status, candidates after it are not looked at); a call of the
    service that raises gives the empty result; and when the chunk has no
    repeated name and the service answers with no more lists than names,
    the entry of the name at a position is built from the first accepted
    candidate of the answer at that position, and a name whose answer has
    none has no entry. *)
Theorem batch_worker_result env batch_num chunk :
  let result := (get_worms_batch_worker env (batch_num, chunk)).2 in
  (get_worms_batch_worker env (batch_num, chunk)).1 = batch_num
  ∧ (∀ name found,
       result !! name = Some found →
       name ∈ chunk
       ∧ ∃ raw name_list m,
           aphiaRecordsByMatchNames env chunk = Returns raw
           ∧ name_list ∈ raw ∧ first_accepted name_list = Some m
           ∧ found = batch_record m)
  ∧ (∀ name_list m,
       first_accepted name_list = Some m
       ↔ ∃ pre post,
           name_list = pre ++ Some m :: post
           ∧ accepted m = true
           ∧ Forall (λ c, match c with
                          | Some m' => accepted m' = false
                          | None => True
                          end) pre)
  ∧ (aphiaRecordsByMatchNames env chunk = Raises → result = ∅)
  ∧ (∀ raw k name,
       aphiaRecordsByMatchNames env chunk = Returns raw →
       NoDup chunk → (length raw ≤ length chunk)%nat →
       chunk !! k = Some name →
       result !! name = batch_record <$> (raw !! k ≫= first_accepted)).
Proof.
  cbn zeta. unfold get_worms_batch_worker. split_and!.
  - destruct (aphiaRecordsByMatchNames env chunk) as [raw|]; [|done].
    by destruct (record_matches chunk 0 raw ∅) as [? [[]|]].
  - intros name found.
    destruct (aphiaRecordsByMatchNames env chunk) as [raw|]; cbn [snd];
      [|by rewrite lookup_empty].
    destruct (record_matches chunk 0 raw ∅) as [results [[]|]] eqn:Hrm; cbn [snd];
      [|by rewrite lookup_empty].
    intros H.
    assert ((record_matches chunk 0 raw ∅).1 !! name = Some found) as H'
      by (by rewrite Hrm).
    apply record_matches_entry in H' as [H'|(Hin & nl & m & ? & ? & ?)].
    + by rewrite lookup_empty in H'.
    + split; [done|]. by exists raw, nl, m.
  - apply first_accepted_spec.
  - by intros ->.
  - intros raw k name -> Hnd Hlen Hk.
    pose proof (record_matches_in_range chunk raw 0 ∅ Hlen) as Hok.
    pose proof (record_matches_lookup chunk raw 0 ∅ k name Hnd Hk Hlen) as Hlk.
    destruct (record_matches chunk 0 raw ∅) as [results [[]|]]; [|done].
    cbn [fst snd] in *. rewrite Hlk, Nat.sub_0_r, lookup_empty.
    destruct (decide (0 ≤ k < 0 + length raw)%nat) as [Hin|Hout].
    + by destruct (raw !! k ≫= first_accepted).
    + rewrite lookup_ge_None_2 by lia. done.
Qed.

Lemma batch_worker_result_witness :
  aphiaRecordsByMatchNames sample_service ["Metazoa"; "Bacteria"]
  = Returns [[None; Some metazoa_record]; []]
  ∧ NoDup ["Metazoa"; "Bacteria"]
  ∧ (get_worms_batch_worker sample_service (1%nat, ["Metazoa"; "Bacteria"])).2
      !! "Metazoa" = Some (batch_record metazoa_record)
  ∧ (get_worms_batch_worker sample_service (1%nat, ["Metazoa"; "Bacteria"])).2
      !! "Bacteria" = None.
Proof.
  assert (Hnd : NoDup ["Metazoa"; "Bacteria"]).
  { apply (bool_decide_unpack _). vm_compute. exact I. }
  destruct (batch_worker_result sample_service 1 ["Metazoa"; "Bacteria"])
    as (_ & _ & _ & _ & Hat).
  split; [reflexivity|]. split; [exact Hnd|]. split.
  - exact (Hat _ 0%nat "Metazoa" eq_refl Hnd (le_n 2) eq_refl).
  - exact (Hat _ 1%nat "Bacteria" eq_refl Hnd (le_n 2) eq_refl).
Defined.

(** ** The batches *)

Section BatchData.

Lemma join_chunks {A} (c n : nat) (l : list A) :
  (length l ≤ n * c)%nat →
  mjoin ((λ k, take c (drop (k * c) l)) <$> seq 0 n) = l.
Proof.
  revert l. induction n as [|n IH]; intros l Hlen.
  - simpl in *. destruct l; [done|simpl in Hlen; lia].
  - change (seq 0 (S n)) with (0%nat :: seq 1 n).
    rewrite fmap_cons, <- fmap_S_seq, <- list_fmap_compose.
    rewrite (list_fmap_ext _ (λ k, take c (drop (k * c) (drop c l))) (seq 0 n)).
    2:{ intros i k _. simpl. rewrite drop_drop. repeat f_equal; lia. }
    cbn [mjoin list_join]. rewrite IH.
    + simpl. by rewrite take_drop.
    + rewrite length_drop. lia.
Qed.

Lemma batch_count (len : nat) :
  (len ≤ (len + chunk_size - 1) / chunk_size * chunk_size)%nat
  ∧ (∀ k, k < (len + chunk_size - 1) / chunk_size → k * chunk_size < len)%nat.
Proof.
  unfold chunk_size.
  pose proof (Nat.div_mod_eq (len + 50 - 1) 50) as Hdm.
  pose proof (Nat.mod_upper_bound (len + 50 - 1) 50) as Hub.
  split; [lia|]. intros k Hk. nia.
Qed.

Lemma batch_data_eq (terms : list string) :
  batch_data terms
  = map (λ k, (S k, take chunk_size (drop (k * chunk_size) terms)))
        (seq 0 ((length terms + chunk_size - 1) / chunk_size)).
Proof.
  unfold batch_data, range_step.
  change (map ?f (map ?g ?l)) with (f <$> (g <$> l)).
  rewrite <- list_fmap_compose. apply list_fmap_ext. intros i k _.
  unfold compose. f_equal. rewrite Nat.div_mul by done. lia.
Qed.

Lemma batch_data_chunk (terms : list string) b :
  b ∈ batch_data terms → (0 < length b.2 ≤ chunk_size)%nat.
Proof.
  rewrite batch_data_eq. intros H.
  apply list_elem_of_fmap in H as (k & -> & Hk). apply elem_of_seq in Hk.
  cbn [snd]. rewrite length_take, length_drop.
  destruct (batch_count (length terms)) as [_ Hlt].
  specialize (Hlt k). unfold chunk_size in *. lia.
Qed.

Lemma batch_data_join (terms : list string) :
  mjoin (batch_data terms).*2 = terms.
Proof.
  rewrite batch_data_eq.
  change (map ?f ?l) with (f <$> l). rewrite <- list_fmap_compose.
  apply (join_chunks chunk_size). apply batch_count.
Qed.

Lemma elem_of_batches (terms : list string) term :
  term ∈ terms ↔ ∃ b, b ∈ batch_data terms ∧ term ∈ b.2.
Proof.
  rewrite <- (batch_data_join terms) at 1. rewrite list_elem_of_join. split.
  - intros (chunk & Hterm & Hchunk).
    apply list_elem_of_fmap in Hchunk as (b & -> & Hb). by exists b.
  - intros (b & Hb & Hterm). exists b.2. split; [done|].
    apply list_elem_of_fmap. by exists b.
Qed.

End BatchData.

(** X7 (batches).  The batches of Stage 2 cut the list of terms into
    consecutive chunks: joined in order they give the list back, so every
    term is in a batch; they are numbered 1, 2, ... and there are
    ceil(n / 50) of them for n terms; no chunk is empty or longer than 50
    and every chunk but the last has exactly 50 terms. *)
Theorem batches_partition (terms : list string) :
  mjoin (batch_data terms).*2 = terms
  ∧ (batch_data terms).*1 = seq 1 (length (batch_data terms))
  ∧ length (batch_data terms) = ((length terms + 49) / 50)%nat
  ∧ (∀ term, term ∈ terms ↔ ∃ b, b ∈ batch_data terms ∧ term ∈ b.2)
  ∧ Forall (λ b, (0 < length b.2 ≤ 50)%nat) (batch_data terms)
  ∧ (∀ i b, batch_data terms !! i = Some b →
            (S i < length (batch_data terms))%nat → length b.2 = 50%nat).
Proof.
  assert (length (batch_data terms) = ((length terms + 49) / 50)%nat) as Hlen.
  { rewrite batch_data_eq, length_map, length_seq. unfold chunk_size.
    f_equal. lia. }
  split_and!; [apply batch_data_join| |done|apply elem_of_batches| |].
  - rewrite Hlen. rewrite batch_data_eq.
    change (map ?f ?l) with (f <$> l). rewrite <- list_fmap_compose.
    unfold chunk_size. replace ((length terms + 50 - 1) / 50)%nat
      with ((length terms + 49) / 50)%nat by (f_equal; lia).
    rewrite <- fmap_S_seq. by apply list_fmap_ext.
  - apply Forall_forall. intros b Hb. by apply batch_data_chunk in Hb.
  - intros i b Hb Hi. rewrite Hlen in Hi.
    apply batch_data_lookup in Hb as ->. cbn [snd].
    rewrite length_take, length_drop. unfold chunk_size.
    pose proof (Nat.div_mod_eq (length terms + 49) 50) as Hdm.
    pose proof (Nat.mod_upper_bound (length terms + 49) 50) as Hub. lia.
Qed.

(** ** The two ways of building the lookup table *)

Lemma foldl_ext_in {A B} (f g : A → B → A) (l : list B) (a : A) :
  (∀ a b, b ∈ l → f a b = g a b) → foldl f a l = foldl g a l.
Proof.
  revert a. induction l as [|x l IH]; intros a H; [done|]. simpl.
  rewrite H by set_solver. apply IH. intros a' b Hb. apply H. set_solver.
Qed.

Lemma service_answers_flaky p names raw :
  aphiaRecordsByMatchNames (flaky_service p) names = Returns raw →
  (length raw ≤ length names)%nat.
Proof.
  simpl. case_bool_decide; [done|]. intros [= <-]. by rewrite length_map.
Qed.

(** X8 (sequential fallback).  When to every batch the service either
    raises or answers with no more lists than it was sent names, the
    sequential fallback builds the same lookup table as the parallel path:
    which of the two runs makes no difference to the result. *)
Theorem fallback_builds_same_table env (terms : list string) :
  (∀ b raw, b ∈ batch_data terms →
            aphiaRecordsByMatchNames env b.2 = Returns raw →
            (length raw ≤ length b.2)%nat) →
  sequential_lookup env terms = parallel_lookup env terms.
Proof.
  intros Hok. unfold sequential_lookup, parallel_lookup.
  change (map ?f ?l) with (f <$> l). rewrite foldl_fmap.
  apply foldl_ext_in. intros L b Hb. rewrite sequential_batch_union. f_equal.
  unfold sequential_batch, get_worms_batch_worker. destruct b as [n chunk].
  cbn [snd] in *.
  destruct (aphiaRecordsByMatchNames env chunk) as [raw|] eqn:Hraw; [|done].
  pose proof (record_matches_in_range chunk raw 0 ∅ (Hok _ _ Hb Hraw)) as Hret.
  by destruct (record_matches chunk 0 raw ∅) as [results [[]|]].
Qed.

Lemma fallback_builds_same_table_witness :
  (∀ b raw, b ∈ batch_data long_terms →
            aphiaRecordsByMatchNames (flaky_service true) b.2 = Returns raw →
            (length raw ≤ length b.2)%nat)
  ∧ sequential_lookup (flaky_service true) long_terms
    = parallel_lookup (flaky_service true) long_terms
  ∧ is_Some (sequential_lookup (flaky_service true) long_terms !! "Taw").
Proof.
  assert (Hok : ∀ b raw, b ∈ batch_data long_terms →
                  aphiaRecordsByMatchNames (flaky_service true) b.2 = Returns raw →
                  (length raw ≤ length b.2)%nat).
  { intros b raw _. apply service_answers_flaky. }
  split; [exact Hok|]. split.
  - exact (fallback_builds_same_table (flaky_service true) long_terms Hok).
  - apply (bool_decide_unpack _). vm_compute. exact I.
Defined.

(** ** What Stage 2 is given *)

Section Stage2Input.

Variable env : Env.
Variable params_dict : Params.

Lemma fast_record_None t :
  fast_record params_dict t = None
  ↔ is_unassigned_case t.1 = false ∧ is_simple_case t.1 = false.
Proof.
  unfold fast_record.
  destruct (is_unassigned_case t.1); [naive_solver|].
  destruct (is_simple_case t.1); naive_solver.
Qed.

Lemma stage1_record_None t :
  stage1_record env params_dict t = None
  ↔ ¬ ∃ species_name id record,
        (t.2 ∉ assays_to_skip_species params_dict)
        ∧ last (parse_semicolon_taxonomy (Some t.1)) = Some species_name
        ∧ pr2_dict params_dict !! species_name = Some id
        ∧ aphiaRecordByAphiaID env id = Returns (Some record)
        ∧ accepted record = true.
Proof.
  split.
  - intros Hnone (species_name & id & record & Hskip & Hl & Hid & Hrec & Hacc).
    rewrite (stage1_record_hit env params_dict t species_name id record) in Hnone;
      done.
  - intros Hno. destruct (stage1_record env params_dict t) as [r|] eqn:E; [|done].
    exfalso. apply Hno.
    apply stage1_record_Some in E as (species_name & id & record & ? & ? & ? & ? & ? & _).
    by exists species_name, id, record.
Qed.

Lemma elem_of_unique_tuples_inv df t :
  t ∈ unique_tuples df
  ↔ ∃ r, r ∈ df ∧ empty_verbatim_mask r = false
         ∧ verbatimIdentification r = Some t.1 ∧ assay_name r = t.2.
Proof.
  unfold unique_tuples, non_empty_keys.
  rewrite elem_of_drop_duplicates, list_elem_of_omap. split.
  - intros (r & Hr & Hk).
    destruct (map_key_of_cases r) as [[_ Hs]|(v & Hm & Hv & Hc)]; rewrite ?Hs, ?Hc in Hk;
      [done|]. injection Hk as <-. by exists r.
  - intros (r & Hr & Hm & Hv & Ha). exists r. split; [done|].
    unfold map_key_of. rewrite Hm, Hv, Ha. by destruct t.
Qed.

Lemma batch_lookup_keys (terms : list string) name :
  is_Some (build_batch_lookup env terms !! name) → name ∈ terms.
Proof.
  intros [found H]. rewrite build_batch_lookup_eq in H.
  apply foldl_union_entry in H as (m & Hm & Hname).
  apply list_elem_of_fmap in Hm as (b & -> & Hb).
  apply batch_entries_entry in Hname as [Hin _].
  apply elem_of_batches. by exists b.
Qed.

End Stage2Input.

(** X9 (what Stage 2 is given).  The keys handed to Stage 2 are exactly
    the pairs of a row whose value is neither an unassigned one nor the
    kingdom-only case and that Stage 1 did not resolve, that is, for which
    it is not so that the assay is not skipped, the local dictionary knows
    the last normalized term and the service returns an accepted record for
    its identifier.  The terms sent to the service are exactly the
    normalized terms of those keys (all of them, the last term of a full
    lineage of a skipping assay included), and every key of the lookup
    table is one of the terms sent. *)
Theorem stage2_input env params_dict df :
  (∀ t, t ∈ keys_for_batch env params_dict df
        ↔ (∃ r, r ∈ df ∧ verbatimIdentification r = Some t.1 ∧ assay_name r = t.2)
          ∧ is_unassigned_case t.1 = false
          ∧ is_simple_case t.1 = false
          ∧ ¬ ∃ species_name id record,
                (t.2 ∉ assays_to_skip_species params_dict)
                ∧ last (parse_semicolon_taxonomy (Some t.1)) = Some species_name
                ∧ pr2_dict params_dict !! species_name = Some id
                ∧ aphiaRecordByAphiaID env id = Returns (Some record)
                ∧ accepted record = true)
  ∧ (∀ term, term ∈ all_terms_to_match env (keys_for_batch env params_dict df)
             ↔ ∃ t, t ∈ keys_for_batch env params_dict df
                    ∧ term ∈ parse_semicolon_taxonomy (Some t.1))
  ∧ (∀ name, is_Some (batch_lookup_of env params_dict df !! name) →
             name ∈ all_terms_to_match env (keys_for_batch env params_dict df)).
Proof.
  split_and!.
  - intros t. unfold keys_for_batch, stage1_of.
    rewrite elem_of_stage1_unmatched, elem_of_keys_after_fast_path.
    rewrite elem_of_unique_tuples_inv, fast_record_None, stage1_record_None.
    split.
    + intros [[(r & Hr & _ & Hv & Ha) [Hu Hs]] Hno]. split_and!; [|done..].
      by exists r.
    + intros ((r & Hr & Hv & Ha) & Hu & Hs & Hno). split_and!; [|done..].
      exists r. split_and!; [done| |done..].
      destruct (empty_verbatim_mask r) eqn:Hm; [|done].
      rewrite (mask_unassigned_case r t.1 Hv Hm) in Hu. done.
  - intros term. apply elem_of_all_terms_to_match.
  - intros name. apply batch_lookup_keys.
Qed.

Lemma stage2_input_witness :
  ("Bacteria", "18S") ∈ keys_for_batch sample_service sample_params sample_table
  ∧ (is_unassigned_case "Bacteria" = false ∧ is_simple_case "Bacteria" = false)
  ∧ ¬ (∃ species_name id record,
         ("18S" ∉ assays_to_skip_species sample_params)
         ∧ last (parse_semicolon_taxonomy (Some "Bacteria")) = Some species_name
         ∧ pr2_dict sample_params !! species_name = Some id
         ∧ aphiaRecordByAphiaID sample_service id = Returns (Some record)
         ∧ accepted record = true).
Proof.
  destruct (stage2_input sample_service sample_params sample_table) as (Hkeys & _).
  assert (Hno : ¬ (∃ species_name id record,
                     ("18S" ∉ assays_to_skip_species sample_params)
                     ∧ last (parse_semicolon_taxonomy (Some "Bacteria"))
                       = Some species_name
                     ∧ pr2_dict sample_params !! species_name = Some id
                     ∧ aphiaRecordByAphiaID sample_service id = Returns (Some record)
                     ∧ accepted record = true)).
  { intros (species_name & id & record & _ & Hl & Hid & Hrec & _).
    vm_compute in Hl. injection Hl as <-.
    vm_compute in Hid. injection Hid as <-. discriminate Hrec. }
  split; [|split; [split; vm_compute; reflexivity|exact Hno]].
  apply (Hkeys ("Bacteria", "18S")). split_and!.
  - exists (sample_row (Some "Bacteria") "18S"). split_and!; [|reflexivity..].
    apply (list_elem_of_lookup_2 _ 8%nat). reflexivity.
  - vm_compute. reflexivity.
  - vm_compute. reflexivity.
  - exact Hno.
Defined.

(** ** The calls of the remote service *)

Section Frame.

Variable env : Env.
Variable params_dict : Params.
Variable by_id : Z → py_result (option pydict).
Variable by_names : list string → py_result (list (list (option pydict))).

Hypothesis by_id_agrees :
  ∀ name id, pr2_dict params_dict !! name = Some id →
             by_id id = aphiaRecordByAphiaID env id.
Hypothesis by_names_agrees :
  ∀ names, (0 < length names ≤ 50)%nat → NoDup names →
           by_names names = aphiaRecordsByMatchNames env names.

Local Abbreviation env' := (with_service env by_id by_names).

Lemma stage1_frame c l :
  stage1 env' params_dict c l = stage1 env params_dict c l.
Proof.
  unfold stage1. case_bool_decide; [|done]. f_equal. f_equal.
  change (map ?f ?l) with (f <$> l). apply list_fmap_ext. intros i id Hid.
  apply list_elem_of_lookup_2, prematch_keys in Hid as (t & _ & Ht).
  unfold prematch_id in Ht. case_bool_decide; [done|].
  destruct (last (parse_semicolon_taxonomy (Some t.1))) as [species_name|]; [|done].
  cbn [mbind option_bind] in Ht.
  unfold get_worms_classification_by_id_worker. cbn [aphiaRecordByAphiaID with_service].
  by rewrite (by_id_agrees species_name id Ht).
Qed.

Lemma all_terms_frame u :
  all_terms_to_match env' u = all_terms_to_match env u.
Proof. reflexivity. Qed.

Lemma NoDup_chunk (terms : list string) b :
  NoDup terms → b ∈ batch_data terms → NoDup b.2.
Proof.
  intros Hnd Hb. apply list_elem_of_lookup in Hb as [i Hb].
  apply batch_data_lookup in Hb as ->. cbn [snd].
  apply (sublist_NoDup _ terms); [exact Hnd|].
  etrans; [apply sublist_take|apply sublist_drop].
Qed.

Lemma build_batch_lookup_frame (terms : list string) :
  NoDup terms →
  build_batch_lookup env' terms = build_batch_lookup env terms.
Proof.
  intros Hnd. rewrite !build_batch_lookup_eq. f_equal.
  change (map ?f ?l) with (f <$> l). apply list_fmap_ext. intros i b Hb.
  apply list_elem_of_lookup_2 in Hb.
  pose proof (batch_data_chunk terms b Hb) as Hlen.
  pose proof (NoDup_chunk terms b Hnd Hb) as Hnd'.
  unfold batch_entries, sequential_batch, get_worms_batch_worker.
  destruct b as [n chunk].
  cbn [aphiaRecordsByMatchNames pool_map_raises with_service snd] in *.
  by rewrite (by_names_agrees chunk Hlen Hnd').
Qed.

Lemma stage2_frame c u :
  stage2 env' params_dict c u = stage2 env params_dict c u.
Proof.
  unfold stage2. destruct u as [|t u]; [done|].
  rewrite all_terms_frame.
  by rewrite build_batch_lookup_frame by apply NoDup_all_terms_to_match.
Qed.

Lemma final_cache_frame df :
  final_cache env' params_dict df = final_cache env params_dict df.
Proof.
  unfold final_cache, stage2_of, cache_after_stage1, keys_for_batch, stage1_of.
  by rewrite stage1_frame, stage2_frame.
Qed.

End Frame.

(** X10 (calls of the remote service).  The result of a run depends on
    the remote service only through its answers for the identifiers that
    are values of the local dictionary and for lists of one to fifty
    names without a repeated name: a service that agrees with it on those
    gives the same table.  So no identifier outside the dictionary is ever
    fetched, and no batch is empty, longer than fifty names or names a term
    twice. *)
Theorem service_calls_frame env params_dict by_id by_names df :
  (∀ name id, pr2_dict params_dict !! name = Some id →
              by_id id = aphiaRecordByAphiaID env id) →
  (∀ names, (0 < length names ≤ 50)%nat → NoDup names →
            by_names names = aphiaRecordsByMatchNames env names) →
  get_worms_match_for_dataframe (with_service env by_id by_names) params_dict df
  = get_worms_match_for_dataframe env params_dict df.
Proof.
  intros Hid Hnames. unfold get_worms_match_for_dataframe.
  by rewrite (final_cache_frame env params_dict by_id by_names Hid Hnames).
Qed.

Lemma service_calls_frame_witness :
  (∀ name id, pr2_dict sample_params !! name = Some id →
              narrow_by_id id = aphiaRecordByAphiaID sample_service id)
  ∧ (∀ names, (0 < length names ≤ 50)%nat → NoDup names →
              narrow_by_names names = aphiaRecordsByMatchNames sample_service names)
  ∧ narrow_by_id 7 = Raises
  ∧ narrow_by_names [] = Raises
  ∧ get_worms_match_for_dataframe
      (with_service sample_service narrow_by_id narrow_by_names)
      sample_params sample_table
    = get_worms_match_for_dataframe sample_service sample_params sample_table.
Proof.
  assert (Hid : ∀ name id, pr2_dict sample_params !! name = Some id →
                  narrow_by_id id = aphiaRecordByAphiaID sample_service id).
  { intros name id H. unfold narrow_by_id. rewrite bool_decide_eq_true_2; [done|].
    unfold pr2_dict in H. simpl in H.
    apply lookup_insert_Some in H as [[_ <-]|[_ H]]; [by left|].
    apply lookup_insert_Some in H as [[_ <-]|[_ H]]; [by right|].
    by rewrite lookup_empty in H. }
  assert (Hnames : ∀ names, (0 < length names ≤ 50)%nat → NoDup names →
                     narrow_by_names names
                     = aphiaRecordsByMatchNames sample_service names).
  { intros names Hlen _. unfold narrow_by_names.
    by rewrite bool_decide_eq_true_2. }
  split; [exact Hid|]. split; [exact Hnames|].
  split; [reflexivity|]. split; [reflexivity|].
  exact (service_calls_frame sample_service sample_params narrow_by_id narrow_by_names
           sample_table Hid Hnames).
Defined.

(** ** Rows without an assignment *)

(** X11 (unassigned rows).  A row whose value is missing, or whose cleaned
    value (trimmed, freed of trailing semicolons, trimmed) is empty or, in
    any letter case, one of "unassigned", "nan", "none", gets the name and
    identifier of incertae sedis and no rank.  Where the trimmed value
    itself is empty or "unassigned" the row has the shared key, the label
    incertae_sedis_truly_empty_fallback and an empty [cleanedTaxonomy];
    every value the mask catches is one of these rows.  Otherwise the row
    has a key of its own, the label incertae_sedis_unassigned and its
    cleaned value as [cleanedTaxonomy]. *)
Theorem unassigned_rows env params_dict df i r :
  df !! i = Some r →
  (verbatimIdentification r = None
   ∨ ∃ v, verbatimIdentification r = Some v ∧ is_unassigned_case v = true) →
  (∀ v, verbatimIdentification r = Some v → empty_verbatim_mask r = true →
        is_unassigned_case v = true ∧ cleaned_verbatim v = PyStr.strip v)
  ∧ ∃ out r',
      get_worms_match_for_dataframe env params_dict df = Returns out
      ∧ out !! i = Some r'
      ∧ incertae_sedis_columns (columns r')
      ∧ (empty_verbatim_mask r = true →
         map_key_of r = IS_TRULY_EMPTY
         ∧ columns r' !! "match_type_debug"
           = Some (Some "incertae_sedis_truly_empty_fallback")
         ∧ columns r' !! "cleanedTaxonomy" = Some (Some ""))
      ∧ (empty_verbatim_mask r = false →
         ∃ v, verbatimIdentification r = Some v
              ∧ map_key_of r = Combo (v, assay_name r)
              ∧ columns r' !! "match_type_debug"
                = Some (Some "incertae_sedis_unassigned")
              ∧ columns r' !! "cleanedTaxonomy" = Some (Some (cleaned_verbatim v))).
Proof.
  intros Hi Hcase. split.
  { intros v Hv Hm. split; [by eapply mask_unassigned_case|].
    unfold empty_verbatim_mask in Hm. rewrite Hv in Hm.
    apply orb_true_iff in Hm as [Hm|Hm]; apply String.eqb_eq in Hm.
    - by rewrite strip_blank_cleaned, Hm.
    - by apply strip_unassigned_cleaned. }
  destruct (get_worms_match_rows env params_dict df) as (out & Hrun & _ & Hrows).
  destruct (Hrows i r Hi) as (r' & record & Hout & Hrec & _ & _ & Hcols).
  assert (∀ col x, col ≠ "_map_key" → record !! col = Some x →
                   columns r' !! col = Some x) as Hget.
  { intros col x Hne Hx. rewrite Hcols; [done|done|]. rewrite Hx. eauto. }
  exists out, r'. split; [done|]. split; [done|].
  destruct (map_key_of_cases r) as [[Hm Hk]|(v & Hm & Hv & Hk)]; rewrite Hk in Hrec.
  - rewrite final_cache_sentinel in Hrec. injection Hrec as <-.
    split_and!.
    + eapply incertae_sedis_columns_transfer; [exact Hget|].
      apply incertae_sedis_is_incertae.
    + intros _. split_and!; [done|..].
      * apply Hget; [done|apply incertae_sedis_debug].
      * apply Hget; [done|apply incertae_sedis_cleaned].
    + intros Hm'. congruence.
  - assert (is_unassigned_case v = true) as Hu.
    { destruct Hcase as [Hnone|(v' & Hv' & Hu)]; [congruence|]. congruence. }
    rewrite final_cache_lookup in Hrec.
    2:{ eapply elem_of_unique_tuples; [|done]. by eapply list_elem_of_lookup_2. }
    injection Hrec as <-.
    assert (resolve env params_dict (batch_lookup_of env params_dict df)
                    (v, assay_name r)
            = incertae_sedis params_dict "incertae_sedis_unassigned"
                             (cleaned_verbatim v)) as Hres.
    { apply resolve_fast. unfold fast_record. cbn [fst]. by rewrite Hu. }
    rewrite Hres in Hget. split_and!.
    + eapply incertae_sedis_columns_transfer; [exact Hget|].
      apply incertae_sedis_is_incertae.
    + intros Hm'. congruence.
    + intros _. exists v. split_and!; [done|done|..].
      * apply Hget; [done|apply incertae_sedis_debug].
      * apply Hget; [done|apply incertae_sedis_cleaned].
Qed.

Lemma unassigned_rows_witness :
  sample_table !! 2%nat = Some (sample_row (Some "unassigned;") "16S")
  ∧ is_unassigned_case "unassigned;" = true
  ∧ empty_verbatim_mask (sample_row (Some "unassigned;") "16S") = false
  ∧ ∃ out r',
      get_worms_match_for_dataframe sample_service sample_params sample_table
      = Returns out
      ∧ out !! 2%nat = Some r'
      ∧ incertae_sedis_columns (columns r')
      ∧ columns r' !! "cleanedTaxonomy" = Some (Some "unassigned").
Proof.
  assert (Hu : is_unassigned_case "unassigned;" = true) by (vm_compute; reflexivity).
  split; [reflexivity|]. split; [exact Hu|]. split; [reflexivity|].
  destruct (unassigned_rows sample_service sample_params sample_table 2
              (sample_row (Some "unassigned;") "16S") eq_refl
              (or_intror (ex_intro _ "unassigned;" (conj eq_refl Hu))))
    as (_ & out & r' & Hrun & Hout & Hinc & _ & Hown).
  destruct (Hown eq_refl) as (v & Hv & _ & _ & Hcl).
  injection Hv as <-.
  exists out, r'. split_and!; [exact Hrun|exact Hout|exact Hinc|exact Hcl].
Defined.

(** ** Tables that need no service *)

Section Offline.

Variable params_dict : Params.

Lemma stage1_no_keys env c :
  stage1 env params_dict c []
  = (c, [], {| aphia_id_map := []; unmatched_tuples := []; pr2_lookups := [] |}).
Proof. unfold stage1. by case_bool_decide. Qed.

Lemma keys_after_fast_path_nil df :
  (∀ r v, r ∈ df → verbatimIdentification r = Some v →
          is_unassigned_case v = true ∨ is_simple_case v = true) →
  keys_after_fast_path params_dict df = [].
Proof.
  intros Hall. apply elem_of_nil_inv. intros t Ht.
  apply elem_of_keys_after_fast_path in Ht as [Ht Hfast].
  apply elem_of_unique_tuples_inv in Ht as (r & Hr & _ & Hv & _).
  apply fast_record_None in Hfast as [Hu Hs].
  destruct (Hall r t.1 Hr Hv); congruence.
Qed.

Lemma final_cache_offline env df :
  keys_after_fast_path params_dict df = [] →
  keys_for_batch env params_dict df = []
  ∧ identifier_groups env params_dict df = []
  ∧ final_cache env params_dict df
    = <[ IS_TRULY_EMPTY :=
           incertae_sedis params_dict "incertae_sedis_truly_empty_fallback" "" ]>
      (cache_after_fast_path params_dict df).
Proof.
  intros Hnil.
  unfold final_cache, stage2_of, cache_after_stage1, keys_for_batch,
    identifier_groups, stage1_of.
  rewrite Hnil, stage1_no_keys. done.
Qed.

End Offline.

(** X12 (tables that need no service).  When every row with a value is an
    unassigned case or the kingdom-only case, no key reaches Stage 1 or
    Stage 2: no identifier is fetched, no term is sent, and the table
    returned is the same whatever the remote service, the process pool and
    the order of sets do. *)
Theorem offline_table env env' params_dict df :
  (∀ r v, r ∈ df → verbatimIdentification r = Some v →
          is_unassigned_case v = true ∨ is_simple_case v = true) →
  identifier_groups env params_dict df = []
  ∧ keys_for_batch env params_dict df = []
  ∧ all_terms_to_match env (keys_for_batch env params_dict df) = []
  ∧ get_worms_match_for_dataframe env params_dict df
    = get_worms_match_for_dataframe env' params_dict df.
Proof.
  intros Hall. pose proof (keys_after_fast_path_nil params_dict df Hall) as Hnil.
  destruct (final_cache_offline params_dict env df Hnil) as (Hk & Hg & Hc).
  destruct (final_cache_offline params_dict env' df Hnil) as (_ & _ & Hc').
  split_and!; [done|done|by rewrite Hk|].
  unfold get_worms_match_for_dataframe. by rewrite Hc, Hc'.
Qed.

Lemma offline_table_witness :
  (∀ r v, r ∈ offline_sample → verbatimIdentification r = Some v →
          is_unassigned_case v = true ∨ is_simple_case v = true)
  ∧ get_worms_match_for_dataframe sample_service sample_params offline_sample
    = get_worms_match_for_dataframe (flaky_service true) sample_params offline_sample.
Proof.
  assert (Hall : ∀ r v, r ∈ offline_sample → verbatimIdentification r = Some v →
                   is_unassigned_case v = true ∨ is_simple_case v = true).
  { intros r v Hr Hv. unfold offline_sample in Hr.
    repeat (apply elem_of_cons in Hr as [->|Hr]); simpl in Hv.
    - discriminate Hv.
    - injection Hv as <-. right. vm_compute. reflexivity.
    - injection Hv as <-. left. vm_compute. reflexivity.
    - injection Hv as <-. left. vm_compute. reflexivity.
    - by apply elem_of_nil in Hr. }
  split; [exact Hall|].
  exact (proj2 (proj2 (proj2 (offline_table sample_service (flaky_service true)
                                sample_params offline_sample Hall)))).
Defined.

(** ** The terms the normalizer returns *)

Section Terms.

Lemma all_chars_and p q s :
  all_chars (λ c, p c && q c) s = all_chars p s && all_chars q s.
Proof.
  induction s as [|c r IH]; [done|]. simpl. rewrite IH.
  destruct (p c), (q c), (all_chars p r), (all_chars q r); done.
Qed.

Lemma all_chars_collapse q in_run s :
  q " "%char = true → all_chars q s = true →
  all_chars q (PyStr.collapse_go in_run s) = true.
Proof.
  intros Hsp. revert in_run. induction s as [|c r IH]; intros in_run; [done|].
  cbn [all_chars PyStr.collapse_go]. intros [Hc Hr]%andb_true_iff.
  destruct (PyStr.isspace c).
  - destruct in_run; [by apply IH|]. cbn [all_chars]. by rewrite Hsp, IH.
  - cbn [all_chars]. by rewrite Hc, IH.
Qed.

Lemma all_chars_map_image q f s :
  (∀ c, q (f c) = true) → all_chars q (map_chars f s) = true.
Proof. intros Hq. induction s as [|c r IH]; [done|]. simpl. by rewrite Hq, IH. Qed.

Lemma split_pieces sep s :
  Forall (λ p, all_chars (λ c, negb (Ascii.eqb c sep)) p = true) (PyStr.split sep s).
Proof.
  induction s as [|c r IH]; [by repeat constructor|]. simpl.
  destruct (Ascii.eqb c sep) eqn:Hc.
  - by constructor.
  - destruct (PyStr.split sep r) as [|p ps].
    + repeat constructor. simpl. by rewrite Hc.
    + apply Forall_cons in IH as [Hp Hps]. constructor; [|done].
      simpl. by rewrite Hc, Hp.
Qed.

Lemma remove_chars_none p s :
  all_chars (λ c, negb (p c)) (PyStr.remove_chars p s) = true.
Proof.
  induction s as [|c r IH]; [done|]. simpl.
  destruct (p c) eqn:Hc; [done|]. simpl. by rewrite Hc, IH.
Qed.

Lemma rstrip_by_idem p s :
  PyStr.rstrip_by p (PyStr.rstrip_by p s) = PyStr.rstrip_by p s.
Proof.
  induction s as [|c r IH]; [done|]. cbn [PyStr.rstrip_by].
  destruct (negb (PyStr.nonempty (PyStr.rstrip_by p r)) && p c) eqn:E; [done|].
  cbn [PyStr.rstrip_by]. by rewrite IH, E.
Qed.

Lemma lstrip_by_rstrip p s :
  PyStr.lstrip_by p (PyStr.rstrip_by p (PyStr.lstrip_by p s))
  = PyStr.rstrip_by p (PyStr.lstrip_by p s).
Proof.
  destruct (PyStr.lstrip_by p s) as [|c r] eqn:E; [done|].
  pose proof (lstrip_by_head p s c r E) as Hc.
  cbn [PyStr.rstrip_by]. rewrite Hc, andb_false_r. simpl. by rewrite Hc.
Qed.

Lemma strip_idem s : PyStr.strip (PyStr.strip s) = PyStr.strip s.
Proof. unfold PyStr.strip. by rewrite lstrip_by_rstrip, rstrip_by_idem. Qed.

Lemma collapse_if_chars q token :
  q " "%char = true → all_chars q token = true →
  all_chars q (collapse_if_double_space token) = true.
Proof.
  intros Hsp Hq. unfold collapse_if_double_space.
  destruct (PyStr.contains "  " token); [|done].
  by apply all_chars_collapse.
Qed.

Lemma clean_name_chars q name token :
  q " "%char = true → all_chars q name = true →
  clean_name name = Some token → all_chars q token = true.
Proof.
  intros Hsp Hq. rewrite clean_name_eq. unfold normalize_token.
  destruct (_ || _); [done|]. case_bool_decide; [done|]. intros [= <-].
  apply all_chars_strip, collapse_if_chars; [done|].
  apply all_chars_remove. unfold PyStr.replace.
  by apply all_chars_replace_go, all_chars_replace_go, all_chars_strip.
Qed.

Lemma clean_name_no_digit name token :
  clean_name name = Some token →
  all_chars (λ c, negb (PyStr.re_digit c)) token = true.
Proof.
  rewrite clean_name_eq. unfold normalize_token.
  destruct (_ || _); [done|]. case_bool_decide; [done|]. intros [= <-].
  apply all_chars_strip, collapse_if_chars; [done|]. apply remove_chars_none.
Qed.

Lemma clean_name_trimmed name token :
  clean_name name = Some token → PyStr.strip token = token.
Proof.
  rewrite clean_name_eq. unfold normalize_token.
  destruct (_ || _); [done|]. case_bool_decide; [done|]. intros [= <-].
  apply strip_idem.
Qed.

Lemma not_separator_image c :
  negb (bool_decide (separator_to_space c ∈ ["_"; "-"; "/"]%char)) = true.
Proof. destruct c as [[] [] [] [] [] [] [] []]; done. Qed.

Lemma term_char_spec c :
  term_char c
  = negb (Ascii.eqb c ";") && negb (bool_decide (c ∈ ["_"; "-"; "/"]%char))
    && negb (PyStr.re_digit c).
Proof. destruct c as [[] [] [] [] [] [] [] []]; done. Qed.

Lemma all_chars_ext p q s :
  (∀ c, p c = q c) → all_chars p s = all_chars q s.
Proof. intros H. induction s as [|c r IH]; [done|]. simpl. by rewrite H, IH. Qed.

Lemma parse_pieces s term :
  term ∈ parse_semicolon_taxonomy (Some s) →
  ∃ piece, piece ∈ PyStr.split ";" (map_chars separator_to_space s)
           ∧ clean_name piece = Some term.
Proof.
  unfold parse_semicolon_taxonomy. destruct (negb _); [by intros ?%elem_of_nil|].
  rewrite replace_separators, foldl_append_some. simpl.
  intros Hin. by apply list_elem_of_omap in Hin.
Qed.

Lemma parse_term_chars s term :
  term ∈ parse_semicolon_taxonomy (Some s) →
  all_chars term_char term = true ∧ PyStr.strip term = term.
Proof.
  intros (piece & Hpiece & Hclean)%parse_pieces.
  split; [|by eapply clean_name_trimmed].
  rewrite (all_chars_ext _ _ _ term_char_spec), !all_chars_and.
  apply andb_true_iff. split; [apply andb_true_iff; split|].
  - eapply (clean_name_chars _ piece); [done| |done].
    pose proof (split_pieces ";" (map_chars separator_to_space s)) as Hall.
    rewrite Forall_forall in Hall. by apply Hall.
  - eapply (clean_name_chars _ piece); [done| |done].
    pose proof (all_chars_split
                  (λ c, negb (bool_decide (c ∈ ["_"; "-"; "/"]%char))) ";" _
                  (all_chars_map_image _ separator_to_space s not_separator_image))
      as Hall.
    rewrite Forall_forall in Hall. by apply Hall.
  - by eapply clean_name_no_digit.
Qed.

Lemma length_split sep s :
  length (PyStr.split sep s) = S (count_char sep s).
Proof.
  induction s as [|c r IH]; [done|]. simpl.
  destruct (Ascii.eqb c sep); simpl; [by rewrite IH|].
  revert IH. by destruct (PyStr.split sep r).
Qed.

Lemma separator_to_space_semicolon c :
  Ascii.eqb (separator_to_space c) ";" = Ascii.eqb c ";".
Proof. destruct c as [[] [] [] [] [] [] [] []]; done. Qed.

Lemma count_semicolons_map s :
  count_char ";" (map_chars separator_to_space s) = count_char ";" s.
Proof.
  induction s as [|c r IH]; [done|]. simpl.
  by rewrite separator_to_space_semicolon, IH.
Qed.

Lemma length_omap_le {A B} (f : A → option B) l :
  (length (omap f l) ≤ length l)%nat.
Proof.
  induction l as [|x l IH]; [done|]. cbn [omap list_omap length].
  destruct (f x); cbn [length]; fold (omap f l); lia.
Qed.

Lemma parse_length s :
  (length (parse_semicolon_taxonomy (Some s)) ≤ S (count_char ";" s))%nat.
Proof.
  unfold parse_semicolon_taxonomy. destruct (negb _); [simpl; lia|].
  rewrite replace_separators, foldl_append_some. simpl.
  etrans; [apply length_omap_le|]. by rewrite length_split, count_semicolons_map.
Qed.

End Terms.

(** X13 (normalized terms).  Whatever the input, no term the normalizer
    returns holds a semicolon, an underscore, a hyphen, a slash or a
    decimal digit, and none begins or ends with whitespace; the terms are
    at most one more than the semicolons of the input; a missing value
    gives no term. *)
Theorem normalized_terms :
  (∀ s term, term ∈ parse_semicolon_taxonomy (Some s) →
             all_chars term_char term = true ∧ PyStr.strip term = term)
  ∧ (∀ s, (length (parse_semicolon_taxonomy (Some s)) ≤ S (count_char ";" s))%nat)
  ∧ parse_semicolon_taxonomy None = [].
Proof.
  split_and!.
  - apply parse_term_chars.
  - apply parse_length.
  - reflexivity.
Qed.

Lemma normalized_terms_witness :
  "Homo sapiens" ∈ parse_semicolon_taxonomy (Some " Homo_sapiens2 ; x;")
  ∧ all_chars term_char "Homo sapiens" = true
  ∧ PyStr.strip "Homo sapiens" = "Homo sapiens"
  ∧ (length (parse_semicolon_taxonomy (Some " Homo_sapiens2 ; x;")) ≤ 3)%nat.
Proof.
  assert (Hin : "Homo sapiens" ∈ parse_semicolon_taxonomy (Some " Homo_sapiens2 ; x;")).
  { apply (bool_decide_unpack _). vm_compute. exact I. }
  destruct normalized_terms as (Hchars & Hlen & _).
  destruct (Hchars _ _ Hin) as [Hc Ht].
  split; [exact Hin|]. split; [exact Hc|]. split; [exact Ht|].
  exact (Hlen " Homo_sapiens2 ; x;").
Defined.

(** ** Inputs that leave no term *)

Section Filler.

Lemma all_chars_map_impl p q f s :
  (∀ c, p c = true → q (f c) = true) →
  all_chars p s = true → all_chars q (map_chars f s) = true.
Proof.
  intros Hf. induction s as [|c r IH]; [done|]. simpl.
  intros [Hc Hr]%andb_true_iff. by rewrite (Hf c Hc), IH.
Qed.

Lemma filler_image c :
  filler_char c = true →
  PyStr.isspace (separator_to_space c) || PyStr.re_digit (separator_to_space c)
  || Ascii.eqb (separator_to_space c) ";" = true.
Proof. destruct c as [[] [] [] [] [] [] [] []]; done. Qed.

Lemma remove_digits_blank s :
  all_chars (λ c, PyStr.isspace c || PyStr.re_digit c) s = true →
  all_chars PyStr.isspace (PyStr.remove_chars PyStr.re_digit s) = true.
Proof.
  induction s as [|c r IH]; [done|]. simpl. intros [Hc Hr]%andb_true_iff.
  destruct (PyStr.re_digit c) eqn:Hd; [by apply IH|].
  rewrite orb_false_r in Hc. simpl. by rewrite Hc, IH.
Qed.

Lemma strip_all_space w : all_chars PyStr.isspace w = true → PyStr.strip w = "".
Proof. intros H. unfold PyStr.strip. by rewrite lstrip_by_all. Qed.

Lemma strip_blank_all s : PyStr.strip s = "" → all_chars PyStr.isspace s = true.
Proof.
  unfold PyStr.strip. intros H.
  destruct (lstrip_by_decompose PyStr.isspace s) as (w & Hs & Hw).
  destruct (rstrip_by_decompose PyStr.isspace (PyStr.lstrip_by PyStr.isspace s))
    as (w' & Hl & Hw').
  rewrite H, append_nil_l in Hl. rewrite Hl in Hs. rewrite Hs, all_chars_app.
  by rewrite Hw, Hw'.
Qed.

(** A piece of whitespace and digits gives no term. *)
Lemma clean_name_filler piece :
  all_chars (λ c, PyStr.isspace c || PyStr.re_digit c) piece = true →
  clean_name piece = None.
Proof.
  intros Hq. rewrite clean_name_eq. unfold normalize_token.
  destruct (_ || _); [done|].
  assert (PyStr.strip
            (collapse_if_double_space
               (PyStr.remove_chars PyStr.re_digit
                  (PyStr.replace " spp." ""
                     (PyStr.replace " sp." "" (PyStr.strip piece))))) = "") as ->.
  { apply strip_all_space, collapse_if_chars; [done|].
    apply remove_digits_blank. unfold PyStr.replace.
    by apply all_chars_replace_go, all_chars_replace_go, all_chars_strip. }
  done.
Qed.

Lemma omap_none {A B} (f : A → option B) l :
  Forall (λ x, f x = None) l → omap f l = [].
Proof.
  induction 1 as [|x l Hx _ IH]; [done|]. cbn [omap list_omap].
  rewrite Hx. exact IH.
Qed.

End Filler.

(** X14 (inputs that leave no term).  An input made only of whitespace,
    decimal digits, semicolons, underscores, hyphens and slashes gives no
    term at all. *)
Theorem no_term_from_filler s :
  all_chars filler_char s = true → parse_semicolon_taxonomy (Some s) = [].
Proof.
  intros Hs. unfold parse_semicolon_taxonomy. destruct (negb _); [done|].
  rewrite replace_separators, foldl_append_some. simpl.
  apply omap_none, Forall_forall. intros piece Hpiece.
  apply clean_name_filler.
  pose proof (all_chars_split _ ";" _
                (all_chars_map_impl filler_char
                   (λ c, PyStr.isspace c || PyStr.re_digit c || Ascii.eqb c ";")
                   separator_to_space s filler_image Hs)) as H1.
  pose proof (split_pieces ";" (map_chars separator_to_space s)) as H2.
  rewrite Forall_forall in H1, H2.
  specialize (H1 piece Hpiece). specialize (H2 piece Hpiece). simpl in H1, H2.
  clear -H1 H2. induction piece as [|c r IH]; [done|]. simpl in *.
  apply andb_true_iff in H1 as [Hc1 Hr1]. apply andb_true_iff in H2 as [Hc2 Hr2].
  rewrite IH by done. apply negb_true_iff in Hc2. rewrite Hc2, orb_false_r in Hc1.
  by rewrite Hc1.
Qed.

Lemma no_term_from_filler_witness :
  all_chars filler_char "12; 3_4 ;-/ 2024" = true
  ∧ parse_semicolon_taxonomy (Some "12; 3_4 ;-/ 2024") = [].
Proof.
  split; [reflexivity|].
  exact (no_term_from_filler "12; 3_4 ;-/ 2024" eq_refl).
Defined.

(** ** Separators and spaces *)

Section Separators.

Lemma separator_to_space_idem c :
  separator_to_space (separator_to_space c) = separator_to_space c.
Proof. destruct c as [[] [] [] [] [] [] [] []]; done. Qed.

Lemma map_separators_idem s :
  map_chars separator_to_space (map_chars separator_to_space s)
  = map_chars separator_to_space s.
Proof.
  rewrite map_chars_compose. apply map_chars_ext, separator_to_space_idem.
Qed.

Lemma map_separators_blank s :
  all_chars PyStr.isspace s = true → map_chars separator_to_space s = s.
Proof.
  intros H. apply map_chars_fixed.
  eapply all_chars_impl; [|exact H]. apply isspace_fixed.
Qed.

Lemma normalize_blank_image collapse s :
  PyStr.strip (map_chars separator_to_space s) = "" →
  omap (normalize_token collapse)
       (PyStr.split ";" (map_chars separator_to_space s)) = [].
Proof.
  intros Hb. pose proof (strip_blank_all _ Hb) as Hall.
  rewrite split_nosep.
  - cbn [omap list_omap]. unfold normalize_token. by rewrite Hb.
  - eapply all_chars_impl; [|exact Hall]. intros c Hc.
    pose proof (isspace_not_semicolon c Hc) as Hn. by rewrite Hn.
Qed.

Lemma normalize_separators collapse s :
  normalize_with collapse (Some (map_chars separator_to_space s))
  = normalize_with collapse (Some s).
Proof.
  unfold normalize_with. rewrite map_separators_idem.
  destruct (decide (PyStr.strip s = "")) as [Hs|Hs].
  - rewrite map_separators_blank by (by apply strip_blank_all).
    by rewrite !bool_decide_eq_true_2.
  - rewrite (bool_decide_eq_false_2 _ Hs). case_bool_decide as Hb; [|done].
    symmetry. by apply normalize_blank_image.
Qed.

End Separators.

(** X15 (separators and spaces).  Underscores, hyphens and slashes count
    as spaces: replacing each of them by a space in the input does not
    change the terms returned. *)
Theorem separators_count_as_spaces s :
  parse_semicolon_taxonomy (Some (map_chars separator_to_space s))
  = parse_semicolon_taxonomy (Some s)
  ∧ map_chars separator_to_space "Homo_sapiens/x-y; a b" = "Homo sapiens x y; a b".
Proof.
  split; [|reflexivity].
  rewrite !parse_semicolon_taxonomy_eq. apply normalize_separators.
Qed.

(** ** The fallback finds what the parallel path finds *)

Section FallbackKeeps.

Variable env : Env.

Lemma worker_within_sequential b name found :
  (get_worms_batch_worker env b).2 !! name = Some found →
  sequential_batch env ∅ b !! name = Some found.
Proof.
  unfold get_worms_batch_worker, sequential_batch. destruct b as [n chunk].
  cbn [snd]. destruct (aphiaRecordsByMatchNames env chunk) as [raw|]; [|done].
  by destruct (record_matches chunk 0 raw ∅) as [results [[]|]].
Qed.

Lemma sequential_batch_keys b name found :
  sequential_batch env ∅ b !! name = Some found → name ∈ b.2.
Proof.
  unfold sequential_batch.
  destruct (aphiaRecordsByMatchNames env b.2) as [raw|]; [|by rewrite lookup_empty].
  intros H. apply record_matches_entry in H as [H|[Hin _]]; [|done].
  by rewrite lookup_empty in H.
Qed.

Lemma sequential_lookup_eq (terms : list string) :
  sequential_lookup env terms
  = foldl (λ batch_lookup entries, entries ∪ batch_lookup) ∅
          (sequential_batch env ∅ <$> batch_data terms).
Proof.
  unfold sequential_lookup. rewrite foldl_fmap.
  apply foldl_ext. intros L b. apply sequential_batch_union.
Qed.

Lemma parallel_lookup_eq (terms : list string) :
  parallel_lookup env terms
  = foldl (λ batch_lookup entries, entries ∪ batch_lookup) ∅
          ((λ b, (get_worms_batch_worker env b).2) <$> batch_data terms).
Proof.
  unfold parallel_lookup. change (map ?f ?l) with (f <$> l).
  by rewrite !foldl_fmap.
Qed.

End FallbackKeeps.

(** X16 (the fallback keeps more).  On a list of distinct terms, every
    entry of the lookup table the parallel path builds is an entry of the
    table the sequential fallback builds.  The converse fails: when the
    service answers with more lists than names, the worker of the parallel
    path gives up the whole batch, while the fallback keeps the entries
    written before the surplus answer. *)
Theorem fallback_keeps_more env (terms : list string) :
  NoDup terms →
  (∀ name found,
     parallel_lookup env terms !! name = Some found →
     sequential_lookup env terms !! name = Some found)
  ∧ parallel_lookup overlong_service ["Aa"] = ∅
  ∧ sequential_lookup overlong_service ["Aa"] !! "Aa"
    = Some (batch_record metazoa_record).
Proof.
  intros Hnd. split; [|split; vm_compute; reflexivity].
  intros name found H. rewrite parallel_lookup_eq in H.
  apply foldl_union_entry in H as (m & Hm & Hname).
  apply list_elem_of_lookup in Hm as [i Hi].
  apply list_lookup_fmap_Some in Hi as (b & -> & Hb).
  rewrite sequential_lookup_eq.
  apply (foldl_union_lookup _ i (sequential_batch env ∅ b)).
  - by rewrite list_lookup_fmap, Hb.
  - by apply worker_within_sequential.
  - intros j m' Hij Hm'.
    apply list_lookup_fmap_Some in Hm' as (b' & -> & Hb').
    destruct (sequential_batch env ∅ b' !! name) as [found'|] eqn:E; [|done].
    exfalso. apply sequential_batch_keys in E.
    apply worker_within_sequential, sequential_batch_keys in Hname.
    by eapply (batch_chunks_disjoint terms i j).
Qed.

Lemma fallback_keeps_more_witness :
  NoDup long_terms
  ∧ parallel_lookup (flaky_service false) long_terms !! "Taw"
    = Some (batch_record metazoa_record)
  ∧ sequential_lookup (flaky_service false) long_terms !! "Taw"
    = Some (batch_record metazoa_record).
Proof.
  assert (Hnd : NoDup long_terms) by apply NoDup_all_terms_to_match.
  assert (Hpar : parallel_lookup (flaky_service false) long_terms !! "Taw"
                 = Some (batch_record metazoa_record)) by (vm_compute; reflexivity).
  split; [exact Hnd|]. split; [exact Hpar|].
  exact (proj1 (fallback_keeps_more (flaky_service false) long_terms Hnd) _ _ Hpar).
Defined.

(** ** The entries of the lookup table *)

Section TableEntries.

Variable env : Env.

Lemma batch_entries_lookup b raw k name :
  aphiaRecordsByMatchNames env b.2 = Returns raw →
  NoDup b.2 → (length raw ≤ length b.2)%nat → b.2 !! k = Some name →
  batch_entries env b !! name = batch_record <$> (raw !! k ≫= first_accepted).
Proof.
  intros Hraw Hnd Hlen Hk.
  pose proof (record_matches_in_range b.2 raw 0 ∅ Hlen) as Hok.
  pose proof (record_matches_lookup b.2 raw 0 ∅ k name Hnd Hk Hlen) as Hlk.
  assert ((record_matches b.2 0 raw ∅).1 !! name
          = batch_record <$> (raw !! k ≫= first_accepted)) as Hent.
  { rewrite Hlk, Nat.sub_0_r, lookup_empty.
    destruct (decide (0 ≤ k < 0 + length raw)%nat) as [Hin|Hout].
    - by destruct (raw !! k ≫= first_accepted).
    - rewrite lookup_ge_None_2 by lia. done. }
  unfold batch_entries, sequential_batch, get_worms_batch_worker.
  destruct b as [n chunk]. cbn [snd] in *. rewrite Hraw.
  destruct (pool_map_raises env); [exact Hent|].
  by destruct (record_matches chunk 0 raw ∅) as [results [[]|]].
Qed.

Lemma build_batch_lookup_None (terms : list string) i b name :
  NoDup terms → batch_data terms !! i = Some b → name ∈ b.2 →
  batch_entries env b !! name = None →
  build_batch_lookup env terms !! name = None.
Proof.
  intros Hnd Hb Hin Hnone.
  destruct (build_batch_lookup env terms !! name) as [found|] eqn:E; [|done].
  exfalso. rewrite build_batch_lookup_eq in E.
  apply foldl_union_entry in E as (m & Hm & Hname).
  apply list_elem_of_lookup in Hm as [j Hj].
  change (map ?f ?l) with (f <$> l) in Hj.
  apply list_lookup_fmap_Some in Hj as (b' & -> & Hb').
  destruct (decide (i = j)) as [->|Hij].
  - rewrite Hb in Hb'. injection Hb' as <-. congruence.
  - apply batch_entries_entry in Hname as [Hin' _].
    by eapply (batch_chunks_disjoint terms i j).
Qed.

End TableEntries.

(** X17 (entries of the lookup table).  On a list of distinct terms, for
    a batch the service answers with no more lists than names, on either
    path the lookup table holds for the name at a position of the batch the
    record built from the first accepted candidate of the answer at that
    position, and no entry when that answer has no accepted candidate or
    is missing; for a batch whose call raises it holds no entry for any of
    the batch's names. *)
Theorem lookup_table_entries env (terms : list string) i b :
  NoDup terms → batch_data terms !! i = Some b →
  (∀ raw k name,
     aphiaRecordsByMatchNames env b.2 = Returns raw →
     (length raw ≤ length b.2)%nat → b.2 !! k = Some name →
     build_batch_lookup env terms !! name
     = batch_record <$> (raw !! k ≫= first_accepted))
  ∧ (aphiaRecordsByMatchNames env b.2 = Raises →
     ∀ name, name ∈ b.2 → build_batch_lookup env terms !! name = None).
Proof.
  intros Hnd Hb.
  assert (b ∈ batch_data terms) as Hbin by (by eapply list_elem_of_lookup_2).
  split.
  - intros raw k name Hraw Hlen Hk.
    pose proof (batch_entries_lookup env b raw k name Hraw
                  (NoDup_chunk terms b Hnd Hbin) Hlen Hk) as Hent.
    destruct (batch_record <$> (raw !! k ≫= first_accepted)) as [found|] eqn:E.
    + by apply (batch_entries_kept env terms i b).
    + apply (build_batch_lookup_None env terms i b); [done|done| |done].
      by eapply list_elem_of_lookup_2.
  - intros Hraise name Hin.
    apply (build_batch_lookup_None env terms i b); [done..|].
    by rewrite (batch_entries_raises env b Hraise).
Qed.

Lemma lookup_table_entries_witness :
  NoDup long_terms
  ∧ batch_data long_terms !! 1%nat = Some second_batch
  ∧ batch_data long_terms !! 0%nat = Some first_batch
  ∧ aphiaRecordsByMatchNames (flaky_service false) first_batch.2 = Raises
  ∧ build_batch_lookup (flaky_service false) long_terms !! "Taa" = None
  ∧ build_batch_lookup (flaky_service false) long_terms !! "Taw"
    = Some (batch_record metazoa_record).
Proof.
  assert (Hnd : NoDup long_terms) by apply NoDup_all_terms_to_match.
  assert (H1 : batch_data long_terms !! 1%nat = Some second_batch)
    by (vm_compute; reflexivity).
  assert (H0 : batch_data long_terms !! 0%nat = Some first_batch)
    by (vm_compute; reflexivity).
  assert (Hraise : aphiaRecordsByMatchNames (flaky_service false) first_batch.2
                   = Raises) by (vm_compute; reflexivity).
  assert (Hin : "Taa" ∈ first_batch.2).
  { apply (bool_decide_unpack _). vm_compute. exact I. }
  split; [exact Hnd|]. split; [exact H1|]. split; [exact H0|].
  split; [exact Hraise|]. split.
  - exact (proj2 (lookup_table_entries (flaky_service false) long_terms 0
                    first_batch Hnd H0) Hraise "Taa" Hin).
  - assert (Hraw : aphiaRecordsByMatchNames (flaky_service false) second_batch.2
                   = Returns (map (λ _, [Some metazoa_record]) second_batch.2)).
    { vm_compute. reflexivity. }
    assert (Hk : ∃ k, second_batch.2 !! k = Some "Taw"
                      ∧ map (λ _, [Some metazoa_record]) second_batch.2 !! k
                        = Some [Some metazoa_record]).
    { exists 0%nat. split; vm_compute; reflexivity. }
    destruct Hk as (k & Hk & Hans).
    rewrite (proj1 (lookup_table_entries (flaky_service false) long_terms 1
                      second_batch Hnd H1) _ k "Taw" Hraw
               ltac:(rewrite length_map; done) Hk).
    rewrite Hans. reflexivity.
Defined.

(** ** Rows and distinct keys *)

Lemma final_cache_keys env params_dict df df' :
  unique_tuples df = unique_tuples df' →
  final_cache env params_dict df = final_cache env params_dict df'.
Proof.
  intros Hkeys.
  unfold final_cache, stage2_of, cache_after_stage1, keys_for_batch, stage1_of,
    cache_after_fast_path, keys_after_fast_path.
  by rewrite Hkeys.
Qed.

(** X18 (rows and distinct keys).  A run reads the table only through
    its list of distinct keys: when two tables have the same distinct
    (verbatimIdentification, assay_name) pairs in the same order of first
    occurrence, a row they share gets the same result row in both,
    wherever it stands.  So repeating rows, or adding rows with missing or
    unassigned values, changes nothing for the rows already there. *)
Theorem rows_depend_on_distinct_keys env params_dict df df' i j r :
  unique_tuples df = unique_tuples df' →
  df !! i = Some r → df' !! j = Some r →
  ∃ out out' r',
    get_worms_match_for_dataframe env params_dict df = Returns out
    ∧ get_worms_match_for_dataframe env params_dict df' = Returns out'
    ∧ out !! i = Some r' ∧ out' !! j = Some r'.
Proof.
  intros Hkeys Hi Hj.
  destruct (get_worms_match_columns env params_dict df) as (out & Hrun & _ & Hrows).
  destruct (get_worms_match_columns env params_dict df') as (out' & Hrun' & _ & Hrows').
  destruct (Hrows i r Hi) as (r1 & record & Hout & Hrec & _ & Hv & Ha & Hcols).
  destruct (Hrows' j r Hj) as (r2 & record' & Hout' & Hrec' & _ & Hv' & Ha' & Hcols').
  rewrite (final_cache_keys env params_dict df df' Hkeys) in Hrec.
  rewrite Hrec in Hrec'. injection Hrec' as <-.
  exists out, out', r1. split_and!; [done..|].
  rewrite Hout'. f_equal. destruct r1, r2. simpl in *. congruence.
Qed.

Lemma rows_depend_on_distinct_keys_witness :
  unique_tuples sample_table
  = unique_tuples (sample_row (Some "unassigned") "12S"
                   :: sample_table ++ [sample_row (Some "Bacteria") "18S"])
  ∧ sample_table !! 3%nat = Some (sample_row (Some "Eukaryota;Metazoa;Xx") "16S")
  ∧ (sample_row (Some "unassigned") "12S"
     :: sample_table ++ [sample_row (Some "Bacteria") "18S"]) !! 4%nat
    = Some (sample_row (Some "Eukaryota;Metazoa;Xx") "16S")
  ∧ ∃ out out' r',
      get_worms_match_for_dataframe sample_service sample_params sample_table
      = Returns out
      ∧ get_worms_match_for_dataframe sample_service sample_params
          (sample_row (Some "unassigned") "12S"
           :: sample_table ++ [sample_row (Some "Bacteria") "18S"])
        = Returns out'
      ∧ out !! 3%nat = Some r' ∧ out' !! 4%nat = Some r'.
Proof.
  assert (Hkeys : unique_tuples sample_table
                  = unique_tuples (sample_row (Some "unassigned") "12S"
                                   :: sample_table
                                      ++ [sample_row (Some "Bacteria") "18S"]))
    by (vm_compute; reflexivity).
  split; [exact Hkeys|]. split; [reflexivity|]. split; [reflexivity|].
  exact (rows_depend_on_distinct_keys sample_service sample_params sample_table _
           3 4 (sample_row (Some "Eukaryota;Metazoa;Xx") "16S")
           Hkeys eq_refl eq_refl).
Defined.

(** * The call with its process pools *)

Section Pools.

Variable env : Env.
Variable machine : Machine.
Variable params_dict : Params.
Variable n : Z.

(** Whether the pool of Stage 1, created with [n] processes, raises. *)
Local Abbreviation pool1_raises := (pool_refused n || stage1_pool_raises machine).

Local Abbreviation env2 := (with_pool env (stage2_pool_raises env n)).

Lemma stage1_with_pool_eq c l :
  stage1_with_pool env machine params_dict n c l
  = if bool_decide (aphia_id_map (stage1 env params_dict c l).2 ≠ []) && pool1_raises
    then Raises else Returns (stage1 env params_dict c l).
Proof.
  unfold stage1_with_pool, stage1, stage1_pool_map.
  case_bool_decide as Hp; cbn [snd]; [|by rewrite bool_decide_eq_false_2 by naive_solver].
  destruct (aphia_id_map (prematch params_dict l)) as [|[id g] groups] eqn:Hg.
  - by rewrite bool_decide_eq_false_2 by naive_solver.
  - rewrite bool_decide_eq_true_2 by done. cbn [fmap list_fmap fst andb].
    by destruct pool1_raises.
Qed.

Lemma with_pool_stage1 flag c l :
  stage1 (with_pool env flag) params_dict c l = stage1 env params_dict c l.
Proof. reflexivity. Qed.

Lemma with_pool_table (flag : bool) (terms : list string) :
  build_batch_lookup (with_pool env flag) terms
  = if flag then sequential_lookup env terms else parallel_lookup env terms.
Proof. by destruct flag. Qed.

Lemma with_pool_entries (flag : bool) b :
  batch_entries (with_pool env flag) b
  = if flag then sequential_batch env ∅ b else (get_worms_batch_worker env b).2.
Proof. by destruct flag. Qed.

(** From Stage 1 on, the run raises exactly when the pool of Stage 1
    raises with an identifier to fetch; otherwise it is the run over the
    results of Stage 1, with the outcome of the pool of Stage 2. *)
Lemma run_with_pools_eq df :
  run_with_pools env machine df params_dict n
  = if bool_decide (identifier_groups env params_dict df ≠ []) && pool1_raises
    then Raises else get_worms_match_for_dataframe env2 params_dict df.
Proof.
  unfold run_with_pools. rewrite stage1_with_pool_eq.
  fold (stage1_of env params_dict df). fold (identifier_groups env params_dict df).
  destruct (bool_decide (identifier_groups env params_dict df ≠ []) && pool1_raises);
    [done|].
  unfold get_worms_match_for_dataframe, final_cache, stage2_of, cache_after_stage1,
    keys_for_batch, stage1_of.
  rewrite with_pool_stage1.
  destruct (stage1 env params_dict _ _) as [[c u] st]. cbn [fst snd].
  by destruct (stage2 env2 params_dict c u).
Qed.

Lemma run_with_pools_returns df :
  identifier_groups env params_dict df = [] ∨ pool1_raises = false →
  ∃ out, run_with_pools env machine df params_dict n = Returns out
         ∧ get_worms_match_for_dataframe env2 params_dict df = Returns out.
Proof.
  intros Hok. rewrite run_with_pools_eq.
  destruct (get_worms_match_rows env2 params_dict df) as (out & Hrun & _).
  exists out. split; [|done].
  destruct Hok as [Hnil|Hpool].
  - by rewrite bool_decide_eq_false_2 by naive_solver.
  - by rewrite Hpool, andb_false_r.
Qed.

Lemma run_with_pools_raises df :
  run_with_pools env machine df params_dict n = Raises
  ↔ identifier_groups env params_dict df ≠ [] ∧ pool1_raises = true.
Proof.
  rewrite run_with_pools_eq.
  destruct (get_worms_match_rows env2 params_dict df) as (out & Hrun & _).
  case_bool_decide as Hg; cbn [andb].
  - destruct pool1_raises; [naive_solver|]. rewrite Hrun. naive_solver.
  - rewrite Hrun. naive_solver.
Qed.

(** Stage 1 returns exactly when the run from Stage 1 on returns. *)
Lemma stage1_raises_iff df :
  stage1_with_pool env machine params_dict n
    (cache_after_fast_path params_dict df) (keys_after_fast_path params_dict df)
  = Raises
  ↔ identifier_groups env params_dict df ≠ [] ∧ pool1_raises = true.
Proof.
  rewrite stage1_with_pool_eq.
  fold (stage1_of env params_dict df). fold (identifier_groups env params_dict df).
  case_bool_decide as Hg; cbn [andb]; [|naive_solver].
  destruct pool1_raises; naive_solver.
Qed.

End Pools.

Section Call.

Variable env : Env.
Variable machine : Machine.
Variable params_dict : Params.
Variable n_proc : Z.

Lemma call_with_processes df n :
  processes machine n_proc = Returns n →
  get_worms_match_for_dataframe_call env machine df params_dict n_proc
  = run_with_pools env machine df params_dict n.
Proof. intros Hn. unfold get_worms_match_for_dataframe_call. by rewrite Hn. Qed.

Lemma call_without_processes df :
  processes machine n_proc = Raises →
  get_worms_match_for_dataframe_call env machine df params_dict n_proc = Raises.
Proof. intros Hn. unfold get_worms_match_for_dataframe_call. by rewrite Hn. Qed.

(** A call that returns is the run with the number of processes it
    computed. *)
Lemma call_returned df out :
  get_worms_match_for_dataframe_call env machine df params_dict n_proc = Returns out →
  ∃ n, processes machine n_proc = Returns n
       ∧ get_worms_match_for_dataframe (with_pool env (stage2_pool_raises env n))
           params_dict df = Returns out.
Proof.
  unfold get_worms_match_for_dataframe_call.
  destruct (processes machine n_proc) as [n|]; [|done].
  rewrite run_with_pools_eq. destruct (_ && _); [done|]. intros Hrun.
  by exists n.
Qed.

(** The number of processes is known unless [n_proc] is 0 and the
    count of the processors raises. *)
Lemma processes_raises :
  processes machine n_proc = Raises ↔ n_proc = 0 ∧ cpu_count machine = Raises.
Proof.
  unfold processes. destruct (Z.eqb_spec n_proc 0) as [->|Hne].
  - destruct (cpu_count machine); naive_solver.
  - naive_solver.
Qed.

End Call.

(** C1 (totality of assembly), as the code has it.  After the call
    returns, every row of the input has, at the same place of the result,
    a row with the seven standard rank columns [kingdom] ... [species]
    (possibly holding a missing value) and a column [scientificName]; that
    column holds a name, not a missing value, as soon as every accepted
    record the remote service returns carries a scientific name (the code
    copies the name of the record matched with [get], unchecked, and writes
    "incertae sedis" everywhere else).  The call does return once the
    number of processes is known, unless the pool of Stage 1 raises with an
    identifier to fetch. *)
Theorem totality_of_assembly env machine params_dict df n_proc :
  (∀ out,
     get_worms_match_for_dataframe_call env machine df params_dict n_proc
     = Returns out →
     length out = length df
     ∧ ∀ i r, df !! i = Some r →
         ∃ r', out !! i = Some r'
               ∧ Forall (λ rank, is_Some (columns r' !! rank)) DWC_RANKS_STD
               ∧ is_Some (columns r' !! "scientificName")
               ∧ (service_names_accepted env →
                  ∃ name, columns r' !! "scientificName" = Some (Some name)))
  ∧ (∀ n,
       processes machine n_proc = Returns n →
       identifier_groups env params_dict df = []
       ∨ pool_refused n || stage1_pool_raises machine = false →
       ∃ out, get_worms_match_for_dataframe_call env machine df params_dict n_proc
              = Returns out).
Proof.
  split.
  - intros out Hcall.
    apply call_returned in Hcall as (n & _ & Hrun).
    set (env2 := with_pool env (stage2_pool_raises env n)) in *.
    destruct (get_worms_match_rows env2 params_dict df) as (out' & Hrun' & Hlen & Hrows).
    rewrite Hrun' in Hrun. injection Hrun as <-. split; [done|].
    intros i r Hi.
    destruct (Hrows i r Hi) as (r' & record & Hout & Hrec & _ & _ & Hcols).
    destruct (final_cache_complete env2 params_dict df r record)
      as (Hranks & Hs & Hn); [by eapply list_elem_of_lookup_2|done|].
    exists r'. split_and!; [done| | |].
    + unfold has_rank_fields in Hranks. rewrite Forall_forall in Hranks.
      apply Forall_forall. intros rank Hin.
      rewrite Hcols; [by apply Hranks| |by apply Hranks].
      intros ->. apply list_elem_of_In in Hin. simpl in Hin.
      intuition discriminate.
    + rewrite Hcols; done.
    + intros Hsvc. rewrite Hcols; [|done|done]. apply Hn. exact Hsvc.
  - intros n Hn Hok. rewrite (call_with_processes env machine params_dict n_proc df n Hn).
    destruct (run_with_pools_returns env machine params_dict n df Hok)
      as (out & Hcall & _). by exists out.
Qed.

(** ** The lookup table and the answers of the service *)

Section TableOfAnswers.

Variable env : Env.
Variable terms : list string.
Hypothesis terms_distinct : NoDup terms.

Lemma table_entry_of_answer i b raw k name :
  batch_data terms !! i = Some b →
  aphiaRecordsByMatchNames env b.2 = Returns raw →
  (length raw ≤ length b.2)%nat → b.2 !! k = Some name →
  build_batch_lookup env terms !! name
  = batch_record <$> (raw !! k ≫= first_accepted).
Proof.
  intros Hb Hraw Hlen Hk.
  assert (b ∈ batch_data terms) as Hbin by (by eapply list_elem_of_lookup_2).
  pose proof (batch_entries_lookup env b raw k name Hraw
                (NoDup_chunk terms b terms_distinct Hbin) Hlen Hk) as Hent.
  destruct (batch_record <$> (raw !! k ≫= first_accepted)) as [found|] eqn:E.
  - by apply (batch_entries_kept env terms i b).
  - apply (build_batch_lookup_None env terms i b); [done|done| |done].
    by eapply list_elem_of_lookup_2.
Qed.

Lemma table_no_entry_on_raise i b name :
  batch_data terms !! i = Some b →
  aphiaRecordsByMatchNames env b.2 = Raises → name ∈ b.2 →
  build_batch_lookup env terms !! name = None.
Proof.
  intros Hb Hraise Hin.
  apply (build_batch_lookup_None env terms i b); [done..|].
  by rewrite (batch_entries_raises env b Hraise).
Qed.

End TableOfAnswers.

Section BothPaths.

Variable env : Env.
Variable terms : list string.
Hypothesis terms_distinct : NoDup terms.

Lemma both_paths_entry i b raw k name :
  batch_data terms !! i = Some b →
  aphiaRecordsByMatchNames env b.2 = Returns raw →
  (length raw ≤ length b.2)%nat → b.2 !! k = Some name →
  parallel_lookup env terms !! name = batch_record <$> (raw !! k ≫= first_accepted)
  ∧ sequential_lookup env terms !! name
    = batch_record <$> (raw !! k ≫= first_accepted).
Proof.
  intros Hb Hraw Hlen Hk. split.
  - rewrite <- (with_pool_table env false terms).
    by apply (table_entry_of_answer (with_pool env false) terms terms_distinct i b).
  - rewrite <- (with_pool_table env true terms).
    by apply (table_entry_of_answer (with_pool env true) terms terms_distinct i b).
Qed.

Lemma both_paths_raise i b name :
  batch_data terms !! i = Some b →
  aphiaRecordsByMatchNames env b.2 = Raises → name ∈ b.2 →
  parallel_lookup env terms !! name = None
  ∧ sequential_lookup env terms !! name = None.
Proof.
  intros Hb Hraise Hin. split.
  - rewrite <- (with_pool_table env false terms).
    by apply (table_no_entry_on_raise (with_pool env false) terms terms_distinct i b).
  - rewrite <- (with_pool_table env true terms).
    by apply (table_no_entry_on_raise (with_pool env true) terms terms_distinct i b).
Qed.

Lemma both_paths_kept i b name found :
  batch_data terms !! i = Some b →
  ((get_worms_batch_worker env b).2 !! name = Some found →
   parallel_lookup env terms !! name = Some found)
  ∧ (sequential_batch env ∅ b !! name = Some found →
     sequential_lookup env terms !! name = Some found).
Proof.
  intros Hb. split; intros Hentry.
  - rewrite <- (with_pool_table env false terms).
    apply (batch_entries_kept (with_pool env false) terms i b); [done..|].
    by rewrite with_pool_entries.
  - rewrite <- (with_pool_table env true terms).
    apply (batch_entries_kept (with_pool env true) terms i b); [done..|].
    by rewrite with_pool_entries.
Qed.

End BothPaths.

(** C6 (batch-failure isolation).  In a run, take any batch of the terms
    sent to the service.  If the remote call for that batch raises, the
    batch contributes no entry: its worker returns the empty dictionary,
    the sequential fallback leaves the table as it was, and on either path
    the lookup table has no entry for any name of the batch.  Every other
    batch keeps what it produced, on the parallel path and on the
    sequential path alike: for a batch the service answers with no more
    lists than names, the table holds for the name at a position the record
    built from the first accepted candidate of the answer at that position;
    whatever a batch's worker or the fallback wrote for a batch is in the
    table of its path.  The table of the run is the one of the sequential
    path when the pool of Stage 2 raises and the one of the parallel path
    otherwise, and a key whose scan finds a term in it gets the record
    built from that entry in the final cache.  No exception of Stage 2
    leaves the run: once it has the number of its processes, the call
    raises only where Stage 1 raises, and returns a table whenever Stage 1
    has returned. *)
Theorem batch_failure_isolation env machine params_dict df n_proc n i batch_info :
  let terms := all_terms_to_match env (keys_for_batch env params_dict df) in
  let env2 := with_pool env (stage2_pool_raises env n) in
  processes machine n_proc = Returns n →
  batch_data terms !! i = Some batch_info →
  (aphiaRecordsByMatchNames env batch_info.2 = Raises →
   (get_worms_batch_worker env batch_info).2 = ∅
   ∧ (∀ batch_lookup, sequential_batch env batch_lookup batch_info = batch_lookup)
   ∧ ∀ name, name ∈ batch_info.2 →
       parallel_lookup env terms !! name = None
       ∧ sequential_lookup env terms !! name = None)
  ∧ (∀ j other raw k name,
       batch_data terms !! j = Some other →
       aphiaRecordsByMatchNames env other.2 = Returns raw →
       (length raw ≤ length other.2)%nat → other.2 !! k = Some name →
       parallel_lookup env terms !! name
       = batch_record <$> (raw !! k ≫= first_accepted)
       ∧ sequential_lookup env terms !! name
         = batch_record <$> (raw !! k ≫= first_accepted))
  ∧ (∀ j other name found,
       batch_data terms !! j = Some other →
       ((get_worms_batch_worker env other).2 !! name = Some found →
        parallel_lookup env terms !! name = Some found)
       ∧ (sequential_batch env ∅ other !! name = Some found →
          sequential_lookup env terms !! name = Some found))
  ∧ batch_lookup_of env2 params_dict df
    = (if stage2_pool_raises env n
       then sequential_lookup env terms else parallel_lookup env terms)
  ∧ (∀ t term found,
       t ∈ keys_for_batch env params_dict df →
       terms_for_matching params_dict t ≠ [] →
       first_in_lookup (batch_lookup_of env2 params_dict df)
                       (reverse (terms_for_matching params_dict t))
       = Some (term, found) →
       final_cache env2 params_dict df !! Combo t
       = Some (batch_success params_dict found term
                 (PyStr.join ";" (terms_for_matching params_dict t))))
  ∧ (get_worms_match_for_dataframe_call env machine df params_dict n_proc = Raises
     ↔ stage1_with_pool env machine params_dict n
         (cache_after_fast_path params_dict df) (keys_after_fast_path params_dict df)
       = Raises)
  ∧ (∀ s,
       stage1_with_pool env machine params_dict n
         (cache_after_fast_path params_dict df) (keys_after_fast_path params_dict df)
       = Returns s →
       ∃ out,
         get_worms_match_for_dataframe_call env machine df params_dict n_proc
         = Returns out
         ∧ get_worms_match_for_dataframe env2 params_dict df = Returns out).
Proof.
  intros terms env2 Hn Hb.
  assert (NoDup terms) as Hnd by apply NoDup_all_terms_to_match.
  rewrite (call_with_processes env machine params_dict n_proc df n Hn).
  split_and!.
  - intros Hraise. split_and!.
    + unfold get_worms_batch_worker. destruct batch_info as [m chunk].
      simpl in Hraise. by rewrite Hraise.
    + intros L. unfold sequential_batch. by rewrite Hraise.
    + intros name Hin. by apply (both_paths_raise env terms Hnd i batch_info).
  - intros j other raw k name Hother Hraw Hlen Hk.
    by apply (both_paths_entry env terms Hnd j other).
  - intros j other name found Hother.
    by apply (both_paths_kept env terms Hnd j other).
  - unfold batch_lookup_of. apply (with_pool_table env).
  - intros t term found Ht Hterms Hf.
    rewrite (final_record_for_batch_key env2 params_dict df t Ht).
    unfold stage2_record. rewrite Hf.
    by destruct (terms_for_matching params_dict t).
  - by rewrite run_with_pools_raises, stage1_raises_iff.
  - intros s H1.
    apply run_with_pools_returns.
    destruct (identifier_groups env params_dict df) as [|g gs] eqn:Hg; [by left|].
    right.
    destruct (pool_refused n || stage1_pool_raises machine) eqn:Hpool; [|done].
    exfalso.
    assert (stage1_with_pool env machine params_dict n
              (cache_after_fast_path params_dict df)
              (keys_after_fast_path params_dict df) = Raises) as H1'.
    { apply stage1_raises_iff. by rewrite Hg. }
    congruence.
Qed.

(** C9 (Stage 1 deferral and fall-through).  For a key left by the fast
    path whose assay skips species, Stage 1 never tests the local
    dictionary, puts the key in no identifier group and hands it to the
    Batch Matcher.  When the fetch of an identifier raises, returns nothing,
    or returns a record whose status is not "accepted" (the worker catches
    the exception), every key grouped under that identifier (each of them a
    hit of the local dictionary) is handed to the Batch Matcher and has no
    record in the cache after Stage 1.  These are the results of Stage 1
    whenever it returns, and no fetch aborts the run: once the number of
    processes is known, the call returns whenever the pool of Stage 1
    delivers, whatever the service does, and it raises exactly when that
    pool raises with an identifier to fetch.  Before Stage 1, the call
    raises only when [n_proc] is 0 and the count of the processors
    raises. *)
Theorem prematch_deferral_and_fallthrough env machine params_dict df n_proc :
  (∀ v a,
     (v, a) ∈ keys_after_fast_path params_dict df →
     a ∈ assays_to_skip_species params_dict →
     ((v, a) ∉ dictionary_lookups env params_dict df)
     ∧ (∀ id, (v, a) ∉ group_get id (identifier_groups env params_dict df))
     ∧ (v, a) ∈ keys_for_batch env params_dict df)
  ∧ (∀ id t,
       t ∈ group_get id (identifier_groups env params_dict df) →
       match aphiaRecordByAphiaID env id with
       | Returns (Some record) => accepted record = false
       | _ => True
       end →
       (∃ species_name,
          last (parse_semicolon_taxonomy (Some t.1)) = Some species_name
          ∧ pr2_dict params_dict !! species_name = Some id)
       ∧ t ∈ keys_for_batch env params_dict df
       ∧ cache_after_stage1 env params_dict df !! Combo t = None)
  ∧ (∀ n s,
       stage1_with_pool env machine params_dict n
         (cache_after_fast_path params_dict df) (keys_after_fast_path params_dict df)
       = Returns s →
       s = stage1_of env params_dict df)
  ∧ (∀ n,
       processes machine n_proc = Returns n →
       (pool_refused n || stage1_pool_raises machine = false →
        ∃ out, get_worms_match_for_dataframe_call env machine df params_dict n_proc
               = Returns out)
       ∧ (get_worms_match_for_dataframe_call env machine df params_dict n_proc = Raises
          ↔ identifier_groups env params_dict df ≠ []
            ∧ pool_refused n || stage1_pool_raises machine = true))
  ∧ (processes machine n_proc = Raises
     ↔ n_proc = 0 ∧ cpu_count machine = Raises)
  ∧ (processes machine n_proc = Raises →
     get_worms_match_for_dataframe_call env machine df params_dict n_proc = Raises).
Proof.
  split_and!.
  - intros v a Hkey Ha.
    unfold dictionary_lookups, identifier_groups, keys_for_batch, stage1_of. split_and!.
    + rewrite stage1_lookups. case_bool_decide; [|by intros ?%elem_of_nil].
      rewrite list_elem_of_filter, looks_up_skip by done. by intros [? _].
    + intros id Hin. apply stage1_groups in Hin as (_ & _ & Hid).
      by rewrite prematch_id_skip in Hid.
    + apply elem_of_stage1_unmatched. split; [done|]. by apply stage1_record_skip.
  - intros id t Hin Hfail. unfold identifier_groups, stage1_of in Hin.
    apply stage1_groups in Hin as (Hp & Hl & Hid).
    assert (t ∈ keys_for_batch env params_dict df) as Hu.
    { unfold keys_for_batch, stage1_of. apply elem_of_stage1_unmatched. split; [done|].
      by eapply stage1_record_failed. }
    split_and!; [|done|by apply stage1_of_cache_untouched].
    unfold prematch_id in Hid. case_bool_decide; [done|].
    destruct (last (parse_semicolon_taxonomy (Some t.1))) as [sp|]; [|done].
    exists sp. done.
  - intros n s H1. rewrite stage1_with_pool_eq in H1.
    destruct (_ && _); [done|]. by injection H1 as <-.
  - intros n Hn.
    rewrite (call_with_processes env machine params_dict n_proc df n Hn). split.
    + intros Hpool.
      destruct (run_with_pools_returns env machine params_dict n df (or_intror Hpool))
        as (out & Hcall & _). by exists out.
    + apply run_with_pools_raises.
  - apply processes_raises.
  - apply call_without_processes.
Qed.

(** ** The claims about the call on the sample runs *)

Lemma totality_of_assembly_witness :
  sample_table !! 0%nat = Some (sample_row (Some "Eukaryota;Metazoa_sp.2;") "18S")
  ∧ service_names_accepted sample_service
  ∧ processes sample_machine 0 = Returns 3
  ∧ ∃ out r',
      get_worms_match_for_dataframe_call sample_service sample_machine
        sample_table sample_params 0
      = Returns out
      ∧ out !! 0%nat = Some r'
      ∧ Forall (λ rank, is_Some (columns r' !! rank)) DWC_RANKS_STD
      ∧ ∃ name, columns r' !! "scientificName" = Some (Some name).
Proof.
  split; [reflexivity|]. split; [exact sample_service_names|]. split; [reflexivity|].
  destruct (totality_of_assembly sample_service sample_machine sample_params
              sample_table 0) as (Hrows & Hreturns).
  destruct (Hreturns 3 eq_refl (or_intror eq_refl)) as (out & Hcall).
  destruct (Hrows out Hcall) as (_ & Hrow).
  destruct (Hrow 0%nat (sample_row (Some "Eukaryota;Metazoa_sp.2;") "18S") eq_refl)
    as (r' & Hout & Hranks & _ & Hname).
  exists out, r'. split_and!; [exact Hcall|exact Hout|exact Hranks|].
  exact (Hname sample_service_names).
Defined.

(** C1, as stated, fails: when the service answers with an accepted record
    that carries no scientific name, the call returns and the row matched
    through that record has a missing value in [scientificName]. *)
Lemma accepted_record_without_name :
  accepted nameless_record = true
  ∧ ∃ r',
      get_worms_match_for_dataframe_call nameless_service sample_machine
        bacteria_table plain_params 0
      = Returns [r']
      ∧ columns r' !! "scientificName" = Some None
      ∧ columns r' !! "match_type_debug" = Some (Some "Success_Batch_Bacteria").
Proof.
  split; [reflexivity|]. eexists. split_and!; vm_compute; reflexivity.
Qed.

Lemma batch_failure_isolation_witness :
  processes sample_machine (-1) = Returns (-1)
  ∧ batch_data long_terms !! 0%nat = Some first_batch
  ∧ batch_data long_terms !! 1%nat = Some second_batch
  ∧ aphiaRecordsByMatchNames (flaky_service false) first_batch.2 = Raises
  ∧ "Taa" ∈ first_batch.2
  ∧ parallel_lookup (flaky_service false) long_terms !! "Taa" = None
  ∧ sequential_lookup (flaky_service false) long_terms !! "Taa" = None
  ∧ parallel_lookup (flaky_service false) long_terms !! "Taw"
    = Some (batch_record metazoa_record)
  ∧ sequential_lookup (flaky_service false) long_terms !! "Taw"
    = Some (batch_record metazoa_record)
  ∧ stage2_pool_raises (flaky_service false) (-1) = true
  ∧ (∃ out,
       get_worms_match_for_dataframe_call (flaky_service false) sample_machine
         long_table plain_params (-1)
       = Returns out)
  ∧ processes sample_machine 0 = Returns 3
  ∧ stage2_pool_raises (flaky_service true) 3 = true
  ∧ batch_lookup_of (with_pool (flaky_service true)
                       (stage2_pool_raises (flaky_service true) 3))
      plain_params long_table !! "Taw"
    = Some (batch_record metazoa_record)
  ∧ batch_lookup_of (with_pool (flaky_service true)
                       (stage2_pool_raises (flaky_service true) 3))
      plain_params long_table !! "Taa"
    = None.
Proof.
  assert (H0 : batch_data long_terms !! 0%nat = Some first_batch)
    by (vm_compute; reflexivity).
  assert (H1 : batch_data long_terms !! 1%nat = Some second_batch)
    by (vm_compute; reflexivity).
  assert (Hraise : aphiaRecordsByMatchNames (flaky_service false) first_batch.2 = Raises)
    by (vm_compute; reflexivity).
  assert (Hin : "Taa" ∈ first_batch.2).
  { apply (bool_decide_unpack _). vm_compute. exact I. }
  assert (Hraw : aphiaRecordsByMatchNames (flaky_service false) second_batch.2
                 = Returns (map (λ _, [Some metazoa_record]) second_batch.2))
    by (vm_compute; reflexivity).
  assert (Hk : second_batch.2 !! 0%nat = Some "Taw") by (vm_compute; reflexivity).
  assert (Hlen : (length (map (λ _ : string, [Some metazoa_record]) second_batch.2)
                  ≤ length second_batch.2)%nat) by (by rewrite length_map).
  destruct (batch_failure_isolation (flaky_service false) sample_machine plain_params
              long_table (-1) (-1) 0%nat first_batch eq_refl H0)
    as (Hfail & Hentry & _ & _ & _ & _ & Hreturns).
  destruct (Hfail Hraise) as (_ & _ & Hnone).
  destruct (Hnone "Taa" Hin) as [Hpar Hseq].
  destruct (Hentry 1%nat second_batch _ 0%nat "Taw" H1 Hraw Hlen Hk) as [Hpar' Hseq'].
  destruct (Hreturns _ eq_refl) as (out & Hcall & _).
  assert (H0' : batch_data
                  (all_terms_to_match (flaky_service true)
                     (keys_for_batch (flaky_service true) plain_params long_table))
                !! 0%nat = Some first_batch) by (vm_compute; reflexivity).
  assert (H1' : batch_data
                  (all_terms_to_match (flaky_service true)
                     (keys_for_batch (flaky_service true) plain_params long_table))
                !! 1%nat = Some second_batch) by (vm_compute; reflexivity).
  destruct (batch_failure_isolation (flaky_service true) sample_machine plain_params
              long_table 0 3 0%nat first_batch eq_refl H0')
    as (Hfail2 & Hentry2 & _ & Htable2 & _).
  destruct (Hfail2 Hraise) as (_ & _ & Hnone2).
  destruct (Hnone2 "Taa" Hin) as [_ Hseq2].
  destruct (Hentry2 1%nat second_batch _ 0%nat "Taw" H1' Hraw Hlen Hk) as [_ Hseq2'].
  split_and!; [reflexivity|exact H0|exact H1|exact Hraise|exact Hin|exact Hpar|exact Hseq
              |exact Hpar'|exact Hseq'|reflexivity|by exists out|reflexivity|reflexivity
              |exact (eq_trans (f_equal (λ m, m !! "Taw") Htable2) Hseq2')
              |exact (eq_trans (f_equal (λ m, m !! "Taa") Htable2) Hseq2)].
Defined.

Lemma prematch_deferral_and_fallthrough_witness :
  ("Bacteria", "16S") ∈ keys_after_fast_path sample_params sample_table
  ∧ "16S" ∈ assays_to_skip_species sample_params
  ∧ ("Bacteria", "16S") ∈ keys_for_batch sample_service sample_params sample_table
  ∧ ("Bacteria", "18S")
    ∈ group_get 6 (identifier_groups sample_service sample_params sample_table)
  ∧ aphiaRecordByAphiaID sample_service 6 = Raises
  ∧ ("Bacteria", "18S") ∈ keys_for_batch sample_service sample_params sample_table
  ∧ cache_after_stage1 sample_service sample_params sample_table
      !! Combo ("Bacteria", "18S") = None
  ∧ processes sample_machine 0 = Returns 3
  ∧ pool_refused 3 || stage1_pool_raises sample_machine = false
  ∧ (∃ out,
       get_worms_match_for_dataframe_call sample_service sample_machine
         sample_table sample_params 0
       = Returns out)
  ∧ processes sample_machine (-1) = Returns (-1)
  ∧ pool_refused (-1) = true
  ∧ get_worms_match_for_dataframe_call sample_service sample_machine
      sample_table sample_params (-1)
    = Raises
  ∧ processes blind_machine 0 = Raises
  ∧ get_worms_match_for_dataframe_call sample_service blind_machine
      sample_table sample_params 0
    = Raises.
Proof.
  assert (Hleft : ("Bacteria", "16S") ∈ keys_after_fast_path sample_params sample_table).
  { apply (bool_decide_unpack _). vm_compute. exact I. }
  assert (Hskip : "16S" ∈ assays_to_skip_species sample_params).
  { apply (bool_decide_unpack _). vm_compute. exact I. }
  assert (Hgroup : ("Bacteria", "18S")
            ∈ group_get 6 (identifier_groups sample_service sample_params sample_table)).
  { apply (bool_decide_unpack _). vm_compute. exact I. }
  assert (Hraise : aphiaRecordByAphiaID sample_service 6 = Raises).
  { reflexivity. }
  assert (Hgroups : identifier_groups sample_service sample_params sample_table ≠ []).
  { vm_compute. discriminate. }
  destruct (prematch_deferral_and_fallthrough sample_service sample_machine
              sample_params sample_table 0) as (Hdefer & Hfall & _ & Hcall & _).
  destruct (prematch_deferral_and_fallthrough sample_service sample_machine
              sample_params sample_table (-1)) as (_ & _ & _ & Hcall' & _).
  destruct (prematch_deferral_and_fallthrough sample_service blind_machine
              sample_params sample_table 0) as (_ & _ & _ & _ & _ & Hblind).
  destruct (Hdefer "Bacteria" "16S" Hleft Hskip) as (_ & _ & Hbatch).
  assert (Hfail : match aphiaRecordByAphiaID sample_service 6 with
                  | Returns (Some record) => accepted record = false
                  | _ => True
                  end).
  { rewrite Hraise. exact I. }
  destruct (Hfall 6 ("Bacteria", "18S") Hgroup Hfail) as (_ & Hbatch' & Hcache).
  split_and!; [exact Hleft|exact Hskip|exact Hbatch|exact Hgroup|exact Hraise
              |exact Hbatch'|exact Hcache|reflexivity|reflexivity
              |exact (proj1 (Hcall 3 eq_refl) eq_refl)
              |reflexivity|reflexivity
              |exact (proj2 (proj2 (Hcall' (-1) eq_refl)) (conj Hgroups eq_refl))
              |reflexivity|exact (Hblind eq_refl)].
Defined.
